(** * Re-Redash notebook module: cell partition and sync engine

    A shallow embedding of [src/notebook.js]: the splitter
    ([parseQueries]), the joiner ([syncCellsToAceEditor]), the cell
    lifecycle operations ([addNewCell], [copyCell], [deleteCell],
    [renderCells]), the debounced cell update and the SQL comment toggle
    of the fallback text area.

    JavaScript strings are sequences of UTF-16 code units; they are
    modelled as lists of [N].  The module state [notebookState] is a
    record threaded through every operation; timers started with
    [setTimeout] are kept in a queue of pending callbacks. *)

From Stdlib Require Import ZArith NArith List Lia Bool String Ascii.
From Stdlib Require Import DecimalString DecimalNat.
From stdpp Require Import base list gmap.

Local Open Scope N_scope.

(** ** JavaScript strings *)

Module JS.

(** A string is a list of UTF-16 code units. *)
Definition jsstring : Type := list N.

(** A literal whose characters are all below 256. *)
Definition lit (s : string) : jsstring :=
  List.map N_of_ascii (list_ascii_of_string s).

Definition str_eqb (a b : jsstring) : bool := bool_decide (a = b).

(** ECMAScript [WhiteSpace] and [LineTerminator] code points; their
    union is what [String.prototype.trim] strips and what the regular
    expression class [\s] matches. *)
Definition is_line_terminator (c : N) : bool :=
  (c =? 10) || (c =? 13) || (c =? 8232) || (c =? 8233).

Definition is_white_space (c : N) : bool :=
  (c =? 9) || (c =? 11) || (c =? 12) || (c =? 32) || (c =? 160)
  || (c =? 5760) || ((8192 <=? c) && (c <=? 8202))
  || (c =? 8239) || (c =? 8287) || (c =? 12288) || (c =? 65279).

Definition is_space (c : N) : bool :=
  is_white_space c || is_line_terminator c.

Fixpoint dropWhile (p : N -> bool) (s : jsstring) : jsstring :=
  match s with
  | [] => []
  | c :: s' => if p c then dropWhile p s' else s
  end.

Fixpoint takeWhile (p : N -> bool) (s : jsstring) : jsstring :=
  match s with
  | [] => []
  | c :: s' => if p c then c :: takeWhile p s' else []
  end.

Definition trimStart (s : jsstring) : jsstring := dropWhile is_space s.
Definition trimEnd (s : jsstring) : jsstring :=
  rev (dropWhile is_space (rev s)).

(** [String.prototype.trim] *)
Definition trim (s : jsstring) : jsstring := trimEnd (trimStart s).

Definition is_empty (s : jsstring) : bool :=
  match s with [] => true | _ => false end.

(** [s.length > 0] *)
Definition nonempty (s : jsstring) : bool := negb (is_empty s).

Fixpoint starts_with (p s : jsstring) : bool :=
  match p, s with
  | [], _ => true
  | _ :: _, [] => false
  | a :: p', b :: s' => (a =? b) && starts_with p' s'
  end.

(** [String.prototype.split] with a string separator and no limit.
    [split_from sep cur skip s] scans [s] from left to right; [cur] is
    the fragment collected since the last match and [skip] counts the
    code units of a matched separator that are still to be passed. *)
Fixpoint split_from (sep cur : jsstring) (skip : nat) (s : jsstring)
  : list jsstring :=
  match s with
  | [] => [cur]
  | c :: s' =>
      match skip with
      | S k => split_from sep cur k s'
      | O =>
          if starts_with sep s
          then cur :: split_from sep [] (Nat.pred (length sep)) s'
          else split_from sep (cur ++ [c]) 0 s'
      end
  end.

Definition split (sep s : jsstring) : list jsstring :=
  match sep with
  | [] => List.map (fun c => [c]) s
  | _ :: _ => split_from sep [] 0 s
  end.

(** [Array.prototype.join] *)
Fixpoint join (sep : jsstring) (l : list jsstring) : jsstring :=
  match l with
  | [] => []
  | [x] => x
  | x :: l' => x ++ sep ++ join sep l'
  end.

(** Decimal rendering of a non-negative integer, as a template literal
    prints it. *)
Definition of_nat (n : nat) : jsstring :=
  lit (NilZero.string_of_uint (Nat.to_uint n)).

End JS.

Import JS.

(** ** Data model *)

(** A cell: [{ id, content }]. *)
Record Cell : Type := mkCell { id : jsstring; content : jsstring }.

(** The fields of [DEFAULT_CONFIG] that the engine reads. *)
Record Config : Type := mkConfig {
  querySeparator : jsstring;
  debounceDelay : nat
}.

Definition DEFAULT_CONFIG : Config :=
  {| querySeparator := lit ";"; debounceDelay := 300 |}.

(** The host page's editor handle, [notebookState.aceEditor]: its current
    value and the arguments of the [setValue] calls made so far, latest
    first. *)
Record AceEditor : Type := mkAce {
  buffer : jsstring;
  setValueCalls : list jsstring
}.

Definition getValue (ed : AceEditor) : jsstring := buffer ed.

Definition setValue (text : jsstring) (ed : AceEditor) : AceEditor :=
  {| buffer := text; setValueCalls := text :: setValueCalls ed |}.

(** A per-cell editing sub-widget stored in [notebookState.cellEditors].
    Its methods are called inside [try] blocks; [editorThrows] says
    whether they raise. *)
Record CellEditor : Type := mkCellEditor {
  liveValue : jsstring;
  editorThrows : bool
}.

Definition cellGetValue (e : CellEditor) : option jsstring :=
  if editorThrows e then None else Some (liveValue e).

(** The closures handed to [setTimeout]. *)
Inductive Callback : Type :=
| CreateCellAceEditor (cell : Cell) (index : nat)   (* createCellElement *)
| FocusNewCell (position : option Z)                (* addNewCell *)
| FocusCopiedCell (insertPosition : nat)            (* copyCell *)
| FocusCell (focusIndex : Z)                        (* deleteCell *)
| UpdateCellContent (index : Z) (text : jsstring).  (* debouncedUpdateCell *)

Record Timer : Type := mkTimer {
  handle : nat;
  due : nat;
  callback : Callback
}.

(** [notebookState] together with the parts of the page it acts on: the
    children of the [.notebook-cells] container, the pending timers, the
    clock read by [Date.now()] and whether [window.ace] is defined. *)
Record NotebookState : Type := mkState {
  cells : list Cell;
  aceEditor : option AceEditor;
  debounceTimer : option nat;
  isNotebookMode : bool;
  config : Config;
  cellEditors : gmap nat CellEditor;
  cellsContainer : list (Cell * nat);
  timers : list Timer;
  nextHandle : nat;
  now : nat;
  windowAce : bool
}.

Definition with_cells (v : list Cell) (s : NotebookState) : NotebookState :=
  mkState v (aceEditor s) (debounceTimer s) (isNotebookMode s) (config s)
    (cellEditors s) (cellsContainer s) (timers s) (nextHandle s) (now s)
    (windowAce s).

Definition with_aceEditor (v : option AceEditor) (s : NotebookState)
  : NotebookState :=
  mkState (cells s) v (debounceTimer s) (isNotebookMode s) (config s)
    (cellEditors s) (cellsContainer s) (timers s) (nextHandle s) (now s)
    (windowAce s).

Definition with_debounceTimer (v : option nat) (s : NotebookState)
  : NotebookState :=
  mkState (cells s) (aceEditor s) v (isNotebookMode s) (config s)
    (cellEditors s) (cellsContainer s) (timers s) (nextHandle s) (now s)
    (windowAce s).

Definition with_cellEditors (v : gmap nat CellEditor) (s : NotebookState)
  : NotebookState :=
  mkState (cells s) (aceEditor s) (debounceTimer s) (isNotebookMode s)
    (config s) v (cellsContainer s) (timers s) (nextHandle s) (now s)
    (windowAce s).

Definition with_cellsContainer (v : list (Cell * nat)) (s : NotebookState)
  : NotebookState :=
  mkState (cells s) (aceEditor s) (debounceTimer s) (isNotebookMode s)
    (config s) (cellEditors s) v (timers s) (nextHandle s) (now s)
    (windowAce s).

Definition with_timers (v : list Timer) (s : NotebookState) : NotebookState :=
  mkState (cells s) (aceEditor s) (debounceTimer s) (isNotebookMode s)
    (config s) (cellEditors s) (cellsContainer s) v (nextHandle s) (now s)
    (windowAce s).

Definition with_now (v : nat) (s : NotebookState) : NotebookState :=
  mkState (cells s) (aceEditor s) (debounceTimer s) (isNotebookMode s)
    (config s) (cellEditors s) (cellsContainer s) (timers s) (nextHandle s) v
    (windowAce s).

(** ** Timers *)

(** [setTimeout(cb, delay)]: queue the callback and return its handle. *)
Definition setTimeout (cb : Callback) (delay : nat) (s : NotebookState)
  : nat * NotebookState :=
  (nextHandle s,
   mkState (cells s) (aceEditor s) (debounceTimer s) (isNotebookMode s)
     (config s) (cellEditors s) (cellsContainer s)
     (timers s ++ [mkTimer (nextHandle s) (now s + delay) cb])
     (S (nextHandle s)) (now s) (windowAce s)).

Arguments setTimeout : simpl never.

Definition handle_is (h : nat) (t : Timer) : bool := Nat.eqb (handle t) h.

(** [clearTimeout(h)]; a [null] or stale handle cancels nothing. *)
Definition clearTimeout (h : option nat) (s : NotebookState) : NotebookState :=
  match h with
  | None => s
  | Some h => with_timers (List.filter (fun t => negb (handle_is h t)) (timers s)) s
  end.

(** ** Splitter *)

Definition cell_prefix : jsstring := lit "cell_".
Definition underscore : jsstring := lit "_".

(** [parseQueries(content)].  [clock k] is the value [Date.now()] returns
    in the callback invocation for the fragment of index [k]. *)
Definition parseQueries (cfg : Config) (clock : nat -> nat)
    (text : jsstring) : list Cell :=
  if is_empty text || is_empty (trim text) then []
  else
    imap (fun index query =>
            {| id := cell_prefix ++ of_nat (clock index) ++ underscore
                       ++ of_nat index;
               content := query |})
      (List.filter nonempty (List.map trim (split (querySeparator cfg) text))).

(** ** Joiner *)

(** The separator written between cells: a semicolon and two newlines. *)
Definition cellJoiner : jsstring := [59; 10; 10].

(** The callback of [cells.map] in [syncCellsToAceEditor]. *)
Definition cellContent (editors : gmap nat CellEditor) (index : nat)
    (cell : Cell) : jsstring :=
  let stored := if is_empty (content cell) then [] else trim (content cell) in
  match editors !! index with
  | Some e =>
      match cellGetValue e with
      | Some v => trim v
      | None => stored
      end
  | None => stored
  end.

Definition fullContent (editors : gmap nat CellEditor) (cs : list Cell)
  : jsstring :=
  join cellJoiner (List.filter nonempty (imap (cellContent editors) cs)).

(** [syncCellsToAceEditor()] *)
Definition syncCellsToAceEditor (s : NotebookState) : NotebookState :=
  match aceEditor s with
  | None => s
  | Some ed =>
      if negb (isNotebookMode s) then s
      else
        let full := fullContent (cellEditors s) (cells s) in
        let currentContent := getValue ed in
        if str_eqb currentContent full then s
        else with_aceEditor (Some (setValue full ed)) s
  end.

(** ** Rendering and cell lifecycle *)

(** [createCellElement(cell, index)] appended to the container: the
    element is recorded and the creation of its editor is deferred with
    [setTimeout(..., 0)]. *)
Definition appendCellElement (s : NotebookState) (entry : nat * Cell)
  : NotebookState :=
  let '(index, cell) := entry in
  let s1 := snd (setTimeout (CreateCellAceEditor cell index) 0 s) in
  with_cellsContainer (cellsContainer s1 ++ [(cell, index)]) s1.

(** The part of [renderCells] before the empty-sequence test: clear the
    container and append one element per cell. *)
Definition renderCellElements (s : NotebookState) : NotebookState :=
  fold_left appendCellElement (imap (fun index cell => (index, cell)) (cells s))
    (with_cellsContainer [] s).

(** The new cell of [addNewCell], and [cells.splice(position, 0, cell)]. *)
Definition blankCell (s : NotebookState) : Cell :=
  {| id := cell_prefix ++ of_nat (now s); content := [] |}.

Definition splice_in (position : nat) (c : Cell) (cs : list Cell) : list Cell :=
  take position cs ++ c :: drop position cs.

Definition in_bounds (index : Z) (cs : list Cell) : bool :=
  (0 <=? index)%Z && (index <? Z.of_nat (length cs))%Z.

(** [addNewCell(position)], given the render pass it calls. *)
Definition addNewCell_with (render : NotebookState -> option NotebookState)
    (position : option Z) (s : NotebookState) : option NotebookState :=
  let newCell := blankCell s in
  let s1 :=
    match position with
    | Some pos =>
        if in_bounds pos (cells s)
        then with_cells (splice_in (Z.to_nat pos) newCell (cells s)) s
        else with_cells (cells s ++ [newCell]) s
    | None => with_cells (cells s ++ [newCell]) s
    end in
  s2 ← render s1;
  let s3 := syncCellsToAceEditor s2 in
  Some (snd (setTimeout (FocusNewCell position) 100 s3)).

(** [renderCells()].  It calls [addNewCell], which calls it back; [fuel]
    bounds the depth of that recursion. *)
Fixpoint renderCells (fuel : nat) (s : NotebookState) : option NotebookState :=
  match fuel with
  | O => None
  | S fuel' =>
      let s1 := renderCellElements s in
      if Nat.eqb (length (cells s1)) 0
      then addNewCell_with (renderCells fuel') None s1
      else Some s1
  end.

Definition addNewCell (fuel : nat) (position : option Z) (s : NotebookState)
  : option NotebookState :=
  addNewCell_with (renderCells fuel) position s.

(** The live content of cell [index] as [copyCell] reads it. *)
Definition liveContent (s : NotebookState) (index : nat) : jsstring :=
  let stored := from_option content [] (cells s !! index) in
  match cellEditors s !! index with
  | Some e =>
      match cellGetValue e with
      | Some v => v
      | None => stored
      end
  | None => stored
  end.

(** [copyCell(index)] *)
Definition copyCell (fuel : nat) (index : Z) (s : NotebookState)
  : option NotebookState :=
  if (index <? 0)%Z || (Z.of_nat (length (cells s)) <=? index)%Z then Some s
  else
    let i := Z.to_nat index in
    let copiedCell :=
      {| id := cell_prefix ++ of_nat (now s); content := liveContent s i |} in
    let insertPosition := (i + 1)%nat in
    let s1 := with_cells (splice_in insertPosition copiedCell (cells s)) s in
    s2 ← renderCells fuel s1;
    let s3 := syncCellsToAceEditor s2 in
    Some (snd (setTimeout (FocusCopiedCell insertPosition) 200 s3)).

(** The focus target computed by [deleteCell]; [-1] stands for none. *)
Definition focusIndexAfterDelete (totalCells : nat) (index : Z) : Z :=
  if (1 <? totalCells)%nat
  then (if (0 <? index)%Z then index - 1 else 0)%Z
  else (-1)%Z.

(** [destroy()] followed by [delete cellEditors[index]]; when [destroy]
    throws the entry stays. *)
Definition releaseCellEditor (index : nat) (s : NotebookState) : NotebookState :=
  match cellEditors s !! index with
  | Some e =>
      if editorThrows e then s
      else with_cellEditors (delete index (cellEditors s)) s
  | None => s
  end.

(** [deleteCell(index)] *)
Definition deleteCell (fuel : nat) (index : Z) (s : NotebookState)
  : option NotebookState :=
  if in_bounds index (cells s) then
    let i := Z.to_nat index in
    let s1 := releaseCellEditor i s in
    let totalCells := length (cells s1) in
    let focusIndex := focusIndexAfterDelete totalCells index in
    let s2 := with_cells (delete i (cells s1)) s1 in
    s3 ← renderCells fuel s2;
    let s4 := syncCellsToAceEditor s3 in
    if (0 <=? focusIndex)%Z && (0 <? length (cells s4))%nat
    then Some (snd (setTimeout (FocusCell focusIndex) 100 s4))
    else Some s4
  else Some s.

(** ** Debounced cell update *)

(** [updateCellContent(index, content)] *)
Definition updateCellContent (index : Z) (text : jsstring) (s : NotebookState)
  : NotebookState :=
  if in_bounds index (cells s) then
    syncCellsToAceEditor
      (with_cells
         (alter (fun c => {| id := id c; content := text |}) (Z.to_nat index)
            (cells s)) s)
  else s.

(** [debouncedUpdateCell(index, content)] *)
Definition debouncedUpdateCell (index : Z) (text : jsstring) (s : NotebookState)
  : NotebookState :=
  let s1 := clearTimeout (debounceTimer s) s in
  let '(h, s2) :=
    setTimeout (UpdateCellContent index text) (debounceDelay (config s1)) s1 in
  with_debounceTimer (Some h) s2.

(** The state part of [createCellAceEditor(cellDiv, cell, index)]: with
    [window.ace] a fresh editor holding the cell's content is registered
    under [index]; without it a plain text area is shown instead. *)
Definition createCellAceEditor (cell : Cell) (index : nat) (s : NotebookState)
  : NotebookState :=
  if windowAce s
  then with_cellEditors
         (<[index := {| liveValue := content cell; editorThrows := false |}]>
            (cellEditors s)) s
  else s.

(** Running a timer callback.  The focus callbacks act on the page only. *)
Definition runCallback (cb : Callback) (s : NotebookState) : NotebookState :=
  match cb with
  | CreateCellAceEditor cell index => createCellAceEditor cell index s
  | UpdateCellContent index text => updateCellContent index text s
  | FocusNewCell _ | FocusCopiedCell _ | FocusCell _ => s
  end.

(** The pending timer that fires next before or at time [t]: earliest due
    date first, and among equal dates the one queued first. *)
Fixpoint nextDue (t : nat) (ts : list Timer) : option Timer :=
  match ts with
  | [] => None
  | x :: ts' =>
      match nextDue t ts' with
      | Some y =>
          if (due x <=? t)%nat && (due x <=? due y)%nat then Some x else Some y
      | None => if (due x <=? t)%nat then Some x else None
      end
  end.

Definition fire (tm : Timer) (s : NotebookState) : NotebookState :=
  runCallback (callback tm)
    (with_now (Nat.max (now s) (due tm))
       (with_timers (List.filter (fun x => negb (handle_is (handle tm) x))
                       (timers s)) s)).

Fixpoint elapse_loop (fuel : nat) (t : nat) (s : NotebookState)
  : NotebookState :=
  match fuel with
  | O => s
  | S fuel' =>
      match nextDue t (timers s) with
      | Some tm => elapse_loop fuel' t (fire tm s)
      | None => s
      end
  end.

(** Let the clock reach [t], firing every timer due by then.  No callback
    queues a timer, so one round per pending timer is enough. *)
Definition elapse (t : nat) (s : NotebookState) : NotebookState :=
  let s' := elapse_loop (length (timers s)) t s in
  with_now (Nat.max (now s') t) s'.

(** The pending debounced updates, in queue order. *)
Definition pendingUpdates (s : NotebookState) : list (Z * jsstring) :=
  omap (fun t => match callback t with
                 | UpdateCellContent i c => Some (i, c)
                 | _ => None
                 end) (timers s).

(** The pending focus requests of [deleteCell], in queue order. *)
Definition focusTargets (s : NotebookState) : list Z :=
  omap (fun t => match callback t with
                 | FocusCell i => Some i
                 | _ => None
                 end) (timers s).

(** ** Comment toggle of the fallback text area *)

Record Textarea : Type := mkTextarea {
  value : jsstring;
  selectionStart : nat;
  selectionEnd : nat;
  cellIndex : Z
}.

Definition newline : jsstring := [10].
Definition commentToken : jsstring := lit "--".

(** The loop that finds the start line: the first line [i] with
    [charCount + lineLength > start]. *)
Fixpoint findStartLine (lines : list jsstring) (i charCount start : nat)
  : option nat :=
  match lines with
  | [] => None
  | line :: rest =>
      let lineLength := (length line + 1)%nat in
      if (start <? charCount + lineLength)%nat then Some i
      else findStartLine rest (S i) (charCount + lineLength)%nat start
  end.

(** The loop that finds the end line: the first line [i] with
    [charCount + lineLength >= end]. *)
Fixpoint findEndLine (lines : list jsstring) (i charCount finish : nat)
  : option nat :=
  match lines with
  | [] => None
  | line :: rest =>
      let lineLength := (length line + 1)%nat in
      if (finish <=? charCount + lineLength)%nat then Some i
      else findEndLine rest (S i) (charCount + lineLength)%nat finish
  end.

(** [line.trim()] is empty or starts with the comment token. *)
Definition blankOrCommented (line : jsstring) : bool :=
  let t := trim line in
  negb (nonempty t && negb (starts_with commentToken t)).

(** [line.replace] with the pattern "leading white space, the token,
    at most one white-space code unit", keeping the leading white space. *)
Definition dropOneSpace (rest : jsstring) : jsstring :=
  match rest with
  | c :: rest' => if is_space c then rest' else rest
  | [] => []
  end.

Definition uncommentLine (line : jsstring) : jsstring :=
  if starts_with commentToken (dropWhile is_space line)
  then takeWhile is_space line
         ++ dropOneSpace (drop 2 (dropWhile is_space line))
  else line.

(** [line.match] with the pattern "leading white space, then any code
    units up to a line terminator", then [match[1] + "-- " + match[2]]. *)
Definition commentLine (line : jsstring) : jsstring :=
  takeWhile is_space line ++ lit "-- " ++
    takeWhile (fun c => negb (is_line_terminator c)) (dropWhile is_space line).

(** The body of the toggling loop for one selected line. *)
Definition toggleLine (allCommented : bool) (line : jsstring) : jsstring :=
  if is_empty (trim line) then line
  else if allCommented then uncommentLine line
  else commentLine line.

Definition selected (startLine endLine i : nat) : bool :=
  (startLine <=? i)%nat && (i <=? endLine)%nat.

(** The new text computed by [toggleSQLComment]. *)
Definition toggledContent (ta : Textarea) : jsstring :=
  let start := selectionStart ta in
  let finish := selectionEnd ta in
  let lines := split newline (value ta) in
  let startLine := default 0%nat (findStartLine lines 0 0 start) in
  let endLine0 := default 0%nat (findEndLine lines 0 0 finish) in
  let endLine := if Nat.eqb start finish then startLine else endLine0 in
  let allCommented :=
    forallb (fun '(i, line) =>
               negb (selected startLine endLine i) || blankOrCommented line)
      (imap pair lines) in
  join newline
    (imap (fun i line =>
             if selected startLine endLine i
             then toggleLine allCommented line else line) lines).

(** [toggleSQLComment(textarea)]: the text area afterwards and the state
    after the debounced update it requests. *)
Definition toggleSQLComment (ta : Textarea) (s : NotebookState)
  : Textarea * NotebookState :=
  let newContent := toggledContent ta in
  let lengthDiff :=
    (Z.of_nat (length newContent) - Z.of_nat (length (value ta)))%Z in
  ({| value := newContent;
      selectionStart := selectionStart ta;
      selectionEnd :=
        Z.to_nat (Z.max 0 (Z.of_nat (selectionEnd ta) + lengthDiff));
      cellIndex := cellIndex ta |},
   debouncedUpdateCell (cellIndex ta) newContent s).

(** ** Vocabulary of the properties *)

(** The text contains no occurrence of the code unit [c]. *)
Definition free_of (c : N) (s : jsstring) : Prop := ~ In c s.

(** All code units are white space, which is to say [trim] leaves nothing. *)
Definition blank (s : jsstring) : Prop := trim s = [].

(** Cells holding the given contents, with ids drawn from [ident]. *)
Definition cellsOf (ident : nat -> jsstring) (contents : list jsstring)
  : list Cell :=
  imap (fun i c => {| id := ident i; content := c |}) contents.

(** The content the joiner is to use for the cell at [index]: the live
    value of its sub-widget when one is registered, the stored content
    otherwise. *)
Definition resolved (s : NotebookState) (index : nat) (cell : Cell) : jsstring :=
  match cellEditors s !! index with
  | Some e => liveValue e
  | None => content cell
  end.

(** The buffer of the host editor, empty when there is none. *)
Definition bufferOf (s : NotebookState) : jsstring :=
  from_option buffer [] (aceEditor s).

(** How many times the buffer has been written. *)
Definition writeCount (s : NotebookState) : nat :=
  from_option (fun ed => length (setValueCalls ed)) 0%nat (aceEditor s).

(** A state with the given cells, notebook mode on and an editor handle
    holding [text]. *)
Definition notebookWith (cs : list Cell) (text : jsstring) : NotebookState :=
  {| cells := cs;
     aceEditor := Some {| buffer := text; setValueCalls := [] |};
     debounceTimer := None;
     isNotebookMode := true;
     config := DEFAULT_CONFIG;
     cellEditors := ∅;
     cellsContainer := [];
     timers := [];
     nextHandle := 0;
     now := 0;
     windowAce := false |}.

(** The buffer of the two-statement scenario: two statements, each
    followed by a semicolon and a blank line, then two spaces. *)
Definition scenarioBuffer : jsstring :=
  lit "select 1;" ++ [10; 10] ++ lit "select 2;" ++ [10; 10; 32; 32].

(** Joiner and Splitter as maps between content sequences and buffers:
    [joinContents] is the buffer after a joiner pass over cells holding
    [contents], with no editing sub-widget open and the buffer empty
    before; [splitBuffer] is the contents of the cells the splitter makes
    of a buffer under the default configuration. *)
Definition joinContents (contents : list jsstring) : jsstring :=
  bufferOf (syncCellsToAceEditor (notebookWith (cellsOf (fun _ => []) contents) [])).

Definition splitBuffer (clock : nat -> nat) (text : jsstring) : list jsstring :=
  List.map content (parseQueries DEFAULT_CONFIG clock text).

(** The joiner as the specification words it: drop the contents that are
    empty after trimming, trim the others, and join them with the
    separator and a blank line. *)
Definition joinerSpec (contents : list jsstring) : jsstring :=
  join cellJoiner
    (List.map trim (List.filter (fun x => nonempty (trim x)) contents)).

(** Blank and non-blank cells interleaved. *)
Definition interleavedCells : list Cell :=
  cellsOf of_nat [lit "  "; lit "select 1"; []; lit " select 2 "; [10]].

(** The interleaved cells with a sub-widget open on the cell at index 1,
    holding text not yet stored in the cell, and a stale buffer. *)
Definition editedNotebook : NotebookState :=
  with_cellEditors
    {[ 1%nat := {| liveValue := lit " select 3 "; editorThrows := false |} ]}
    (notebookWith interleavedCells (lit "old")).

(** A content as the joiner writes it: not empty, trimmed, and free of
    the semicolon. *)
Definition tidy (t : jsstring) : Prop :=
  t <> [] /\ trim t = t /\ free_of 59 t.

(** What a step leaves alone: the cells, the editor handle, the mode, the
    sub-widgets and the pending focus requests of [deleteCell]. *)
Definition preserves (s s' : NotebookState) : Prop :=
  cells s' = cells s /\ aceEditor s' = aceEditor s /\
  isNotebookMode s' = isNotebookMode s /\ cellEditors s' = cellEditors s /\
  focusTargets s' = focusTargets s.

(** A notebook of three cells. *)
Definition threeCells : NotebookState :=
  notebookWith (cellsOf of_nat [lit "select 1"; lit "select 2"; lit "select 3"])
    [].

(** The timer holds a debounced update. *)
Definition isUpdate (t : Timer) : bool :=
  match callback t with
  | UpdateCellContent _ _ => true
  | _ => false
  end.

(** Every pending debounced update is the one [debounceTimer] refers to:
    updates are only queued by [debouncedUpdateCell], which records the
    handle. *)
Definition debounce_inv (s : NotebookState) : Prop :=
  Forall (fun t => isUpdate t = true -> debounceTimer s = Some (handle t))
    (timers s).

(** Edits [(index, text)] arriving one after the other with no timer
    firing in between, that is within one debounce window. *)
Definition burst (edits : list (Z * jsstring)) (s : NotebookState)
  : NotebookState :=
  fold_left (fun st e => debouncedUpdateCell (fst e) (snd e) st) edits s.

(** Two cells shown in plain text areas (no sub-widget registered). *)
Definition twoCells : NotebookState :=
  notebookWith (cellsOf of_nat [lit "select 1"; lit "select 2"])
    (lit "select 1" ++ cellJoiner ++ lit "select 2").

(** No code unit of the text is a line terminator (LF, CR, U+2028,
    U+2029); such a text is in particular a single line. *)
Definition noLineTerminator (l : jsstring) : bool :=
  forallb (fun c => negb (is_line_terminator c)) l.

(** Text that starts with a code unit that is not white space and does
    not start with the comment token. *)
Definition plainText (b : jsstring) : bool :=
  match b with [] => false | c :: _ => negb (is_space c) end
  && negb (starts_with commentToken b).

(** The lines that two toggles give back unchanged, among those without
    line terminator: blank lines, lines whose text after the leading
    white space is plain, and lines whose text is the token, one space
    and plain text. *)
Definition restores (line : jsstring) : bool :=
  let body := dropWhile is_space line in
  is_empty body || plainText body
  || (starts_with (lit "-- ") body && plainText (drop 3 body)).

(** The same for any text without newline: the text kept must also be
    free of the other line terminators. *)
Definition plainBody (b : jsstring) : bool :=
  plainText b && noLineTerminator b.

Definition roundTrips (line : jsstring) : bool :=
  let body := dropWhile is_space line in
  is_empty body || plainBody body
  || (starts_with (lit "-- ") body && plainBody (drop 3 body)).

(** The text area after [toggleSQLComment], and after a second call made
    with any selection [start], [finish]. *)
Definition toggled (ta : Textarea) (s : NotebookState) : Textarea :=
  fst (toggleSQLComment ta s).

Definition toggledAgain (ta : Textarea) (s : NotebookState)
    (start finish : nat) : Textarea :=
  toggled {| value := value (toggled ta s);
             selectionStart := start;
             selectionEnd := finish;
             cellIndex := cellIndex ta |}
    (snd (toggleSQLComment ta s)).

(** The new text of a text area holding the single line [line]. *)
Definition toggleSingle (line : jsstring) : jsstring :=
  toggleLine (blankOrCommented line) line.

(** A text is headed when it is empty or starts with a code unit that is
    not white space, as the text after leading white space always is. *)
Definition headed (body : jsstring) : bool :=
  match body with [] => true | c :: _ => negb (is_space c) end.

(** ** Vocabulary of the further properties *)

(** The index at which the new cell of [addNewCell(position)] lands: the
    position when it is an index of the sequence, the end otherwise. *)
Definition landing (position : option Z) (cs : list Cell) : nat :=
  match position with
  | Some pos => if in_bounds pos cs then Z.to_nat pos else length cs
  | None => length cs
  end.

(** Every pending timer carries a handle that [setTimeout] has already
    given out. *)
Definition handles_fresh (s : NotebookState) : Prop :=
  Forall (fun t => (handle t < nextHandle s)%nat) (timers s).


(** The timer that [debouncedUpdateCell(index, text)] queues in state
    [s]. *)
Definition debounceTimerOf (index : Z) (text : jsstring) (s : NotebookState)
  : Timer :=
  {| handle := nextHandle s;
     due := now s + debounceDelay (config s);
     callback := UpdateCellContent index text |}.

(** State [x] still has that timer pending, last in the queue and alone
    in holding an update, and the cells of [s]. *)
Definition updatePending (index : Z) (text : jsstring) (s x : NotebookState)
  : Prop :=
  cells x = cells s /\
  exists ts, timers x = ts ++ [debounceTimerOf index text s] /\
             Forall (fun y => isUpdate y = false /\
                              handle y <> handle (debounceTimerOf index text s))
               ts.

(** State [x] has the update applied and none pending. *)
Definition updateApplied (index : Z) (text : jsstring) (s x : NotebookState)
  : Prop :=
  cells x = cells (updateCellContent index text s) /\
  Forall (fun y => isUpdate y = false) (timers x).



(** The sub-widget [createCellAceEditor] makes for a cell. *)
Definition editorOf (cell : Cell) : CellEditor :=
  {| liveValue := content cell; editorThrows := false |}.


(** The three-cell notebook on a page where Ace is available. *)
Definition threeCellsAce : NotebookState :=
  mkState (cells threeCells) (aceEditor threeCells) None true DEFAULT_CONFIG
    ∅ [] [] 0 0 true.

(** The line range and the flag that [toggleSQLComment] computes before
    it touches the lines. *)
Definition startLineOf (ta : Textarea) : nat :=
  default 0%nat
    (findStartLine (split newline (value ta)) 0 0 (selectionStart ta)).

Definition endLineOf (ta : Textarea) : nat :=
  if Nat.eqb (selectionStart ta) (selectionEnd ta) then startLineOf ta
  else default 0%nat
         (findEndLine (split newline (value ta)) 0 0 (selectionEnd ta)).

Definition allCommentedOf (ta : Textarea) : bool :=
  forallb (fun '(i, line) =>
             negb (selected (startLineOf ta) (endLineOf ta) i)
             || blankOrCommented line)
    (imap pair (split newline (value ta))).

(** The number of newlines among the first [offset] code units. *)
Definition newlinesBefore (offset : nat) (text : jsstring) : nat :=
  length (List.filter (N.eqb 10) (take offset text)).

(** A text area with three lines and the middle one selected. *)
Definition threeLines : Textarea :=
  {| value := lit "select 1" ++ [10] ++ lit "from t" ++ [10] ++ lit "-- done";
     selectionStart := 9;
     selectionEnd := 15;
     cellIndex := 0 |}.

(** ** The mode controller *)

Definition with_isNotebookMode (v : bool) (s : NotebookState) : NotebookState :=
  mkState (cells s) (aceEditor s) (debounceTimer s) v (config s)
    (cellEditors s) (cellsContainer s) (timers s) (nextHandle s) (now s)
    (windowAce s).

(** The page around [notebookState], as far as the mode switches touch
    it: whether [notebookState.originalContainer] is set and whether that
    container and the notebook container are displayed; the handle
    [findAceEditor()] would make of the page's editor, if it can find
    one; whether an editor element exists for the container lookup; the
    value stored under the key of the mode preference and whether
    [localStorage] throws; the messages shown with [alert]. *)
Record Page : Type := mkPage {
  notebook : NotebookState;
  containerKnown : bool;
  originalShown : bool;
  notebookShown : bool;
  discoverable : option AceEditor;
  editorElement : bool;
  preference : option jsstring;
  storageThrows : bool;
  alerts : list jsstring
}.

Definition with_notebook (v : NotebookState) (p : Page) : Page :=
  mkPage v (containerKnown p) (originalShown p) (notebookShown p)
    (discoverable p) (editorElement p) (preference p) (storageThrows p)
    (alerts p).

Definition with_containerKnown (v : bool) (p : Page) : Page :=
  mkPage (notebook p) v (originalShown p) (notebookShown p)
    (discoverable p) (editorElement p) (preference p) (storageThrows p)
    (alerts p).

Definition with_display (original shown : bool) (p : Page) : Page :=
  mkPage (notebook p) (containerKnown p) original shown
    (discoverable p) (editorElement p) (preference p) (storageThrows p)
    (alerts p).

Definition with_preference (v : option jsstring) (p : Page) : Page :=
  mkPage (notebook p) (containerKnown p) (originalShown p) (notebookShown p)
    (discoverable p) (editorElement p) v (storageThrows p) (alerts p).

Definition alert (message : jsstring) (p : Page) : Page :=
  mkPage (notebook p) (containerKnown p) (originalShown p) (notebookShown p)
    (discoverable p) (editorElement p) (preference p) (storageThrows p)
    (alerts p ++ [message]).

(** [JSON.stringify] of a boolean. *)
Definition stringifyBool (b : bool) : jsstring :=
  if b then lit "true" else lit "false".

(** [saveNotebookModePreference(isNotebookMode)]; a failing store is
    caught and leaves the stored value alone. *)
Definition saveNotebookModePreference (isNotebook : bool) (p : Page) : Page :=
  if storageThrows p then p
  else with_preference (Some (stringifyBool isNotebook)) p.

(** [findAceEditor()]: on success the handle and the container are
    stored. *)
Definition findAceEditor (p : Page) : bool * Page :=
  match discoverable p with
  | Some ed =>
      (true, with_containerKnown true
               (with_notebook (with_aceEditor (Some ed) (notebook p)) p))
  | None => (false, p)
  end.

Definition noEditorMessage : jsstring :=
  lit "Cannot find the query editor. Please make sure you are on a query editing page and try refreshing.".

Definition noContainerMessage : jsstring :=
  lit "Cannot find the editor container. Please refresh the page and try again.".

(** The [try] block of [switchToNotebookMode], entered with a handle
    [ed] and a known container. *)
Definition enterNotebook (fuel : nat) (ed : AceEditor) (p : Page)
  : option Page :=
  let s := notebook p in
  let text := getValue ed in
  let s1 := with_cells (parseQueries (config s) (fun _ => now s) text) s in
  let p1 := with_display false true (with_notebook s1 p) in
  s2 ← renderCells fuel s1;
  Some (saveNotebookModePreference true
          (with_notebook (with_isNotebookMode true s2) p1)).

(** [switchToNotebookMode()] *)
Definition switchToNotebookMode (fuel : nat) (p : Page) : option Page :=
  let '(found, p1) :=
    match aceEditor (notebook p) with
    | Some _ => (true, p)
    | None => findAceEditor p
    end in
  if negb found then Some (alert noEditorMessage p1)
  else
    match aceEditor (notebook p1) with
    | None => Some (alert noEditorMessage p1)
    | Some ed =>
        if containerKnown p1 then enterNotebook fuel ed p1
        else if editorElement p1
             then enterNotebook fuel ed (with_containerKnown true p1)
             else Some (alert noContainerMessage p1)
    end.

(** [switchToTextMode()].  Without a container the assignment to its
    style throws and the rest is not run. *)
Definition switchToTextMode (p : Page) : Page :=
  let s1 := syncCellsToAceEditor (notebook p) in
  let s2 := with_cellEditors ∅ s1 in
  if containerKnown p
  then saveNotebookModePreference false
         (with_display true false
            (with_notebook (with_isNotebookMode false s2) p))
  else with_notebook s2 p.

(** [toggleNotebookMode()] *)
Definition toggleNotebookMode (fuel : nat) (p : Page) : option Page :=
  if negb (isNotebookMode (notebook p)) then switchToNotebookMode fuel p
  else Some (switchToTextMode p).

(** A page in text mode whose editor holds [text]. *)
Definition textPage (text : jsstring) : Page :=
  {| notebook := with_isNotebookMode false (notebookWith [] text);
     containerKnown := true;
     originalShown := true;
     notebookShown := false;
     discoverable := None;
     editorElement := true;
     preference := None;
     storageThrows := false;
     alerts := [] |}.

(** The text two mode switches make of a buffer: its statements,
    trimmed, without the empty ones, joined again. *)
Definition normalised (clock : nat -> nat) (text : jsstring) : jsstring :=
  joinerSpec (splitBuffer clock text).

(** The editor handle a switch to notebook mode works with: the stored
    one, or else the one [findAceEditor] makes. *)
Definition handleOf (p : Page) : option AceEditor :=
  match aceEditor (notebook p) with
  | Some ed => Some ed
  | None => discoverable p
  end.

(** The container of the host editor is stored, or gets stored with a
    discovered handle, or can be looked up from an editor element. *)
Definition containerReachable (p : Page) : bool :=
  containerKnown p || editorElement p
  || (match aceEditor (notebook p) with Some _ => false | None => true end).

(** A page showing the notebook [s], with the container of the host
    editor stored and a working preference store. *)
Definition notebookPage (s : NotebookState) : Page :=
  {| notebook := s;
     containerKnown := true;
     originalShown := false;
     notebookShown := true;
     discoverable := None;
     editorElement := true;
     preference := Some (lit "true");
     storageThrows := false;
     alerts := [] |}.

(** Every cell has a readable sub-widget registered at its index, holding
    the cell's stored content: the state a render pass settles in when
    [window.ace] is there. *)
Definition inStep (s : NotebookState) : Prop :=
  forall j c, cells s !! j = Some c -> cellEditors s !! j = Some (editorOf c).

(** Three cells with their sub-widgets in step. *)
Definition threeCellsInStep : NotebookState :=
  with_cellEditors
    (list_to_map
       (imap (fun j c => (j, editorOf c)) (cells threeCellsAce)))
    threeCellsAce.

(** ** Start-up *)














(** * Properties *)

(** A literal text does not contain a given code unit: go through its
    code units one by one. *)
Ltac literal_free :=
  let H := fresh "H" in
  intros H; repeat (destruct H as [H|H]; [discriminate H|]); exact H.

(** ** Facts about strings *)

Section StringFacts.

Variable p : N -> bool.

Lemma dropWhile_app_last (l : jsstring) (c : N) :
  p c = false -> dropWhile p (l ++ [c]) = dropWhile p l ++ [c].
Proof.
  intros Hc. induction l as [|a l IH]; simpl.
  - now rewrite Hc.
  - destruct (p a); [exact IH | reflexivity].
Qed.

Lemma dropWhile_head (s r : jsstring) (c : N) :
  dropWhile p s = c :: r -> p c = false.
Proof.
  induction s as [|a s IH]; simpl; [discriminate|].
  destruct (p a) eqn:Ha; [exact IH|].
  intros [= <- _]. exact Ha.
Qed.

Lemma dropWhile_idem (s : jsstring) :
  dropWhile p (dropWhile p s) = dropWhile p s.
Proof.
  induction s as [|a s IH]; simpl; [reflexivity|].
  destruct (p a) eqn:Ha; [exact IH|]. simpl. now rewrite Ha.
Qed.

Lemma dropWhile_all (w s : jsstring) :
  forallb p w = true -> dropWhile p (w ++ s) = dropWhile p s.
Proof.
  induction w as [|a w IH]; simpl; [reflexivity|].
  intros [Ha Hw]%andb_prop. rewrite Ha. auto.
Qed.

Lemma dropWhile_stop (s : jsstring) (c : N) :
  p c = false -> dropWhile p (c :: s) = c :: s.
Proof. intros Hc. simpl. now rewrite Hc. Qed.

Lemma takeWhile_all (w s : jsstring) :
  forallb p w = true -> takeWhile p (w ++ s) = w ++ takeWhile p s.
Proof.
  induction w as [|a w IH]; simpl; [reflexivity|].
  intros [Ha Hw]%andb_prop. rewrite Ha. f_equal. auto.
Qed.

Lemma takeWhile_forallb (s : jsstring) :
  forallb p s = true -> takeWhile p s = s.
Proof.
  induction s as [|a s IH]; simpl; [reflexivity|].
  intros [Ha Hs]%andb_prop. rewrite Ha. f_equal. auto.
Qed.

Lemma takeWhile_forallb_inv (s : jsstring) :
  takeWhile p s = s -> forallb p s = true.
Proof.
  induction s as [|a s IH]; simpl; [reflexivity|].
  destruct (p a); [|discriminate]. intros [= H]. auto.
Qed.

Lemma forallb_takeWhile (s : jsstring) : forallb p (takeWhile p s) = true.
Proof.
  induction s as [|a s IH]; simpl; [reflexivity|].
  destruct (p a) eqn:Ha; simpl; [now rewrite Ha|reflexivity].
Qed.

Lemma takeWhile_dropWhile (s : jsstring) :
  takeWhile p s ++ dropWhile p s = s.
Proof.
  induction s as [|a s IH]; simpl; [reflexivity|].
  destruct (p a); simpl; [now rewrite IH | reflexivity].
Qed.

Lemma In_dropWhile (x : N) (s : jsstring) :
  In x (dropWhile p s) -> In x s.
Proof.
  induction s as [|a s IH]; simpl; [tauto|].
  destruct (p a); simpl; tauto.
Qed.

End StringFacts.

Lemma trimEnd_cons (c : N) (r : jsstring) :
  is_space c = false -> trimEnd (c :: r) = c :: trimEnd r.
Proof.
  intros Hc. unfold trimEnd. simpl rev.
  rewrite dropWhile_app_last by exact Hc.
  now rewrite rev_app_distr.
Qed.

Lemma trimEnd_idem (s : jsstring) : trimEnd (trimEnd s) = trimEnd s.
Proof. unfold trimEnd. now rewrite rev_involutive, dropWhile_idem. Qed.

Lemma In_trimEnd (x : N) (s : jsstring) : In x (trimEnd s) -> In x s.
Proof.
  unfold trimEnd. rewrite <- in_rev. intros H%In_dropWhile.
  now apply in_rev.
Qed.

Lemma In_trim (x : N) (s : jsstring) : In x (trim s) -> In x s.
Proof. intros H%In_trimEnd. now apply In_dropWhile in H. Qed.

(** [trim] yields either nothing or a text whose first code unit is not
    white space. *)
Lemma trim_shape (s : jsstring) :
  match dropWhile is_space s with
  | [] => trim s = []
  | c :: r => is_space c = false /\ trim s = c :: trimEnd r
  end.
Proof.
  unfold trim, trimStart.
  destruct (dropWhile is_space s) as [|c r] eqn:E; [reflexivity|].
  pose proof (dropWhile_head _ _ _ _ E) as Hc.
  split; [exact Hc | now apply trimEnd_cons].
Qed.

Lemma trim_nil_iff (s : jsstring) : trim s = [] <-> dropWhile is_space s = [].
Proof.
  pose proof (trim_shape s) as H.
  destruct (dropWhile is_space s) as [|c r].
  - tauto.
  - destruct H as [_ ->]. split; discriminate.
Qed.

Lemma trim_head (s r : jsstring) (c : N) :
  trim s = c :: r -> is_space c = false.
Proof.
  pose proof (trim_shape s) as H.
  destruct (dropWhile is_space s) as [|c' r']; [congruence|].
  destruct H as [Hc ->]. now intros [= <- _].
Qed.

Lemma trim_idem (s : jsstring) : trim (trim s) = trim s.
Proof.
  destruct (trim s) as [|c r] eqn:E; [reflexivity|].
  pose proof (trim_head _ _ _ E) as Hc.
  unfold trim at 1, trimStart. rewrite dropWhile_stop by exact Hc.
  rewrite <- E. unfold trim. apply trimEnd_idem.
Qed.

Lemma trim_space_prefix (w s : jsstring) :
  forallb is_space w = true -> trim (w ++ s) = trim s.
Proof. intros Hw. unfold trim, trimStart. now rewrite dropWhile_all. Qed.

Lemma trim_blank_forallb (s : jsstring) :
  trim s = [] <-> forallb is_space s = true.
Proof.
  rewrite trim_nil_iff. induction s as [|a s IH]; simpl; [tauto|].
  destruct (is_space a); simpl; [exact IH | split; discriminate].
Qed.

Lemma nonempty_true (s : jsstring) : nonempty s = true <-> s <> [].
Proof.
  destruct s; simpl; split; try discriminate; try reflexivity.
  intros H. now destruct H.
Qed.

Lemma is_empty_true (s : jsstring) : is_empty s = true <-> s = [].
Proof. destruct s; simpl; split; try discriminate; reflexivity. Qed.

Lemma str_eqb_eq (a b : jsstring) : str_eqb a b = true <-> a = b.
Proof. unfold str_eqb. apply bool_decide_eq_true. Qed.

(** ** Splitting on a one-character separator *)

Lemma join_cons (sep x : jsstring) (l : list jsstring) :
  l <> [] -> join sep (x :: l) = x ++ sep ++ join sep l.
Proof. destruct l; [congruence | reflexivity]. Qed.

Lemma split_from_nonnil (sep cur : jsstring) (skip : nat) (s : jsstring) :
  split_from sep cur skip s <> [].
Proof.
  revert cur skip. induction s as [|a s IH]; intros cur skip; simpl.
  - discriminate.
  - destruct skip; [|apply IH].
    destruct (starts_with sep (a :: s)); [discriminate | apply IH].
Qed.

Lemma split_from_step (c : N) (cur : jsstring) (a : N) (s : jsstring) :
  split_from [c] cur 0 (a :: s) =
    if c =? a then cur :: split_from [c] [] 0 s
    else split_from [c] (cur ++ [a]) 0 s.
Proof. simpl. now rewrite andb_true_r. Qed.

Lemma split_from_free (c : N) (cur t : jsstring) :
  free_of c t -> split_from [c] cur 0 t = [cur ++ t].
Proof.
  revert cur. induction t as [|a t IH]; intros cur Hfree.
  - simpl. now rewrite app_nil_r.
  - rewrite split_from_step.
    destruct (N.eqb_spec c a) as [->|Hne].
    + exfalso. apply Hfree. now left.
    + rewrite IH; [now rewrite <- app_assoc|].
      intros H. apply Hfree. now right.
Qed.

Lemma split_from_at_sep (c : N) (cur t rest : jsstring) :
  free_of c t ->
  split_from [c] cur 0 (t ++ c :: rest) =
    (cur ++ t) :: split_from [c] [] 0 rest.
Proof.
  revert cur. induction t as [|a t IH]; intros cur Hfree.
  - simpl app. rewrite split_from_step, N.eqb_refl. now rewrite app_nil_r.
  - simpl app. rewrite split_from_step.
    destruct (N.eqb_spec c a) as [->|Hne].
    + exfalso. apply Hfree. now left.
    + rewrite IH; [now rewrite <- app_assoc|].
      intros H. apply Hfree. now right.
Qed.

(** The fragments are separator-free and, put back together with the
    separator between them, give the text that was split. *)
Lemma split_from_spec (c : N) (cur s : jsstring) :
  free_of c cur ->
  join [c] (split_from [c] cur 0 s) = cur ++ s /\
  Forall (free_of c) (split_from [c] cur 0 s).
Proof.
  revert cur. induction s as [|a s IH]; intros cur Hcur.
  - simpl. rewrite app_nil_r. split; [reflexivity|]. now constructor.
  - rewrite split_from_step.
    destruct (N.eqb_spec c a) as [->|Hne].
    + destruct (IH [] (fun H => H)) as [Hj Hf].
      rewrite join_cons by apply split_from_nonnil.
      rewrite Hj. split; [reflexivity|]. now constructor.
    + destruct (IH (cur ++ [a])) as [Hj Hf].
      * intros [H|[H|[]]]%in_app_or; [now apply Hcur | congruence].
      * rewrite Hj, <- app_assoc. split; [reflexivity | exact Hf].
Qed.

(** Every fragment of an all-white-space text is white space. *)
Lemma split_from_blank (c : N) (cur s : jsstring) :
  forallb is_space (cur ++ s) = true ->
  Forall blank (split_from [c] cur 0 s).
Proof.
  revert cur. induction s as [|a s IH]; intros cur H.
  - simpl. rewrite app_nil_r in H. constructor; [|constructor].
    now apply trim_blank_forallb.
  - rewrite split_from_step.
    rewrite forallb_app in H. apply andb_prop in H as [Hcur Has].
    destruct (c =? a).
    + constructor; [now apply trim_blank_forallb|].
      apply IH. simpl in Has |- *. now apply andb_prop in Has as [_ ->].
    + apply IH. rewrite <- app_assoc. simpl app.
      rewrite forallb_app. now rewrite Hcur.
Qed.

Lemma filter_trim_blank (l : list jsstring) :
  Forall blank l -> List.filter nonempty (List.map trim l) = [].
Proof.
  induction 1 as [|x l Hx _ IH]; simpl; [reflexivity|].
  unfold blank in Hx. now rewrite Hx.
Qed.

(** ** Cell identifiers *)

Lemma lit_inj (a b : string) : lit a = lit b -> a = b.
Proof.
  unfold lit. intros H.
  rewrite <- (string_of_list_ascii_of_string a),
    <- (string_of_list_ascii_of_string b).
  f_equal. revert H.
  generalize (list_ascii_of_string a) (list_ascii_of_string b).
  induction l as [|x l IH]; intros [|y l']; simpl; try discriminate;
    [reflexivity|].
  intros [= Hxy Hl]. f_equal; [|now apply IH].
  now rewrite <- (ascii_N_embedding x), <- (ascii_N_embedding y), Hxy.
Qed.

Lemma of_nat_inj (a b : nat) : of_nat a = of_nat b -> a = b.
Proof.
  unfold of_nat. intros H%lit_inj.
  apply Unsigned.to_uint_inj.
  assert (Hn : forall n, Nat.to_uint n <> Decimal.Nil).
  { intros n Hn. pose proof (Unsigned.of_to n) as E. rewrite Hn in E.
    destruct n; [|discriminate].
    revert Hn. unfold Nat.to_uint. simpl. discriminate. }
  pose proof (NilZero.usu _ (Hn a)) as Ha.
  pose proof (NilZero.usu _ (Hn b)) as Hb.
  rewrite H in Ha. congruence.
Qed.

Lemma digits_free_of_underscore (d : Decimal.uint) :
  free_of 95 (lit (NilEmpty.string_of_uint d)).
Proof.
  unfold free_of, lit.
  induction d; simpl; try tauto;
    intros [H|H]; try discriminate H; now apply IHd.
Qed.

Lemma of_nat_free_of_underscore (n : nat) : free_of 95 (of_nat n).
Proof.
  unfold of_nat, NilZero.string_of_uint.
  destruct (Nat.to_uint n) eqn:E; try (rewrite <- E at 1);
    try apply digits_free_of_underscore.
  unfold free_of, lit; simpl. intros [H|[]]. discriminate H.
Qed.

Lemma app_sep_inj (c : N) (x x' y y' : jsstring) :
  free_of c x -> free_of c x' ->
  x ++ c :: y = x' ++ c :: y' -> x = x' /\ y = y'.
Proof.
  revert x'. induction x as [|a x IH]; intros [|a' x'] Hx Hx'; simpl.
  - now intros [= ->].
  - intros [= <- _]. exfalso. apply Hx'. now left.
  - intros [= -> _]. exfalso. apply Hx. now left.
  - intros [= -> H]. destruct (IH x') as [-> ->]; auto.
    + intros Hin. apply Hx. now right.
    + intros Hin. apply Hx'. now right.
Qed.

(** Identifiers made by the splitter are determined by, and determine,
    the clock reading and the index. *)
Lemma cell_id_inj (t k t' k' : nat) :
  cell_prefix ++ of_nat t ++ underscore ++ of_nat k =
  cell_prefix ++ of_nat t' ++ underscore ++ of_nat k' ->
  t = t' /\ k = k'.
Proof.
  intros H%app_inv_head. change underscore with [95] in H. simpl in H.
  apply app_sep_inj in H as [Ht Hk]; try apply of_nat_free_of_underscore.
  split; now apply of_nat_inj.
Qed.

(** ** The splitter *)

Lemma map_content_imap (g : nat -> jsstring) (l : list jsstring) :
  List.map content (imap (fun i q => {| id := g i; content := q |}) l) = l.
Proof.
  revert g. induction l as [|x l IH]; intros g; [reflexivity|].
  simpl. f_equal. exact (IH (fun i => g (S i))).
Qed.

Lemma parseQueries_blank (cfg : Config) (clock : nat -> nat) (text : jsstring) :
  blank text -> parseQueries cfg clock text = [].
Proof.
  intros H. unfold parseQueries. unfold blank in H. rewrite H. simpl.
  now rewrite orb_true_r.
Qed.

Lemma parseQueries_content (cfg : Config) (clock : nat -> nat)
    (text : jsstring) (c : N) :
  querySeparator cfg = [c] ->
  List.map content (parseQueries cfg clock text) =
    List.filter nonempty (List.map trim (split_from [c] [] 0 text)).
Proof.
  intros Hsep. unfold parseQueries.
  destruct (is_empty text || is_empty (trim text)) eqn:E.
  - symmetry. apply filter_trim_blank, split_from_blank. simpl.
    apply orb_prop in E as [E|E]; apply is_empty_true in E.
    + now subst text.
    + now apply trim_blank_forallb.
  - rewrite Hsep. unfold split. apply map_content_imap.
Qed.

Lemma parseQueries_id (cfg : Config) (clock : nat -> nat) (text : jsstring)
    (k : nat) (cell : Cell) :
  parseQueries cfg clock text !! k = Some cell ->
  id cell = cell_prefix ++ of_nat (clock k) ++ underscore ++ of_nat k.
Proof.
  unfold parseQueries.
  destruct (is_empty text || is_empty (trim text)); [discriminate|].
  rewrite list_lookup_imap.
  destruct (_ !! k); simpl; [|discriminate].
  now intros [= <-].
Qed.

(** C1. For every buffer and one-character separator, the cells of
    [parseQueries] hold, in order, the non-empty trimmed fragments
    obtained by cutting the buffer at every occurrence of the separator:
    the fragments are separator-free and rejoin to the buffer.  The cell
    at position [k] gets the id built from the clock and [k], so ids are
    pairwise distinct and ascend from left to right.  The scenario buffer
    gives exactly the contents "select 1" and "select 2". *)
Theorem parseQueries_splits_trims_and_numbers
    (cfg : Config) (clock : nat -> nat) (text : jsstring) (c : N) :
  (querySeparator cfg = [c] ->
   exists frags : list jsstring,
     join [c] frags = text /\
     Forall (free_of c) frags /\
     List.map content (parseQueries cfg clock text) =
       List.filter nonempty (List.map trim frags) /\
     (forall k cell,
        parseQueries cfg clock text !! k = Some cell ->
        id cell = cell_prefix ++ of_nat (clock k) ++ underscore ++ of_nat k) /\
     (forall i j ci cj,
        parseQueries cfg clock text !! i = Some ci ->
        parseQueries cfg clock text !! j = Some cj ->
        id ci = id cj -> i = j)) /\
  List.map content (parseQueries DEFAULT_CONFIG clock scenarioBuffer) =
    [lit "select 1"; lit "select 2"].
Proof.
  split.
  - intros Hsep. exists (split_from [c] [] 0 text).
    destruct (split_from_spec c [] text (fun H => H)) as [Hjoin Hfree].
    repeat split.
    + exact Hjoin.
    + exact Hfree.
    + now apply parseQueries_content.
    + apply parseQueries_id.
    + intros i j ci cj Hi%parseQueries_id Hj%parseQueries_id Heq.
      rewrite Hi, Hj in Heq. now apply cell_id_inj in Heq.
  - rewrite (parseQueries_content DEFAULT_CONFIG clock scenarioBuffer 59)
      by reflexivity.
    reflexivity.
Qed.

Lemma parseQueries_splits_witness :
  exists frags : list jsstring,
    join [59] frags = scenarioBuffer /\
    Forall (free_of 59) frags /\
    List.map content (parseQueries DEFAULT_CONFIG (fun _ => 0%nat) scenarioBuffer) =
      List.filter nonempty (List.map trim frags) /\
    (forall k cell,
       parseQueries DEFAULT_CONFIG (fun _ => 0%nat) scenarioBuffer !! k = Some cell ->
       id cell = cell_prefix ++ of_nat 0 ++ underscore ++ of_nat k) /\
    (forall i j ci cj,
       parseQueries DEFAULT_CONFIG (fun _ => 0%nat) scenarioBuffer !! i = Some ci ->
       parseQueries DEFAULT_CONFIG (fun _ => 0%nat) scenarioBuffer !! j = Some cj ->
       id ci = id cj -> i = j).
Proof.
  exact (proj1 (parseQueries_splits_trims_and_numbers DEFAULT_CONFIG
                  (fun _ => 0%nat) scenarioBuffer 59) eq_refl).
Defined.

(** C5 fails as stated: a buffer without any separator that is not blank
    yields one cell, not zero. *)
Lemma parseQueries_no_separator_counterexample :
  free_of 59 (lit "select 1") /\
  List.map content (parseQueries DEFAULT_CONFIG (fun _ => 0%nat) (lit "select 1"))
    = [lit "select 1"].
Proof.
  split; [|reflexivity]. literal_free.
Qed.

(** C5, amended. A buffer that is empty or all white space yields zero
    cells.  A buffer with no occurrence of the separator yields zero cells
    when it is blank and otherwise exactly one cell, holding the trimmed
    buffer. *)
Theorem parseQueries_blank_or_unseparated
    (cfg : Config) (clock : nat -> nat) (text : jsstring) (c : N) :
  (blank text -> parseQueries cfg clock text = []) /\
  (querySeparator cfg = [c] -> free_of c text ->
   List.map content (parseQueries cfg clock text) =
     if is_empty (trim text) then [] else [trim text]).
Proof.
  split; [apply parseQueries_blank|].
  intros Hsep Hfree.
  rewrite (parseQueries_content cfg clock text c Hsep).
  rewrite split_from_free by exact Hfree. simpl.
  unfold nonempty. now destruct (is_empty (trim text)).
Qed.

Lemma parseQueries_blank_or_unseparated_witness :
  parseQueries DEFAULT_CONFIG (fun _ => 0%nat) (lit "  ") = [] /\
  List.map content (parseQueries DEFAULT_CONFIG (fun _ => 0%nat) (lit " select 1"))
    = [lit "select 1"].
Proof.
  split.
  - apply (proj1 (parseQueries_blank_or_unseparated DEFAULT_CONFIG
                    (fun _ => 0%nat) (lit "  ") 59)).
    reflexivity.
  - apply (proj2 (parseQueries_blank_or_unseparated DEFAULT_CONFIG
                    (fun _ => 0%nat) (lit " select 1") 59)).
    + reflexivity.
    + literal_free.
Defined.

(** ** The joiner *)

Lemma filter_nonempty_map_trim (l : list jsstring) :
  List.filter nonempty (List.map trim l) =
  List.map trim (List.filter (fun x => nonempty (trim x)) l).
Proof.
  induction l as [|x l IH]; simpl; [reflexivity|].
  destruct (nonempty (trim x)); simpl; now rewrite IH.
Qed.

Lemma cellContent_resolved (s : NotebookState) (index : nat) (cell : Cell) :
  (forall e, cellEditors s !! index = Some e -> editorThrows e = false) ->
  cellContent (cellEditors s) index cell = trim (resolved s index cell).
Proof.
  intros Hok. unfold cellContent, resolved, cellGetValue.
  destruct (cellEditors s !! index) as [e|].
  - now rewrite (Hok e eq_refl).
  - now destruct (content cell).
Qed.

Lemma imap_cellContent (s : NotebookState) (cs : list Cell) :
  (forall i e, cellEditors s !! i = Some e -> editorThrows e = false) ->
  imap (cellContent (cellEditors s)) cs = List.map trim (imap (resolved s) cs).
Proof.
  intros Hok. change (List.map trim (imap (resolved s) cs))
    with (trim <$> imap (resolved s) cs).
  rewrite fmap_imap. apply imap_ext. intros i x _. simpl.
  apply cellContent_resolved. apply Hok.
Qed.

(** After a joiner pass in notebook mode the buffer holds the text the
    joiner computed, whether or not it had to be written. *)
Lemma sync_buffer (s : NotebookState) (ed : AceEditor) :
  aceEditor s = Some ed -> isNotebookMode s = true ->
  bufferOf (syncCellsToAceEditor s) = fullContent (cellEditors s) (cells s).
Proof.
  intros Hed Hmode. unfold syncCellsToAceEditor. rewrite Hed, Hmode. simpl.
  destruct (str_eqb _ _) eqn:E.
  - apply str_eqb_eq in E. unfold bufferOf. now rewrite Hed.
  - reflexivity.
Qed.

Lemma sync_joinerSpec (s : NotebookState) (ed : AceEditor) :
  aceEditor s = Some ed ->
  isNotebookMode s = true ->
  (forall i e, cellEditors s !! i = Some e -> editorThrows e = false) ->
  bufferOf (syncCellsToAceEditor s) = joinerSpec (imap (resolved s) (cells s)).
Proof.
  intros Hed Hmode Hok.
  rewrite (sync_buffer s ed Hed Hmode). unfold fullContent, joinerSpec.
  rewrite imap_cellContent by exact Hok.
  now rewrite filter_nonempty_map_trim.
Qed.

(** C2. In notebook mode with an editor handle, and with sub-widgets that
    can be read, the joiner leaves in the buffer the contents resolved per
    cell (live sub-widget value when one is registered at the cell's
    index, stored content otherwise), without those that are empty after
    trimming, trimmed, in their original order, joined by a semicolon and
    a blank line.  Blank cells interleaved with others leave no trace. *)
Theorem syncCellsToAceEditor_joins_resolved_contents
    (s : NotebookState) (ed : AceEditor) :
  aceEditor s = Some ed ->
  isNotebookMode s = true ->
  (forall i e, cellEditors s !! i = Some e -> editorThrows e = false) ->
  bufferOf (syncCellsToAceEditor s) = joinerSpec (imap (resolved s) (cells s)) /\
  cells (syncCellsToAceEditor s) = cells s /\
  bufferOf (syncCellsToAceEditor (notebookWith interleavedCells [])) =
    lit "select 1" ++ cellJoiner ++ lit "select 2".
Proof.
  intros Hed Hmode Hok. split; [|split].
  - now apply (sync_joinerSpec s ed).
  - unfold syncCellsToAceEditor. rewrite Hed, Hmode. simpl.
    now destruct (str_eqb _ _).
  - reflexivity.
Qed.

Lemma syncCellsToAceEditor_joins_witness :
  bufferOf (syncCellsToAceEditor editedNotebook) =
    joinerSpec (imap (resolved editedNotebook) (cells editedNotebook)) /\
  joinerSpec (imap (resolved editedNotebook) (cells editedNotebook)) =
    lit "select 3" ++ cellJoiner ++ lit "select 2".
Proof.
  split; [|reflexivity].
  refine (proj1 (syncCellsToAceEditor_joins_resolved_contents editedNotebook
                   {| buffer := lit "old"; setValueCalls := [] |}
                   eq_refl eq_refl _)).
  intros i e H. change (cellEditors editedNotebook)
    with ({[ 1%nat := {| liveValue := lit " select 3 "; editorThrows := false |} ]}
            : gmap nat CellEditor) in H.
  apply lookup_singleton_Some in H as [_ <-]. reflexivity.
Defined.


(** ** Split after join *)

Lemma split_from_free_prefix (c : N) (cur w s : jsstring) :
  free_of c w ->
  split_from [c] cur 0 (w ++ s) = split_from [c] (cur ++ w) 0 s.
Proof.
  revert cur. induction w as [|a w IH]; intros cur Hfree.
  - now rewrite app_nil_r.
  - simpl app. rewrite split_from_step.
    destruct (N.eqb_spec c a) as [->|Hne].
    + exfalso. apply Hfree. now left.
    + rewrite IH; [now rewrite <- app_assoc|].
      intros H. apply Hfree. now right.
Qed.

Lemma free_of_blank_line : free_of 59 [10; 10].
Proof. literal_free. Qed.

Lemma split_join_tidy (T : list jsstring) (pre : jsstring) :
  Forall tidy T -> T <> [] ->
  split_from [59] pre 0 (join cellJoiner T) =
    (pre ++ hd [] T) :: List.map (app [10; 10]) (tl T).
Proof.
  intros HT. revert pre.
  induction HT as [|t T [_ [_ Hfree]] HT IH]; intros pre Hne; [congruence|].
  destruct T as [|t2 T'].
  - simpl. now rewrite split_from_free.
  - rewrite join_cons by discriminate.
    change (cellJoiner ++ join cellJoiner (t2 :: T'))
      with (59 :: ([10; 10] ++ join cellJoiner (t2 :: T'))).
    rewrite split_from_at_sep by exact Hfree.
    rewrite split_from_free_prefix by exact free_of_blank_line.
    rewrite IH by discriminate. reflexivity.
Qed.

Lemma trim_tidy_lines (T : list jsstring) :
  Forall tidy T ->
  List.filter nonempty (List.map trim (List.map (app [10; 10]) T)) = T.
Proof.
  induction 1 as [|t T [Hne [Htrim _]] _ IH]; [reflexivity|].
  simpl List.map. change (trim (10 :: 10 :: t)) with (trim t).
  rewrite Htrim. simpl. rewrite (proj2 (nonempty_true t) Hne).
  f_equal. exact IH.
Qed.

Lemma split_join_contents (clock : nat -> nat) (T : list jsstring) :
  Forall tidy T -> splitBuffer clock (join cellJoiner T) = T.
Proof.
  intros HT. unfold splitBuffer.
  rewrite (parseQueries_content DEFAULT_CONFIG clock _ 59) by reflexivity.
  destruct T as [|t T']; [reflexivity|].
  rewrite split_join_tidy by (exact HT || discriminate).
  simpl hd. simpl tl. simpl app.
  inversion HT as [|? ? [Hne [Htrim _]] HT']; subst.
  simpl List.map. rewrite Htrim. simpl List.filter.
  rewrite (proj2 (nonempty_true t) Hne).
  now rewrite trim_tidy_lines.
Qed.

Lemma joinerSpec_tidy (T : list jsstring) :
  Forall tidy T -> joinerSpec T = join cellJoiner T.
Proof.
  intros HT. unfold joinerSpec. f_equal.
  induction HT as [|t T [Hne [Htrim _]] _ IH]; [reflexivity|].
  simpl. rewrite Htrim, (proj2 (nonempty_true t) Hne). simpl.
  now rewrite Htrim, IH.
Qed.

Lemma tidy_survivors (S : list jsstring) :
  Forall (free_of 59) S ->
  Forall tidy (List.filter nonempty (List.map trim S)).
Proof.
  induction 1 as [|x S Hx _ IH]; simpl; [constructor|].
  destruct (nonempty (trim x)) eqn:E; [|exact IH].
  constructor; [|exact IH]. repeat split.
  - now apply nonempty_true.
  - apply trim_idem.
  - intros Hin. apply Hx. now apply In_trim.
Qed.

Lemma imap_imap_cancel (g : nat -> jsstring -> Cell)
    (h : nat -> Cell -> jsstring) (S : list jsstring) :
  (forall i x, h i (g i x) = x) -> imap h (imap g S) = S.
Proof.
  revert g h. induction S as [|x S IH]; intros g h Hgh; [reflexivity|].
  simpl. rewrite Hgh. f_equal. apply IH. intros i y. apply Hgh.
Qed.

Lemma imap_resolved_cellsOf (ident : nat -> jsstring) (text : jsstring)
    (S : list jsstring) :
  imap (resolved (notebookWith (cellsOf ident S) text)) (cellsOf ident S) = S.
Proof. apply imap_imap_cancel. reflexivity. Qed.

Lemma joinContents_spec (S : list jsstring) : joinContents S = joinerSpec S.
Proof.
  unfold joinContents.
  rewrite (sync_joinerSpec _ {| buffer := []; setValueCalls := [] |})
    by (reflexivity ||
        (intros i e H; change ((∅ : gmap nat CellEditor) !! i = Some e) in H;
         now rewrite lookup_empty in H)).
  now rewrite imap_resolved_cellsOf.
Qed.

(** C3. For every sequence [S] of separator-free strings (empty ones
    included), splitting the joined buffer gives back the non-empty
    trimmed contents of [S] in the same order, and joining those again
    gives the same buffer: on such contents join inverts split. *)
Theorem split_join_inverse (clock : nat -> nat) (S : list jsstring) :
  Forall (free_of 59) S ->
  splitBuffer clock (joinContents S) =
    List.map trim (List.filter (fun x => nonempty (trim x)) S) /\
  joinContents (splitBuffer clock (joinContents S)) = joinContents S.
Proof.
  intros HS. pose proof (tidy_survivors S HS) as HT.
  rewrite filter_nonempty_map_trim in HT.
  assert (Hsplit : splitBuffer clock (joinContents S) =
            List.map trim (List.filter (fun x => nonempty (trim x)) S)).
  { rewrite joinContents_spec. unfold joinerSpec.
    now apply split_join_contents. }
  split; [exact Hsplit|].
  rewrite Hsplit, !joinContents_spec.
  now rewrite joinerSpec_tidy.
Qed.

Lemma split_join_inverse_witness :
  splitBuffer (fun _ => 0%nat)
    (joinContents [lit " select 1 "; lit "select 2"; lit "x"]) =
    [lit "select 1"; lit "select 2"; lit "x"].
Proof.
  refine (proj1 (split_join_inverse (fun _ => 0%nat)
                   [lit " select 1 "; lit "select 2"; lit "x"] _)).
  repeat constructor; literal_free.
Defined.

(** ** Rendering and the cell lifecycle *)

Lemma preserves_refl (s : NotebookState) : preserves s s.
Proof. now repeat split. Qed.

Lemma preserves_trans (s1 s2 s3 : NotebookState) :
  preserves s1 s2 -> preserves s2 s3 -> preserves s1 s3.
Proof. unfold preserves. intuition congruence. Qed.

Lemma focusTargets_setTimeout (cb : Callback) (delay : nat) (s : NotebookState) :
  focusTargets (snd (setTimeout cb delay s)) =
    focusTargets s ++ match cb with FocusCell i => [i] | _ => [] end.
Proof.
  unfold focusTargets, setTimeout. simpl. rewrite omap_app. simpl.
  now destruct cb.
Qed.

Lemma appendCellElement_preserves (s : NotebookState) (entry : nat * Cell) :
  preserves s (appendCellElement s entry).
Proof.
  destruct entry as [i c]. unfold appendCellElement.
  repeat split; try reflexivity.
  unfold focusTargets. simpl. rewrite omap_app. simpl. apply app_nil_r.
Qed.

Lemma fold_appendCellElement_preserves (l : list (nat * Cell))
    (s : NotebookState) :
  preserves s (fold_left appendCellElement l s).
Proof.
  revert s. induction l as [|e l IH]; intros s; simpl.
  - apply preserves_refl.
  - eapply preserves_trans; [apply appendCellElement_preserves | apply IH].
Qed.

Lemma renderCellElements_preserves (s : NotebookState) :
  preserves s (renderCellElements s).
Proof.
  unfold renderCellElements.
  eapply preserves_trans; [|apply fold_appendCellElement_preserves].
  now repeat split.
Qed.

Lemma fold_appendCellElement_container (l : list (nat * Cell))
    (s : NotebookState) :
  cellsContainer (fold_left appendCellElement l s) =
    cellsContainer s ++ List.map (fun e => (snd e, fst e)) l.
Proof.
  revert s. induction l as [|[i c] l IH]; intros s; simpl.
  - now rewrite app_nil_r.
  - rewrite IH. simpl. now rewrite <- app_assoc.
Qed.

Lemma map_snd_imap_pair (g : nat -> nat) (l : list Cell) :
  List.map (fun e : nat * Cell => snd e) (imap (fun i c => (g i, c)) l) = l.
Proof.
  revert g. induction l as [|c l IH]; intros g; [reflexivity|].
  simpl. f_equal. exact (IH (fun i => g (S i))).
Qed.

(** After the element loop the container shows the cells, in order. *)
Lemma renderCellElements_container (s : NotebookState) :
  List.map fst (cellsContainer (renderCellElements s)) = cells s.
Proof.
  unfold renderCellElements. rewrite fold_appendCellElement_container.
  simpl. rewrite List.map_map. simpl.
  apply (map_snd_imap_pair (fun i => i)).
Qed.

Lemma sync_preserves (s : NotebookState) :
  cells (syncCellsToAceEditor s) = cells s /\
  isNotebookMode (syncCellsToAceEditor s) = isNotebookMode s /\
  cellEditors (syncCellsToAceEditor s) = cellEditors s /\
  timers (syncCellsToAceEditor s) = timers s /\
  cellsContainer (syncCellsToAceEditor s) = cellsContainer s.
Proof.
  unfold syncCellsToAceEditor.
  destruct (aceEditor s); [|now repeat split].
  destruct (negb (isNotebookMode s)); [now repeat split|].
  simpl. now destruct (str_eqb _ _).
Qed.

Lemma focusTargets_sync (s : NotebookState) :
  focusTargets (syncCellsToAceEditor s) = focusTargets s.
Proof.
  unfold focusTargets.
  now destruct (sync_preserves s) as (_ & _ & _ & -> & _).
Qed.

Lemma renderCells_nonempty (fuel : nat) (s : NotebookState) :
  cells s <> [] -> renderCells (S fuel) s = Some (renderCellElements s).
Proof.
  intros Hne. simpl.
  destruct (renderCellElements_preserves s) as (-> & _).
  destruct (cells s); [congruence | reflexivity].
Qed.

(** A render pass returns with two units of fuel, whatever the state; it
    leaves a non-empty sequence alone and puts one blank cell into an empty
    one, and the container then shows the sequence. *)
Lemma renderCells_returns (fuel : nat) (s : NotebookState) :
  exists s',
    renderCells (S (S fuel)) s = Some s' /\
    cells s' <> [] /\
    (cells s <> [] -> cells s' = cells s) /\
    (cells s = [] -> List.map content (cells s') = [[]]) /\
    focusTargets s' = focusTargets s /\
    List.map fst (cellsContainer s') = cells s'.
Proof.
  destruct (cells s) as [|c cs] eqn:Hcells.
  - pose proof (renderCellElements_preserves s) as (Hc1 & _ & _ & _ & Hf1).
    set (s1 := renderCellElements s) in *.
    set (s2 := with_cells (cells s1 ++ [blankCell s1]) s1).
    pose proof (renderCellElements_preserves s2) as (Hc3 & _ & _ & _ & Hf3).
    pose proof (renderCellElements_container s2) as Hview.
    set (s3 := renderCellElements s2) in *.
    destruct (sync_preserves s3) as (Hc4 & _ & _ & _ & Hv4).
    exists (snd (setTimeout (FocusNewCell None) 100 (syncCellsToAceEditor s3))).
    assert (Hs2 : cells s2 = [blankCell s1]).
    { unfold s2. simpl. now rewrite Hc1, Hcells. }
    repeat split.
    + change (renderCells (S (S fuel)) s)
        with (if Nat.eqb (length (cells s1)) 0
              then addNewCell_with (renderCells (S fuel)) None s1
              else Some s1).
      rewrite Hc1, Hcells. simpl Nat.eqb. cbv iota.
      unfold addNewCell_with. fold s2.
      rewrite renderCells_nonempty by (rewrite Hs2; discriminate).
      reflexivity.
    + simpl. rewrite Hc4, Hc3, Hs2. discriminate.
    + intros H. now destruct H.
    + intros _. simpl. now rewrite Hc4, Hc3, Hs2.
    + rewrite focusTargets_setTimeout, app_nil_r, focusTargets_sync, Hf3.
      exact Hf1.
    + simpl. now rewrite Hv4, Hview, Hc4, Hc3.
  - exists (renderCellElements s).
    pose proof (renderCellElements_preserves s) as (Hc1 & _ & _ & _ & Hf1).
    repeat split.
    + apply renderCells_nonempty. rewrite Hcells. discriminate.
    + rewrite Hc1, Hcells. discriminate.
    + intros _. now rewrite Hc1.
    + discriminate.
    + exact Hf1.
    + rewrite renderCellElements_container. now rewrite Hc1.
Qed.

Lemma releaseCellEditor_frame (i : nat) (s : NotebookState) :
  cells (releaseCellEditor i s) = cells s /\
  focusTargets (releaseCellEditor i s) = focusTargets s.
Proof.
  unfold releaseCellEditor.
  destruct (cellEditors s !! i) as [e|]; [|now split].
  now destruct (editorThrows e).
Qed.

Lemma in_bounds_spec (index : Z) (cs : list Cell) :
  in_bounds index cs = true <->
  (0 <= index)%Z /\ (Z.to_nat index < length cs)%nat.
Proof. unfold in_bounds. rewrite andb_true_iff. lia. Qed.

(** What [deleteCell] does for an index in bounds. *)
Lemma deleteCell_in_bounds (fuel : nat) (index : Z) (s : NotebookState) :
  in_bounds index (cells s) = true ->
  exists s',
    deleteCell (S (S fuel)) index s = Some s' /\
    if (1 <? length (cells s))%nat
    then cells s' = delete (Z.to_nat index) (cells s) /\
         focusTargets s' =
           focusTargets s ++ [if (0 <? index)%Z then (index - 1)%Z else 0%Z]
    else List.map content (cells s') = [[]] /\
         focusTargets s' = focusTargets s.
Proof.
  intros Hb. unfold deleteCell. rewrite Hb.
  apply in_bounds_spec in Hb as [Hlo Hhi].
  destruct (releaseCellEditor_frame (Z.to_nat index) s) as [Hc1 Hf1].
  set (s1 := releaseCellEditor (Z.to_nat index) s) in *.
  set (s2 := with_cells (delete (Z.to_nat index) (cells s1)) s1).
  destruct (renderCells_returns fuel s2)
    as (s3 & Hr & Hne & Hsame & Hblank & Hft & _).
  rewrite Hr. cbn [mbind option_bind].
  destruct (sync_preserves s3) as (Hc4 & _).
  pose proof (focusTargets_sync s3) as Hf4.
  assert (Hs2 : cells s2 = delete (Z.to_nat index) (cells s))
    by (unfold s2; simpl; now rewrite Hc1).
  assert (Hlen : length (cells s2) = (length (cells s) - 1)%nat).
  { rewrite Hs2, length_delete; [reflexivity|].
    now apply lookup_lt_is_Some_2. }
  unfold focusIndexAfterDelete. rewrite Hc1.
  destruct (1 <? length (cells s))%nat eqn:Hn.
  - apply Nat.ltb_lt in Hn.
    assert (Hs2ne : cells s2 <> []).
    { intros E. rewrite E in Hlen. simpl in Hlen. lia. }
    assert (Hpos : (0 <? length (cells (syncCellsToAceEditor s3)))%nat = true).
    { rewrite Hc4, (Hsame Hs2ne). apply Nat.ltb_lt. lia. }
    rewrite Hpos.
    destruct (0 <? index)%Z eqn:Hi.
    + apply Z.ltb_lt in Hi.
      rewrite (proj2 (Z.leb_le 0 (index - 1)) ltac:(lia)). simpl andb.
      eexists. split; [reflexivity|]. split.
      * simpl. now rewrite Hc4, (Hsame Hs2ne).
      * rewrite focusTargets_setTimeout, Hf4, Hft.
        change (focusTargets s2) with (focusTargets s1). now rewrite Hf1.
    + simpl andb.
      eexists. split; [reflexivity|]. split.
      * simpl. now rewrite Hc4, (Hsame Hs2ne).
      * rewrite focusTargets_setTimeout, Hf4, Hft.
        change (focusTargets s2) with (focusTargets s1). now rewrite Hf1.
  - simpl andb. eexists. split; [reflexivity|].
    apply Nat.ltb_ge in Hn.
    assert (Hs2nil : cells s2 = []).
    { destruct (cells s2); [reflexivity|]. simpl in Hlen. lia. }
    split.
    + now rewrite Hc4, (Hblank Hs2nil).
    + rewrite Hf4, Hft. exact Hf1.
Qed.

(** C6. Deleting the cell at an in-bounds index of a sequence of more
    than one cell queues one focus request, for [index - 1] when
    [index > 0] and for the new index 0 (the cell that was at index 1)
    when [index = 0]; deleting the only cell queues none.  In a three-cell
    sequence, deleting index 0 focuses index 0 and deleting index 2
    focuses index 1. *)
Theorem deleteCell_focus_rule (fuel : nat) (index : Z) (s : NotebookState) :
  (0 <= index < Z.of_nat (length (cells s)))%Z ->
  (exists s',
     deleteCell (S (S fuel)) index s = Some s' /\
     ((1 < length (cells s))%nat ->
      cells s' = delete (Z.to_nat index) (cells s) /\
      focusTargets s' =
        focusTargets s ++ [if (0 <? index)%Z then (index - 1)%Z else 0%Z] /\
      (index = 0%Z -> cells s' !! 0%nat = cells s !! 1%nat) /\
      ((0 < index)%Z ->
       cells s' !! Z.to_nat (index - 1) = cells s !! Z.to_nat (index - 1))) /\
     (length (cells s) = 1%nat -> focusTargets s' = focusTargets s)) /\
  focusTargets <$> deleteCell (S (S fuel)) 0 threeCells = Some [0%Z] /\
  focusTargets <$> deleteCell (S (S fuel)) 2 threeCells = Some [1%Z].
Proof.
  intros Hidx. split.
  - assert (Hb : in_bounds index (cells s) = true)
      by (apply in_bounds_spec; lia).
    destruct (deleteCell_in_bounds fuel index s Hb) as (s' & Hdel & Hcase).
    exists s'. split; [exact Hdel|]. split.
    + intros Hn. rewrite (proj2 (Nat.ltb_lt _ _) Hn) in Hcase.
      destruct Hcase as [Hcells Hfocus]. repeat split; try assumption.
      * intros ->. rewrite Hcells. simpl Z.to_nat.
        now rewrite list_lookup_delete_ge by lia.
      * intros Hpos. rewrite Hcells. apply list_lookup_delete_lt. lia.
    + intros Hn. rewrite Hn in Hcase. simpl in Hcase. apply Hcase.
  - split.
    + destruct (deleteCell_in_bounds fuel 0 threeCells eq_refl)
        as (s' & -> & _ & Hf). exact (f_equal Some Hf).
    + destruct (deleteCell_in_bounds fuel 2 threeCells eq_refl)
        as (s' & -> & _ & Hf). exact (f_equal Some Hf).
Qed.

Lemma deleteCell_focus_rule_witness :
  exists s',
    deleteCell 2 1 threeCells = Some s' /\
    List.map content (cells s') = [lit "select 1"; lit "select 3"] /\
    focusTargets s' = [0%Z].
Proof.
  destruct (proj1 (deleteCell_focus_rule 0 1 threeCells
                     ltac:(simpl; lia)))
    as (s' & Hdel & Hmany & _).
  exists s'. split; [exact Hdel|].
  destruct (Hmany ltac:(simpl; lia)) as (Hcells & Hfocus & _).
  rewrite Hcells, Hfocus. split; reflexivity.
Defined.

(** C7. For an index below zero or not below the length of the cell
    sequence, [copyCell] and [deleteCell] return and leave the whole
    state, the cell sequence and the buffer with it, as it was. *)
Theorem copy_delete_out_of_bounds (fuel : nat) (index : Z) (s : NotebookState) :
  (index < 0 \/ Z.of_nat (length (cells s)) <= index)%Z ->
  copyCell fuel index s = Some s /\ deleteCell fuel index s = Some s.
Proof.
  intros Hout. split.
  - unfold copyCell.
    destruct (orb_true_iff (index <? 0)%Z
                (Z.of_nat (length (cells s)) <=? index)%Z) as [_ ->];
      [reflexivity|].
    destruct Hout; [left|right]; lia.
  - unfold deleteCell.
    destruct (in_bounds index (cells s)) eqn:Hb; [|reflexivity].
    apply in_bounds_spec in Hb. lia.
Qed.

Lemma copy_delete_out_of_bounds_witness :
  (copyCell 2 3 threeCells = Some threeCells /\
   deleteCell 2 3 threeCells = Some threeCells) /\
  (copyCell 2 (-1) threeCells = Some threeCells /\
   deleteCell 2 (-1) threeCells = Some threeCells).
Proof.
  split.
  - apply (copy_delete_out_of_bounds 2 3 threeCells). right. simpl. lia.
  - apply (copy_delete_out_of_bounds 2 (-1) threeCells). left. lia.
Defined.

(** C10. A render pass returns on every state and leaves the cell
    sequence non-empty, with the container showing it: a non-empty
    sequence is kept, an empty one gets exactly one new cell with empty
    content.  Deleting the only cell therefore ends with a one-cell
    sequence whose cell has empty content. *)
Theorem renderCells_leaves_a_cell (fuel : nat) (s : NotebookState) (c : Cell) :
  (exists s',
     renderCells (S (S fuel)) s = Some s' /\
     cells s' <> [] /\
     (cells s <> [] -> cells s' = cells s) /\
     (cells s = [] -> List.map content (cells s') = [[]]) /\
     List.map fst (cellsContainer s') = cells s') /\
  (exists s',
     deleteCell (S (S fuel)) 0 (with_cells [c] s) = Some s' /\
     List.map content (cells s') = [[]]).
Proof.
  split.
  - destruct (renderCells_returns fuel s) as (s' & Hr & Hne & Hk & Hb & _ & Hv).
    exists s'. repeat split; assumption.
  - destruct (deleteCell_in_bounds fuel 0 (with_cells [c] s) eq_refl)
      as (s' & Hdel & Hcells & _).
    exists s'. split; assumption.
Qed.

Lemma renderCells_leaves_a_cell_witness :
  exists s',
    renderCells 2 (notebookWith [] []) = Some s' /\
    List.map content (cells s') = [[]].
Proof.
  destruct (proj1 (renderCells_leaves_a_cell 0 (notebookWith [] [])
                     {| id := []; content := [] |}))
    as (s' & Hr & _ & _ & Hblank & _).
  exists s'. split; [exact Hr | exact (Hblank eq_refl)].
Defined.

(** ** Debouncing *)

Lemma pendingUpdates_cleared (h : option nat) (ts : list Timer) :
  Forall (fun t => isUpdate t = true -> h = Some (handle t)) ts ->
  omap (fun t => match callback t with
                 | UpdateCellContent i c => Some (i, c)
                 | _ => None
                 end)
    (match h with
     | Some h0 => List.filter (fun t => negb (handle_is h0 t)) ts
     | None => ts
     end) = [].
Proof.
  induction 1 as [|t ts Ht _ IH]; [now destruct h|].
  unfold isUpdate in Ht. destruct h as [h0|]; simpl in *.
  - unfold handle_is at 1.
    destruct (Nat.eqb_spec (handle t) h0) as [E|E]; simpl; [exact IH|].
    destruct (callback t); try exact IH.
    specialize (Ht eq_refl). congruence.
  - destruct (callback t); try exact IH.
    specialize (Ht eq_refl). discriminate.
Qed.

Lemma timers_clearTimeout (s : NotebookState) :
  timers (clearTimeout (debounceTimer s) s) =
    match debounceTimer s with
    | Some h0 => List.filter (fun t => negb (handle_is h0 t)) (timers s)
    | None => timers s
    end.
Proof. unfold clearTimeout. now destruct (debounceTimer s). Qed.

Lemma clearTimeout_frame (h : option nat) (s : NotebookState) :
  nextHandle (clearTimeout h s) = nextHandle s /\
  now (clearTimeout h s) = now s /\
  config (clearTimeout h s) = config s /\
  cells (clearTimeout h s) = cells s.
Proof. now destruct h. Qed.

(** One debounced update: whatever update was pending is cancelled and
    the new one is queued, due one delay from now. *)
Lemma debouncedUpdateCell_queue (index : Z) (text : jsstring)
    (s : NotebookState) :
  debounce_inv s ->
  let s' := debouncedUpdateCell index text s in
  pendingUpdates s' = [(index, text)] /\
  debounce_inv s' /\
  last (timers s') =
    Some {| handle := nextHandle s;
            due := now s + debounceDelay (config s);
            callback := UpdateCellContent index text |} /\
  debounceTimer s' = Some (nextHandle s) /\
  now s' = now s /\ config s' = config s /\ cells s' = cells s.
Proof.
  intros Hinv.
  destruct (clearTimeout_frame (debounceTimer s) s) as (Hh & Hn & Hc & Hcs).
  assert (Htimers : timers (debouncedUpdateCell index text s) =
            timers (clearTimeout (debounceTimer s) s) ++
            [{| handle := nextHandle s;
                due := now s + debounceDelay (config s);
                callback := UpdateCellContent index text |}]).
  { unfold debouncedUpdateCell, setTimeout. simpl. now rewrite Hh, Hn, Hc. }
  pose proof (pendingUpdates_cleared _ _ Hinv) as Hclr.
  rewrite <- timers_clearTimeout in Hclr.
  cbv zeta. repeat split.
  - unfold pendingUpdates. rewrite Htimers, omap_app, Hclr. reflexivity.
  - unfold debounce_inv. rewrite Htimers. apply Forall_app. split.
    + apply Forall_forall. intros t Hin Hupd. exfalso.
      revert Hclr Hin Hupd. unfold isUpdate.
      generalize (timers (clearTimeout (debounceTimer s) s)).
      induction l as [|x l IH]; simpl; [intros _ Hin; now inversion Hin|].
      intros Hclr Hin%elem_of_cons Hupd.
      destruct Hin as [->|Hin].
      * destruct (callback x); discriminate.
      * destruct (callback x); try discriminate; now apply IH.
    + constructor; [|constructor]. intros _.
      unfold debouncedUpdateCell, setTimeout. simpl. now rewrite Hh.
  - rewrite Htimers. apply last_snoc.
  - unfold debouncedUpdateCell, setTimeout. simpl. now rewrite Hh.
  - unfold debouncedUpdateCell, setTimeout. simpl. exact Hn.
  - unfold debouncedUpdateCell, setTimeout. simpl. exact Hc.
  - unfold debouncedUpdateCell, setTimeout. simpl. exact Hcs.
Qed.

Lemma burst_inv (edits : list (Z * jsstring)) (s : NotebookState) :
  debounce_inv s -> debounce_inv (burst edits s).
Proof.
  revert s. induction edits as [|[i c] edits IH]; intros s Hinv; [exact Hinv|].
  simpl. apply IH. now apply debouncedUpdateCell_queue.
Qed.

Lemma cells_updateCellContent (index : Z) (text : jsstring) (s : NotebookState) :
  cells (updateCellContent index text s) =
    if in_bounds index (cells s)
    then alter (fun c => {| id := id c; content := text |}) (Z.to_nat index)
           (cells s)
    else cells s.
Proof.
  unfold updateCellContent. destruct (in_bounds index (cells s)); [|reflexivity].
  now destruct (sync_preserves
                  (with_cells
                     (alter (fun c => {| id := id c; content := text |})
                        (Z.to_nat index) (cells s)) s)) as (-> & _).
Qed.

(** C8 fails as stated: the timer is shared.  Cell 0 is edited at time 0
    and cell 1 at time 100, within the 300 ms window.  The second edit
    cancels the pending update of cell 0, and once the window has passed
    cell 0 still holds its old content and the buffer the old statement. *)
Lemma debounce_other_cell_counterexample :
  let s1 := debouncedUpdateCell 0 (lit "select 10") twoCells in
  let s2 := debouncedUpdateCell 1 (lit "select 20") (elapse 100 s1) in
  pendingUpdates s1 = [(0%Z, lit "select 10")] /\
  pendingUpdates s2 = [(1%Z, lit "select 20")] /\
  List.map content (cells (elapse 1000 s2)) = [lit "select 1"; lit "select 20"] /\
  bufferOf (elapse 1000 s2) = lit "select 1" ++ cellJoiner ++ lit "select 20" /\
  pendingUpdates (elapse 1000 s2) = [].
Proof. cbv zeta. repeat split; reflexivity. Qed.

(** C8, amended. One debounce timer is shared by all cells.  Every edit,
    on whichever cell, cancels the pending update and queues its own, due
    one debounce delay later; so after any run of edits with no timer
    firing in between, the last edit alone is pending, whatever cells the
    earlier ones were on, and when its timer fires the update made is that
    of the last edit. *)
Theorem debounce_shared_timer_last_edit_wins
    (s : NotebookState) (earlier : list (Z * jsstring))
    (index : Z) (text : jsstring) :
  debounce_inv s ->
  let s' := burst (earlier ++ [(index, text)]) s in
  pendingUpdates s' = [(index, text)] /\
  debounce_inv s' /\
  exists tm,
    last (timers s') = Some tm /\
    debounceTimer s' = Some (handle tm) /\
    callback tm = UpdateCellContent index text /\
    due tm = (now s' + debounceDelay (config s'))%nat /\
    cells (fire tm s') = cells (updateCellContent index text s').
Proof.
  intros Hinv. cbv zeta. unfold burst. rewrite fold_left_app. simpl.
  fold (burst earlier s).
  pose proof (burst_inv earlier s Hinv) as Hinv'.
  destruct (debouncedUpdateCell_queue index text (burst earlier s) Hinv')
    as (Hpend & Hinv'' & Hlast & Htimer & Hnow & Hcfg & Hcells).
  split; [exact Hpend|]. split; [exact Hinv''|].
  eexists. split; [exact Hlast|]. cbn [handle due callback].
  split; [exact Htimer|]. split; [reflexivity|].
  split.
  { change ((now (burst earlier s)
             + debounceDelay (config (burst earlier s)))%nat
            = (now (debouncedUpdateCell index text (burst earlier s))
               + debounceDelay
                   (config (debouncedUpdateCell index text (burst earlier s))))%nat).
    now rewrite Hnow, Hcfg. }
  unfold fire. cbn [callback runCallback].
  now rewrite !cells_updateCellContent.
Qed.

Lemma debounce_shared_timer_witness :
  pendingUpdates
    (burst [(0%Z, lit "select 10"); (1%Z, lit "select 20")] twoCells) =
    [(1%Z, lit "select 20")].
Proof.
  refine (proj1 (debounce_shared_timer_last_edit_wins twoCells
                   [(0%Z, lit "select 10")] 1 (lit "select 20") _)).
  constructor.
Defined.

(** ** The comment toggle *)

(** On a text without newline both line loops stop at line 0, so the new
    text is the one line toggled, whatever the selection. *)
Lemma toggledContent_single_line (ta : Textarea) :
  free_of 10 (value ta) ->
  toggledContent ta =
    toggleLine (blankOrCommented (value ta)) (value ta).
Proof.
  intros Hfree. unfold toggledContent, newline, split.
  rewrite split_from_free by exact Hfree. simpl app. cbv zeta.
  cbn [imap join forallb].
  assert (Hs : forall x : nat,
             default 0%nat (findStartLine [value ta] 0 0 x) = 0%nat).
  { intros x. simpl. now destruct (_ <? _)%nat. }
  assert (He : forall x : nat,
             default 0%nat (findEndLine [value ta] 0 0 x) = 0%nat).
  { intros x. simpl. now destruct (_ <=? _)%nat. }
  rewrite !Hs, !He.
  destruct (Nat.eqb _ _); simpl; now rewrite andb_true_r.
Qed.

Lemma trimEnd_prefix (s : jsstring) : exists w, s = trimEnd s ++ w.
Proof.
  exists (rev (takeWhile is_space (rev s))). unfold trimEnd.
  rewrite <- rev_app_distr, takeWhile_dropWhile. now rewrite rev_involutive.
Qed.

Lemma starts_with_trimEnd (r : jsstring) :
  starts_with [45] (trimEnd r) = starts_with [45] r.
Proof.
  destruct r as [|a r]; [reflexivity|].
  destruct (is_space a) eqn:Ha.
  - destruct (trimEnd_prefix (a :: r)) as [w Hw].
    destruct (trimEnd (a :: r)) as [|b t].
    + cbn [starts_with].
      destruct (N.eqb_spec 45 a) as [<-|]; [discriminate Ha | reflexivity].
    + simpl in Hw. injection Hw as <- _. reflexivity.
  - rewrite trimEnd_cons by exact Ha. reflexivity.
Qed.

(** Whether a line counts as commented is decided by the text after its
    leading white space. *)
Lemma starts_with_token_trim (l : jsstring) :
  starts_with commentToken (trim l) =
    starts_with commentToken (dropWhile is_space l).
Proof.
  pose proof (trim_shape l) as H.
  destruct (dropWhile is_space l) as [|c r]; [now rewrite H|].
  destruct H as [_ ->]. change commentToken with [45; 45].
  change (starts_with [45; 45] (c :: trimEnd r))
    with ((45 =? c) && starts_with [45] (trimEnd r)).
  now rewrite starts_with_trimEnd.
Qed.

Lemma is_empty_trim (l : jsstring) :
  is_empty (trim l) = is_empty (dropWhile is_space l).
Proof.
  pose proof (trim_shape l) as H.
  destruct (dropWhile is_space l) as [|c r]; [now rewrite H|].
  now destruct H as [_ ->].
Qed.

Lemma headed_dropWhile (ws body : jsstring) :
  forallb is_space ws = true ->
  headed body = true ->
  takeWhile is_space (ws ++ body) = ws /\
  dropWhile is_space (ws ++ body) = body.
Proof.
  intros Hws Hbody. rewrite takeWhile_all, dropWhile_all by exact Hws.
  destruct body as [|c r]; [now rewrite app_nil_r|].
  apply negb_true_iff in Hbody. simpl. rewrite Hbody.
  now rewrite app_nil_r.
Qed.

(** The one line toggled, in terms of its leading white space [ws] and
    the text [body] after it. *)
Lemma toggleSingle_shape (ws body : jsstring) :
  forallb is_space ws = true ->
  headed body = true ->
  toggleSingle (ws ++ body) =
    if is_empty body then ws
    else if starts_with commentToken body
         then ws ++ dropOneSpace (drop 2 body)
         else ws ++ lit "-- " ++
                takeWhile (fun c => negb (is_line_terminator c)) body.
Proof.
  intros Hws Hbody.
  destruct (headed_dropWhile ws body Hws Hbody) as [Htake Hdrop].
  unfold toggleSingle, toggleLine, blankOrCommented, nonempty.
  rewrite starts_with_token_trim, is_empty_trim, Hdrop.
  destruct (is_empty body) eqn:Hemp.
  - apply is_empty_true in Hemp. subst body. apply app_nil_r.
  - destruct (starts_with commentToken body) eqn:Hc; cbn [negb andb].
    + unfold uncommentLine. now rewrite Hdrop, Htake, Hc.
    + unfold commentLine. now rewrite Hdrop, Htake.
Qed.

Lemma leading_space_split (l : jsstring) :
  l = takeWhile is_space l ++ dropWhile is_space l /\
  forallb is_space (takeWhile is_space l) = true /\
  headed (dropWhile is_space l) = true.
Proof.
  split; [now rewrite takeWhile_dropWhile|].
  split; [apply forallb_takeWhile|].
  destruct (dropWhile is_space l) as [|c r] eqn:E; [reflexivity|].
  simpl. now rewrite (dropWhile_head _ _ _ _ E).
Qed.

Lemma starts_with_prefix (p s : jsstring) :
  starts_with p s = true -> s = p ++ drop (length p) s.
Proof.
  revert s. induction p as [|a p IH]; intros [|b s]; simpl;
    try discriminate; try reflexivity.
  intros [Hab Hps]%andb_prop. apply N.eqb_eq in Hab. subst b.
  f_equal. now apply IH.
Qed.

Lemma length_dropOneSpace (x : jsstring) :
  (length (dropOneSpace x) <= length x)%nat.
Proof. destruct x as [|c x]; simpl; [lia|]. destruct (is_space c); simpl; lia. Qed.

Lemma roundTrips_shape (ws body : jsstring) :
  forallb is_space ws = true -> headed body = true ->
  roundTrips (ws ++ body) =
    is_empty body || plainBody body
    || (starts_with (lit "-- ") body && plainBody (drop 3 body)).
Proof.
  intros Hws Hbody. unfold roundTrips.
  now destruct (headed_dropWhile ws body Hws Hbody) as [_ ->].
Qed.

(** Toggling an uncommented line twice keeps its text up to the first
    line terminator. *)
Lemma toggleSingle_twice_plain (ws body : jsstring) :
  forallb is_space ws = true -> headed body = true ->
  is_empty body = false -> starts_with commentToken body = false ->
  toggleSingle (toggleSingle (ws ++ body)) =
    ws ++ takeWhile (fun c => negb (is_line_terminator c)) body.
Proof.
  intros Hws Hbody Hemp Hc.
  rewrite (toggleSingle_shape ws body Hws Hbody), Hemp, Hc.
  rewrite (toggleSingle_shape ws _ Hws) by reflexivity.
  reflexivity.
Qed.

Lemma plainBody_inv (b : jsstring) :
  plainBody b = true ->
  headed b = true /\ is_empty b = false /\
  starts_with commentToken b = false /\
  takeWhile (fun c => negb (is_line_terminator c)) b = b.
Proof.
  unfold plainBody, plainText, noLineTerminator.
  intros [[H1 H2]%andb_prop H3]%andb_prop.
  apply negb_true_iff in H2. apply takeWhile_forallb in H3.
  destruct b as [|c b]; [discriminate|]. now repeat split.
Qed.

Lemma plainBody_intro (b : jsstring) :
  headed b = true -> is_empty b = false ->
  starts_with commentToken b = false ->
  takeWhile (fun c => negb (is_line_terminator c)) b = b ->
  plainBody b = true.
Proof.
  intros H1 H2 H3 H4%takeWhile_forallb_inv.
  unfold plainBody, plainText, noLineTerminator.
  rewrite H3, H4. destruct b as [|c b]; [discriminate|].
  simpl in H1. now rewrite H1.
Qed.

(** Lines that are given back unchanged. *)
Lemma toggleSingle_twice_id (l : jsstring) :
  roundTrips l = true -> toggleSingle (toggleSingle l) = l.
Proof.
  destruct (leading_space_split l) as (Hl & Hws & Hbody).
  set (ws := takeWhile is_space l) in *.
  set (body := dropWhile is_space l) in *.
  rewrite Hl. rewrite (roundTrips_shape ws body Hws Hbody).
  intros [[Hemp|Hplain]%orb_prop|[Hpre Hplain]%andb_prop]%orb_prop.
  - apply is_empty_true in Hemp. rewrite Hemp.
    assert (H0 : toggleSingle (ws ++ []) = ws)
      by now rewrite (toggleSingle_shape ws [] Hws eq_refl).
    assert (H1 : toggleSingle ws = ws)
      by (rewrite app_nil_r in H0; exact H0).
    now rewrite H0, H1, app_nil_r.
  - apply plainBody_inv in Hplain as (_ & Hemp & Hc & Htake).
    rewrite toggleSingle_twice_plain by assumption. now rewrite Htake.
  - apply starts_with_prefix in Hpre. simpl length in Hpre.
    set (b3 := drop 3 body) in *.
    apply plainBody_inv in Hplain as (Hhead & Hemp & Hc & Htake).
    rewrite Hpre.
    rewrite (toggleSingle_shape ws _ Hws) by reflexivity.
    change (is_empty (lit "-- " ++ b3)) with false.
    change (starts_with commentToken (lit "-- " ++ b3)) with true.
    cbv iota.
    change (dropOneSpace (drop 2 (lit "-- " ++ b3))) with b3.
    rewrite (toggleSingle_shape ws b3 Hws Hhead), Hemp, Hc.
    now rewrite Htake.
Qed.

(** Lines that are not given back unchanged: every line outside
    [roundTrips] comes back different. *)
Lemma toggleSingle_twice_only (l : jsstring) :
  toggleSingle (toggleSingle l) = l -> roundTrips l = true.
Proof.
  destruct (leading_space_split l) as (Hl & Hws & Hbody).
  remember (takeWhile is_space l) as ws eqn:Ews.
  remember (dropWhile is_space l) as body eqn:Ebody.
  clear Ews Ebody. subst l.
  rewrite (roundTrips_shape ws body Hws Hbody).
  destruct (is_empty body) eqn:Hemp; [reflexivity|].
  destruct (starts_with commentToken body) eqn:Hc.
  - rewrite (toggleSingle_shape ws body Hws Hbody), Hemp, Hc.
    pose proof (starts_with_prefix _ _ Hc) as Hb. simpl length in Hb.
    remember (drop 2 body) as r eqn:Er. clear Er.
    pose proof (length_dropOneSpace r) as Hlen.
    destruct (leading_space_split (dropOneSpace r)) as (Hr & Hws2 & Hbody2).
    remember (takeWhile is_space (dropOneSpace r)) as ws2 eqn:Ews2.
    remember (dropWhile is_space (dropOneSpace r)) as body2 eqn:Ebody2.
    clear Ews2 Ebody2.
    rewrite Hr, app_assoc.
    assert (Hws12 : forallb is_space (ws ++ ws2) = true)
      by (rewrite forallb_app, Hws, Hws2; reflexivity).
    rewrite (toggleSingle_shape (ws ++ ws2) body2 Hws12 Hbody2).
    pose proof (f_equal length Hr) as Hrl. rewrite length_app in Hrl.
    assert (Hlb : length body = (2 + length r)%nat)
      by (rewrite Hb at 1; reflexivity).
    destruct (is_empty body2) eqn:He2.
    { intros Heq%(f_equal length). rewrite !length_app in Heq. lia. }
    destruct (starts_with commentToken body2) eqn:Hc2.
    { intros Heq%(f_equal length). rewrite !length_app in Heq.
      pose proof (length_dropOneSpace (drop 2 body2)) as Hd.
      rewrite length_drop in Hd. lia. }
    rewrite <- app_assoc. intros Heq%app_inv_head.
    rewrite Hb in Heq.
    set (m2 := takeWhile (fun c => negb (is_line_terminator c)) body2) in *.
    destruct ws2 as [|a ws2].
    + change ([45; 45] ++ 32 :: m2 = [45; 45] ++ r) in Heq.
      apply app_inv_head in Heq. subst r.
      change (m2 = body2) in Hr.
      rewrite Hb.
      change (starts_with (lit "-- ") (commentToken ++ 32 :: m2)) with true.
      change (drop 3 (commentToken ++ 32 :: m2)) with m2.
      rewrite Hr.
      rewrite (plainBody_intro body2 Hbody2 He2 Hc2 Hr).
      now rewrite orb_true_r.
    + change (a :: (ws2 ++ lit "-- " ++ m2) = 45 :: (45 :: r)) in Heq.
      injection Heq as -> _.
      vm_compute in Hws2. discriminate Hws2.
  - rewrite toggleSingle_twice_plain by assumption.
    intros Htake%app_inv_head.
    rewrite (plainBody_intro body Hbody Hemp Hc Htake).
    now rewrite orb_true_r.
Qed.

Lemma In_drop (x : N) (n : nat) (l : jsstring) : In x (drop n l) -> In x l.
Proof.
  revert l. induction n as [|n IH]; intros [|a l]; simpl; auto.
Qed.

Lemma In_takeWhile (q : N -> bool) (x : N) (l : jsstring) :
  In x (takeWhile q l) -> In x l.
Proof.
  induction l as [|a l IH]; simpl; [tauto|].
  destruct (q a); simpl; tauto.
Qed.

Lemma In_dropOneSpace (x : N) (l : jsstring) :
  In x (dropOneSpace l) -> In x l.
Proof.
  destruct l as [|c l]; simpl; [tauto|]. destruct (is_space c); simpl; tauto.
Qed.

(** Toggling a single line gives a single line. *)
Lemma toggleSingle_single_line (l : jsstring) :
  free_of 10 l -> free_of 10 (toggleSingle l).
Proof.
  destruct (leading_space_split l) as (Hl & Hws & Hbody).
  intros Hfree. rewrite Hl, (toggleSingle_shape _ _ Hws Hbody).
  assert (Hw : free_of 10 (takeWhile is_space l))
    by (intros H%In_takeWhile; now apply Hfree).
  assert (Hb : free_of 10 (dropWhile is_space l))
    by (intros H%In_dropWhile; now apply Hfree).
  destruct (is_empty _); [exact Hw|].
  destruct (starts_with _ _).
  - intros [H|H%In_dropOneSpace%In_drop]%in_app_or; [now apply Hw | now apply Hb].
  - intros [H|H]%in_app_or; [now apply Hw|].
    change (In 10 (45 :: 45 :: 32
                   :: takeWhile (fun c => negb (is_line_terminator c))
                        (dropWhile is_space l))) in H.
    destruct H as [H|[H|[H|H%In_takeWhile]]]; try discriminate H.
    now apply Hb.
Qed.

Lemma value_toggled (ta : Textarea) (s : NotebookState) :
  free_of 10 (value ta) -> value (toggled ta s) = toggleSingle (value ta).
Proof. intros H. now apply toggledContent_single_line. Qed.

(** C9 fails as stated: a line commented without a space after the token
    comes back with one. *)
Lemma toggleSQLComment_twice_counterexample :
  free_of 10 (lit "--x") /\
  value (toggled (mkTextarea (lit "--x") 0 0 0) twoCells) = lit "x" /\
  value (toggledAgain (mkTextarea (lit "--x") 0 0 0) twoCells 0 0) = lit "-- x" /\
  value (toggledAgain (mkTextarea (lit "--x") 0 0 0) twoCells 0 0) <> lit "--x".
Proof.
  split; [|split; [reflexivity|split; [reflexivity|]]].
  - literal_free.
  - discriminate.
Qed.

Lemma forallb_dropWhile (q p : N -> bool) (l : jsstring) :
  forallb q l = true -> forallb q (dropWhile p l) = true.
Proof.
  induction l as [|a l IH]; simpl; [reflexivity|].
  intros [Ha Hl]%andb_prop. destruct (p a); [now apply IH|].
  simpl. now rewrite Ha, Hl.
Qed.

Lemma forallb_drop (q : N -> bool) (n : nat) (l : jsstring) :
  forallb q l = true -> forallb q (drop n l) = true.
Proof.
  revert l. induction n as [|n IH]; intros [|a l]; simpl; auto.
  intros [_ Hl]%andb_prop. now apply IH.
Qed.

Lemma noLineTerminator_single_line (l : jsstring) :
  noLineTerminator l = true -> free_of 10 l.
Proof.
  unfold noLineTerminator. intros Hl Hin.
  apply (proj1 (forallb_forall _ _) Hl) in Hin. discriminate Hin.
Qed.

(** Without line terminators the two descriptions of the lines given
    back unchanged agree. *)
Lemma roundTrips_restores (l : jsstring) :
  noLineTerminator l = true -> roundTrips l = restores l.
Proof.
  intros Hl. unfold roundTrips, restores, plainBody.
  assert (Hb : noLineTerminator (dropWhile is_space l) = true)
    by now apply forallb_dropWhile.
  assert (Hd : noLineTerminator (drop 3 (dropWhile is_space l)) = true)
    by now apply forallb_drop.
  now rewrite Hb, Hd, !andb_true_r.
Qed.

(** C9, amended. For a text area holding a single line without line
    terminator, two toggles in a row, the second with any selection, give
    the original text back exactly for these lines and no others: blank
    lines; lines whose text after the leading white space does not start
    with the token; and lines where the token is followed by one space
    and by text that starts with neither white space nor the token.  A
    line of the second kind gains the token and a space after its leading
    white space and then loses them; a line of the third kind loses them
    and then regains them. *)
Theorem toggleSQLComment_twice (ta : Textarea) (s : NotebookState)
    (start finish : nat) :
  noLineTerminator (value ta) = true ->
  (value (toggledAgain ta s start finish) = value ta <->
   restores (value ta) = true) /\
  (forall ws body,
     forallb is_space ws = true -> plainText body = true ->
     (value ta = ws ++ body ->
      value (toggled ta s) = ws ++ lit "-- " ++ body /\
      value (toggledAgain ta s start finish) = ws ++ body) /\
     (value ta = ws ++ lit "-- " ++ body ->
      value (toggled ta s) = ws ++ body /\
      value (toggledAgain ta s start finish) = ws ++ lit "-- " ++ body)).
Proof.
  intros Hnl. pose proof (noLineTerminator_single_line _ Hnl) as Hfree.
  assert (H1 : value (toggled ta s) = toggleSingle (value ta))
    by now apply value_toggled.
  assert (H2 : value (toggledAgain ta s start finish) =
               toggleSingle (toggleSingle (value ta))).
  { unfold toggledAgain. rewrite value_toggled; cbn [value].
    - now rewrite H1.
    - rewrite H1. now apply toggleSingle_single_line. }
  assert (Hiff : value (toggledAgain ta s start finish) = value ta <->
                 restores (value ta) = true).
  { rewrite H2, <- roundTrips_restores by exact Hnl. split.
    - apply toggleSingle_twice_only.
    - apply toggleSingle_twice_id. }
  split; [exact Hiff|].
  intros ws body Hws Hplain.
  assert (Hstop : dropWhile is_space body = body).
  { unfold plainText in Hplain. destruct body as [|c body]; [discriminate|].
    apply andb_prop in Hplain as [Hc%negb_true_iff _].
    now apply dropWhile_stop. }
  split; intros Hval.
  - split.
    + rewrite H1, Hval.
      assert (Hpb : plainBody body = true).
      { unfold plainBody. rewrite Hplain. cbn [andb].
        rewrite Hval in Hnl. unfold noLineTerminator in Hnl |- *.
        rewrite forallb_app in Hnl. now apply andb_prop in Hnl as [_ ->]. }
      apply plainBody_inv in Hpb as (Hhead & Hemp & Hc & Htake).
      now rewrite (toggleSingle_shape ws body Hws Hhead), Hemp, Hc, Htake.
    + rewrite <- Hval. apply Hiff. rewrite Hval.
      unfold restores. rewrite dropWhile_all by exact Hws.
      now rewrite Hstop, Hplain, orb_true_r.
  - split.
    + rewrite H1, Hval.
      now rewrite (toggleSingle_shape ws _ Hws) by reflexivity.
    + rewrite <- Hval. apply Hiff. rewrite Hval.
      unfold restores. rewrite dropWhile_all by exact Hws.
      change (dropWhile is_space (lit "-- " ++ body)) with (lit "-- " ++ body).
      change (starts_with (lit "-- ") (lit "-- " ++ body)) with true.
      change (drop 3 (lit "-- " ++ body)) with body.
      now rewrite Hplain, orb_true_r.
Qed.

Lemma toggleSQLComment_twice_witness :
  value (toggledAgain (mkTextarea (lit "  select 1") 3 5 0) twoCells 0 9)
    = lit "  select 1" /\
  value (toggled (mkTextarea (lit "  select 1") 3 5 0) twoCells)
    = lit "  -- select 1".
Proof.
  destruct (toggleSQLComment_twice (mkTextarea (lit "  select 1") 3 5 0)
              twoCells 0 9 eq_refl) as [Hiff Hshape].
  split.
  - apply (proj2 Hiff). reflexivity.
  - apply (proj1 (Hshape (lit "  ") (lit "select 1") eq_refl eq_refl)).
    reflexivity.
Defined.

(** * Further properties of the cell operations *)

(** ** Adding and copying cells *)

Lemma splice_in_end (c : Cell) (cs : list Cell) :
  splice_in (length cs) c cs = cs ++ [c].
Proof. unfold splice_in. now rewrite take_ge, drop_ge by lia. Qed.

Lemma splice_in_delete (k : nat) (c : Cell) (cs : list Cell) :
  (k <= length cs)%nat -> delete k (splice_in k c cs) = cs.
Proof.
  intros Hk. unfold splice_in.
  rewrite <- (length_take_le cs k Hk) at 1.
  now rewrite delete_middle, take_drop.
Qed.

Lemma splice_in_lookup (k : nat) (c : Cell) (cs : list Cell) :
  (k <= length cs)%nat -> splice_in k c cs !! k = Some c.
Proof.
  intros Hk. unfold splice_in. apply list_lookup_middle.
  now rewrite length_take_le.
Qed.

Lemma splice_in_before (k j : nat) (c : Cell) (cs : list Cell) :
  (j < k)%nat -> (k <= length cs)%nat -> splice_in k c cs !! j = cs !! j.
Proof.
  intros Hj Hk. unfold splice_in.
  rewrite lookup_app_l by (rewrite length_take_le; lia).
  now apply lookup_take_lt.
Qed.

Lemma length_splice_in (k : nat) (c : Cell) (cs : list Cell) :
  length (splice_in k c cs) = S (length cs).
Proof.
  unfold splice_in. rewrite length_app. simpl. rewrite length_take, length_drop.
  lia.
Qed.

Lemma landing_le (position : option Z) (cs : list Cell) :
  (landing position cs <= length cs)%nat.
Proof.
  unfold landing. destruct position as [pos|]; [|lia].
  destruct (in_bounds pos cs) eqn:Hb; [|lia].
  apply in_bounds_spec in Hb. lia.
Qed.

(** The editor handle after a joiner pass depends only on the handle, the
    mode, the sub-widgets and the cells before it. *)
Lemma sync_aceEditor_ext (s s' : NotebookState) :
  aceEditor s = aceEditor s' -> isNotebookMode s = isNotebookMode s' ->
  cellEditors s = cellEditors s' -> cells s = cells s' ->
  aceEditor (syncCellsToAceEditor s) = aceEditor (syncCellsToAceEditor s').
Proof.
  intros Ha Hm He Hc. unfold syncCellsToAceEditor.
  rewrite Ha, Hm, He, Hc.
  destruct (aceEditor s') as [ed|] eqn:E; [|now rewrite Ha].
  destruct (negb (isNotebookMode s')); [now rewrite Ha|].
  cbv zeta. destruct (str_eqb _ _); [now rewrite Ha | reflexivity].
Qed.

Lemma setTimeout_frame (cb : Callback) (delay : nat) (s : NotebookState) :
  cells (snd (setTimeout cb delay s)) = cells s /\
  cellEditors (snd (setTimeout cb delay s)) = cellEditors s /\
  aceEditor (snd (setTimeout cb delay s)) = aceEditor s /\
  isNotebookMode (snd (setTimeout cb delay s)) = isNotebookMode s.
Proof. now repeat split. Qed.

(** [addNewCell] returns with one unit of fuel; the new cell lands at
    [landing], the sub-widgets and focus requests stay, and the buffer is
    the one a joiner pass over the new sequence leaves. *)
Lemma addNewCell_returns (fuel : nat) (position : option Z) (s : NotebookState) :
  exists s',
    addNewCell (S fuel) position s = Some s' /\
    cells s' =
      splice_in (landing position (cells s)) (blankCell s) (cells s) /\
    cellEditors s' = cellEditors s /\
    focusTargets s' = focusTargets s /\
    aceEditor s' =
      aceEditor (syncCellsToAceEditor
                   (with_cells
                      (splice_in (landing position (cells s)) (blankCell s)
                         (cells s)) s)).
Proof.
  set (new := splice_in (landing position (cells s)) (blankCell s) (cells s)).
  assert (Hs1 : match position with
                | Some pos =>
                    if in_bounds pos (cells s)
                    then with_cells
                           (splice_in (Z.to_nat pos) (blankCell s) (cells s)) s
                    else with_cells (cells s ++ [blankCell s]) s
                | None => with_cells (cells s ++ [blankCell s]) s
                end = with_cells new s).
  { unfold new, landing. destruct position as [pos|].
    - destruct (in_bounds pos (cells s)); [reflexivity|].
      now rewrite splice_in_end.
    - now rewrite splice_in_end. }
  unfold addNewCell, addNewCell_with. rewrite Hs1.
  assert (Hne : cells (with_cells new s) <> []).
  { intros E. apply (f_equal length) in E. simpl in E. unfold new in E.
    rewrite length_splice_in in E. discriminate E. }
  rewrite (renderCells_nonempty fuel _ Hne). cbn [mbind option_bind].
  destruct (renderCellElements_preserves (with_cells new s))
    as (Hc & Ha & Hm & He & Hf).
  set (s2 := renderCellElements (with_cells new s)) in *.
  destruct (sync_preserves s2) as (Hc3 & _ & He3 & _).
  eexists. split; [reflexivity|].
  destruct (setTimeout_frame (FocusNewCell position) 100
              (syncCellsToAceEditor s2)) as (-> & -> & -> & _).
  split; [now rewrite Hc3, Hc|]. split; [now rewrite He3, He|].
  split; [now rewrite focusTargets_setTimeout, app_nil_r, focusTargets_sync, Hf|].
  now apply sync_aceEditor_ext.
Qed.

(** X1. A new cell is blank and lands at the requested position, or at
    the end when the position is no index of the sequence; the cells that
    were there keep their order.  On a non-empty sequence, deleting the
    new cell again gives back the sequence as it was. *)
Theorem addNewCell_then_deleteCell (fuel fuel' : nat) (position : option Z)
    (s : NotebookState) :
  cells s <> [] ->
  exists s1 s2,
    addNewCell (S fuel) position s = Some s1 /\
    (exists c, cells s1 !! landing position (cells s) = Some c /\ content c = []) /\
    delete (landing position (cells s)) (cells s1) = cells s /\
    deleteCell (S (S fuel')) (Z.of_nat (landing position (cells s))) s1
      = Some s2 /\
    cells s2 = cells s.
Proof.
  intros Hne.
  destruct (addNewCell_returns fuel position s) as (s1 & Hadd & Hcells & _).
  pose proof (landing_le position (cells s)) as Hk.
  set (k := landing position (cells s)) in *.
  assert (Hb : in_bounds (Z.of_nat k) (cells s1) = true).
  { apply in_bounds_spec. rewrite Hcells, length_splice_in. lia. }
  destruct (deleteCell_in_bounds fuel' _ s1 Hb) as (s2 & Hdel & Hcase).
  assert (Hlen : (1 <? length (cells s1))%nat = true).
  { apply Nat.ltb_lt. rewrite Hcells, length_splice_in.
    destruct (cells s); [congruence | simpl; lia]. }
  rewrite Hlen, Nat2Z.id in Hcase. destruct Hcase as [Hcells2 _].
  exists s1, s2. split; [exact Hadd|]. split.
  { exists (blankCell s). split; [|reflexivity].
    rewrite Hcells. now apply splice_in_lookup. }
  split; [rewrite Hcells; now apply splice_in_delete|].
  split; [exact Hdel|].
  rewrite Hcells2, Hcells. now apply splice_in_delete.
Qed.

Lemma addNewCell_then_deleteCell_witness :
  exists s1 s2,
    addNewCell 1 (Some 1%Z) threeCells = Some s1 /\
    deleteCell 2 1 s1 = Some s2 /\
    cells s2 = cells threeCells.
Proof.
  destruct (addNewCell_then_deleteCell 0 0 (Some 1%Z) threeCells
              ltac:(discriminate))
    as (s1 & s2 & Hadd & _ & _ & Hdel & Hcells).
  exists s1, s2. split; [exact Hadd|]. split; assumption.
Defined.

Lemma cellContent_unregistered (editors : gmap nat CellEditor) (i j : nat)
    (c : Cell) :
  editors !! i = None -> editors !! j = None ->
  cellContent editors i c = cellContent editors j c.
Proof. intros Hi Hj. unfold cellContent. now rewrite Hi, Hj. Qed.

(** A blank cell put where no sub-widget is registered at or after its
    index does not change the text the joiner computes. *)
Lemma fullContent_splice_blank (editors : gmap nat CellEditor) (k : nat)
    (c : Cell) (cs : list Cell) :
  content c = [] -> (k <= length cs)%nat ->
  (forall j, (k <= j)%nat -> editors !! j = None) ->
  fullContent editors (splice_in k c cs) = fullContent editors cs.
Proof.
  intros Hc Hk Hnone. unfold fullContent, splice_in. f_equal.
  rewrite <- (take_drop k cs) at 3.
  rewrite !imap_app, !List.filter_app, length_take_le by exact Hk.
  f_equal. simpl imap.
  assert (Hblank : cellContent editors (k + 0) c = []).
  { unfold cellContent. rewrite Hnone by lia. now rewrite Hc. }
  rewrite Hblank. simpl List.filter. f_equal.
  apply imap_ext. intros i x _. simpl.
  apply cellContent_unregistered; apply Hnone; lia.
Qed.

Lemma bufferOf_aceEditor (s s' : NotebookState) :
  aceEditor s = aceEditor s' -> bufferOf s = bufferOf s'.
Proof. unfold bufferOf. now intros ->. Qed.

(** X2. In notebook mode, adding a cell where no sub-widget is registered
    at or after its index (the case of a notebook shown in plain text
    areas, and of a cell added at the end) leaves in the buffer exactly
    the text a joiner pass alone would: the blank cell adds nothing. *)
Theorem addNewCell_blank_keeps_buffer (fuel : nat) (position : option Z)
    (s : NotebookState) (ed : AceEditor) :
  aceEditor s = Some ed ->
  isNotebookMode s = true ->
  (forall j, (landing position (cells s) <= j)%nat -> cellEditors s !! j = None) ->
  exists s',
    addNewCell (S fuel) position s = Some s' /\
    length (cells s') = S (length (cells s)) /\
    bufferOf s' = bufferOf (syncCellsToAceEditor s).
Proof.
  intros Hed Hmode Hnone.
  destruct (addNewCell_returns fuel position s)
    as (s' & Hadd & Hcells & _ & _ & Hace).
  exists s'. split; [exact Hadd|].
  split; [rewrite Hcells; apply length_splice_in|].
  rewrite (bufferOf_aceEditor _ _ Hace).
  rewrite (sync_buffer _ ed) by assumption.
  rewrite (sync_buffer s ed) by assumption.
  cbn [cells cellEditors with_cells].
  apply fullContent_splice_blank;
    [reflexivity | apply landing_le | exact Hnone].
Qed.

Lemma addNewCell_blank_keeps_buffer_witness :
  exists s',
    addNewCell 1 (Some 1%Z)
      (notebookWith (cellsOf of_nat [lit "select 1"]) []) = Some s' /\
    length (cells s') = 2%nat /\
    bufferOf s' = lit "select 1".
Proof.
  destruct (addNewCell_blank_keeps_buffer 0 (Some 1%Z)
              (notebookWith (cellsOf of_nat [lit "select 1"]) [])
              {| buffer := []; setValueCalls := [] |} eq_refl eq_refl)
    as (s' & Hadd & Hlen & Hbuf).
  { intros j _. apply lookup_empty. }
  exists s'. split; [exact Hadd|]. split; [exact Hlen|].
  rewrite Hbuf. reflexivity.
Defined.

(** What [copyCell] does for an index in bounds. *)
Lemma copyCell_in_bounds (fuel : nat) (index : Z) (s : NotebookState) :
  in_bounds index (cells s) = true ->
  exists s',
    copyCell (S fuel) index s = Some s' /\
    cells s' =
      splice_in (S (Z.to_nat index))
        {| id := cell_prefix ++ of_nat (now s);
           content := liveContent s (Z.to_nat index) |}
        (cells s).
Proof.
  intros Hb. pose proof Hb as Hb'. apply in_bounds_spec in Hb' as [Hlo Hhi].
  unfold copyCell.
  assert (Hout : (index <? 0)%Z || (Z.of_nat (length (cells s)) <=? index)%Z
                 = false).
  { apply orb_false_iff. split; [apply Z.ltb_ge | apply Z.leb_gt]; lia. }
  rewrite Hout. rewrite Nat.add_1_r.
  set (new := splice_in _ _ _).
  assert (Hne : cells (with_cells new s) <> []).
  { intros E. apply (f_equal length) in E. simpl in E. unfold new in E.
    rewrite length_splice_in in E. discriminate E. }
  rewrite (renderCells_nonempty fuel _ Hne). cbn [mbind option_bind].
  eexists. split; [reflexivity|].
  destruct (setTimeout_frame (FocusCopiedCell (S (Z.to_nat index))) 200
              (syncCellsToAceEditor (renderCellElements (with_cells new s))))
    as (-> & _).
  destruct (sync_preserves (renderCellElements (with_cells new s))) as (-> & _).
  now destruct (renderCellElements_preserves (with_cells new s)) as (-> & _).
Qed.

(** X3. Copying the cell at an in-bounds index puts a new cell right
    after it and moves nothing else.  The copy holds the live value of
    the cell's sub-widget, untrimmed, when one is registered and can be
    read, and the stored content otherwise.  Deleting the copy gives back
    the sequence as it was. *)
Theorem copyCell_then_deleteCell (fuel fuel' : nat) (index : Z)
    (s : NotebookState) :
  (0 <= index < Z.of_nat (length (cells s)))%Z ->
  exists s1 s2 copy,
    copyCell (S fuel) index s = Some s1 /\
    cells s1 !! Z.to_nat index = cells s !! Z.to_nat index /\
    cells s1 !! S (Z.to_nat index) = Some copy /\
    delete (S (Z.to_nat index)) (cells s1) = cells s /\
    (forall e, cellEditors s !! Z.to_nat index = Some e ->
               editorThrows e = false -> content copy = liveValue e) /\
    (forall cell, cells s !! Z.to_nat index = Some cell ->
                  (cellEditors s !! Z.to_nat index = None \/
                   exists e, cellEditors s !! Z.to_nat index = Some e /\
                             editorThrows e = true) ->
                  content copy = content cell) /\
    deleteCell (S (S fuel')) (index + 1) s1 = Some s2 /\
    cells s2 = cells s.
Proof.
  intros Hidx.
  assert (Hb : in_bounds index (cells s) = true) by (apply in_bounds_spec; lia).
  destruct (copyCell_in_bounds fuel index s Hb) as (s1 & Hcopy & Hcells).
  set (i := Z.to_nat index) in *.
  assert (Hi : (S i <= length (cells s))%nat) by (unfold i; lia).
  assert (Hb1 : in_bounds (index + 1) (cells s1) = true).
  { apply in_bounds_spec. rewrite Hcells, length_splice_in. lia. }
  destruct (deleteCell_in_bounds fuel' _ s1 Hb1) as (s2 & Hdel & Hcase).
  assert (Hlen : (1 <? length (cells s1))%nat = true).
  { apply Nat.ltb_lt. rewrite Hcells, length_splice_in. lia. }
  rewrite Hlen in Hcase. destruct Hcase as [Hcells2 _].
  replace (Z.to_nat (index + 1)) with (S i) in Hcells2 by (unfold i; lia).
  eexists s1, s2, _. split; [exact Hcopy|].
  split; [rewrite Hcells; apply splice_in_before; lia|].
  split; [rewrite Hcells; now apply splice_in_lookup|].
  split; [rewrite Hcells; now apply splice_in_delete|].
  split; [|split; [|split]].
  - intros e He Hok. cbn [content]. unfold liveContent, cellGetValue.
    fold i. now rewrite He, Hok.
  - intros cell Hcell Hcase. cbn [content]. unfold liveContent, cellGetValue.
    fold i. rewrite Hcell.
    destruct Hcase as [->|(e & -> & ->)]; reflexivity.
  - exact Hdel.
  - rewrite Hcells2, Hcells. now apply splice_in_delete.
Qed.

Lemma copyCell_then_deleteCell_witness :
  exists s1 s2 copy,
    copyCell 1 1 editedNotebook = Some s1 /\
    cells s1 !! 2%nat = Some copy /\
    content copy = lit " select 3 " /\
    deleteCell 2 2 s1 = Some s2 /\
    cells s2 = cells editedNotebook.
Proof.
  destruct (copyCell_then_deleteCell 0 0 1 editedNotebook
              ltac:(simpl; lia))
    as (s1 & s2 & copy & Hcopy & _ & Hat & _ & Hlive & _ & Hdel & Hcells).
  exists s1, s2, copy. split; [exact Hcopy|]. split; [exact Hat|].
  split; [|split; assumption].
  apply (Hlive {| liveValue := lit " select 3 "; editorThrows := false |});
    reflexivity.
Defined.

(** ** Updating a cell *)

(** X4. [updateCellContent] ignores an index outside the sequence.  For
    an index inside it the cell keeps its id and gets the new content,
    the other cells stay as they are, and in notebook mode with no
    sub-widget registered the buffer becomes the join of the stored
    contents with the new text in its place. *)
Theorem updateCellContent_behaviour (index : Z) (text : jsstring)
    (s : NotebookState) :
  (in_bounds index (cells s) = false -> updateCellContent index text s = s) /\
  (in_bounds index (cells s) = true ->
   length (cells (updateCellContent index text s)) = length (cells s) /\
   (forall c, cells s !! Z.to_nat index = Some c ->
      cells (updateCellContent index text s) !! Z.to_nat index
        = Some {| id := id c; content := text |}) /\
   (forall j, j <> Z.to_nat index ->
      cells (updateCellContent index text s) !! j = cells s !! j) /\
   (forall ed, aceEditor s = Some ed -> isNotebookMode s = true ->
      cellEditors s = ∅ ->
      bufferOf (updateCellContent index text s) =
        joinerSpec (<[Z.to_nat index := text]> (List.map content (cells s))))).
Proof.
  split.
  - intros Hb. unfold updateCellContent. now rewrite Hb.
  - intros Hb. rewrite cells_updateCellContent, Hb.
    split; [apply length_alter|].
    split; [intros c Hc; now rewrite list_lookup_alter_eq, Hc|].
    split; [intros j Hj; now apply list_lookup_alter_ne|].
    intros ed Hed Hmode Hnone. unfold updateCellContent. rewrite Hb.
    set (cs' := alter _ _ _).
    rewrite (sync_joinerSpec _ ed); try assumption.
    + cbn [cells with_cells]. f_equal.
      unfold resolved. cbn [cellEditors with_cells]. rewrite Hnone.
      rewrite (imap_ext _ (const content) cs')
        by (intros i x _; now rewrite lookup_empty).
      rewrite imap_const. unfold cs'.
      change (content <$> alter (fun c => {| id := id c; content := text |})
                            (Z.to_nat index) (cells s)
              = <[Z.to_nat index:=text]> (content <$> cells s)).
      apply list_eq. intros j. rewrite list_lookup_fmap.
      destruct (decide (j = Z.to_nat index)) as [->|Hne].
      * rewrite list_lookup_alter_eq.
        apply in_bounds_spec in Hb as [_ Hlt].
        rewrite list_lookup_insert_eq by (rewrite length_fmap; lia).
        destruct (lookup_lt_is_Some_2 (cells s) _ Hlt) as [c ->]. reflexivity.
      * rewrite list_lookup_alter_ne, list_lookup_insert_ne by congruence.
        now rewrite list_lookup_fmap.
    + cbn [cellEditors with_cells]. rewrite Hnone. intros i e He.
      now rewrite lookup_empty in He.
Qed.

Lemma updateCellContent_behaviour_witness :
  bufferOf (updateCellContent 1 (lit " select 20 ") twoCells) =
    lit "select 1" ++ cellJoiner ++ lit "select 20" /\
  updateCellContent 2 (lit "select 30") twoCells = twoCells.
Proof.
  destruct (updateCellContent_behaviour 1 (lit " select 20 ") twoCells)
    as [_ Hin].
  destruct (Hin eq_refl) as (_ & _ & _ & Hbuf).
  split.
  - rewrite (Hbuf _ eq_refl eq_refl eq_refl). reflexivity.
  - apply (proj1 (updateCellContent_behaviour 2 (lit "select 30") twoCells)).
    reflexivity.
Defined.

(** ** Letting time pass *)

Lemma timers_runCallback (cb : Callback) (s : NotebookState) :
  timers (runCallback cb s) = timers s.
Proof.
  destruct cb; try reflexivity.
  - simpl. unfold createCellAceEditor. now destruct (windowAce s).
  - simpl. unfold updateCellContent.
    destruct (in_bounds index (cells s)); [|reflexivity].
    now destruct (sync_preserves
                    (with_cells
                       (alter (fun c => {| id := id c; content := text |})
                          (Z.to_nat index) (cells s)) s))
      as (_ & _ & _ & -> & _).
Qed.

Lemma timers_fire (tm : Timer) (s : NotebookState) :
  timers (fire tm s) =
    List.filter (fun x => negb (handle_is (handle tm) x)) (timers s).
Proof. unfold fire. now rewrite timers_runCallback. Qed.

Lemma nextDue_Some (t : nat) (ts : list Timer) (tm : Timer) :
  nextDue t ts = Some tm -> In tm ts /\ (due tm <= t)%nat.
Proof.
  revert tm. induction ts as [|x ts IH]; intros tm; simpl; [discriminate|].
  destruct (nextDue t ts) as [y|].
  - destruct (IH y eq_refl) as [Hin Hdue].
    destruct ((due x <=? t)%nat && (due x <=? due y)%nat) eqn:E.
    + intros [= <-]. apply andb_prop in E as [E _].
      apply Nat.leb_le in E. auto.
    + intros [= <-]. auto.
  - destruct (due x <=? t)%nat eqn:E; [|discriminate].
    intros [= <-]. apply Nat.leb_le in E. auto.
Qed.

Lemma nextDue_None (t : nat) (ts : list Timer) :
  nextDue t ts = None -> Forall (fun x => (t < due x)%nat) ts.
Proof.
  induction ts as [|x ts IH]; simpl; [constructor|].
  destruct (nextDue t ts) as [y|].
  - now destruct ((due x <=? t)%nat && (due x <=? due y)%nat).
  - destruct (due x <=? t)%nat eqn:E; [discriminate|].
    intros _. apply Nat.leb_gt in E. constructor; auto.
Qed.

Lemma length_filter_out (tm : Timer) (ts : list Timer) :
  In tm ts ->
  (length (List.filter (fun x => negb (handle_is (handle tm) x)) ts)
   < length ts)%nat.
Proof.
  induction ts as [|x ts IH]; simpl; [tauto|].
  pose proof (List.filter_length_le
                (fun x => negb (handle_is (handle tm) x)) ts) as Hle.
  intros [->|Hin].
  - unfold handle_is at 1. rewrite Nat.eqb_refl. simpl. lia.
  - specialize (IH Hin).
    destruct (negb (handle_is (handle tm) x)); simpl; lia.
Qed.

(** A property kept by the firing of every timer that is pending and due
    holds after the clock has moved on. *)
Lemma elapse_loop_invariant (I : NotebookState -> Prop) (t : nat) :
  (forall s tm, I s -> In tm (timers s) -> (due tm <= t)%nat -> I (fire tm s)) ->
  forall fuel s, I s -> I (elapse_loop fuel t s).
Proof.
  intros Hstep. induction fuel as [|fuel IH]; intros s Hs; [exact Hs|].
  simpl. destruct (nextDue t (timers s)) as [tm|] eqn:E; [|exact Hs].
  apply nextDue_Some in E as [Hin Hdue]. apply IH. now apply Hstep.
Qed.

(** With one round per pending timer, no pending timer is due any more
    when the loop ends. *)
Lemma elapse_loop_settled (t fuel : nat) (s : NotebookState) :
  (length (timers s) <= fuel)%nat ->
  nextDue t (timers (elapse_loop fuel t s)) = None.
Proof.
  revert s. induction fuel as [|fuel IH]; intros s Hlen.
  - simpl. destruct (timers s); [reflexivity | simpl in Hlen; lia].
  - simpl. destruct (nextDue t (timers s)) as [tm|] eqn:E; [|exact E].
    apply IH. apply nextDue_Some in E as [Hin _].
    rewrite timers_fire. pose proof (length_filter_out tm _ Hin). lia.
Qed.

Lemma cells_elapse (t : nat) (s : NotebookState) :
  cells (elapse t s) = cells (elapse_loop (length (timers s)) t s) /\
  timers (elapse t s) = timers (elapse_loop (length (timers s)) t s) /\
  cellEditors (elapse t s) = cellEditors (elapse_loop (length (timers s)) t s).
Proof. now repeat split. Qed.

Lemma cells_fire_other (tm : Timer) (s : NotebookState) :
  isUpdate tm = false -> cells (fire tm s) = cells s.
Proof.
  unfold isUpdate, fire. destruct (callback tm); try discriminate; intros _;
    try reflexivity.
  simpl. unfold createCellAceEditor. now destruct (windowAce _).
Qed.

Lemma filter_keep_all (h : nat) (ts : list Timer) :
  Forall (fun x => handle x <> h) ts ->
  List.filter (fun x => negb (handle_is h x)) ts = ts.
Proof.
  induction 1 as [|x ts Hx _ IH]; simpl; [reflexivity|].
  unfold handle_is at 1. rewrite (proj2 (Nat.eqb_neq _ _) Hx). simpl.
  now rewrite IH.
Qed.

Lemma Forall_filter_timers (P : Timer -> Prop) (f : Timer -> bool)
    (ts : list Timer) :
  Forall P ts -> Forall P (List.filter f ts).
Proof.
  induction 1 as [|x ts Hx _ IH]; simpl; [constructor|].
  destruct (f x); [constructor|]; assumption.
Qed.

Lemma pendingUpdates_none (ts : list Timer) :
  Forall (fun x => isUpdate x = false) ts ->
  omap (fun t => match callback t with
                 | UpdateCellContent i c => Some (i, c)
                 | _ => None
                 end) ts = [].
Proof.
  induction 1 as [|x ts Hx _ IH]; [reflexivity|].
  simpl. unfold isUpdate in Hx. destruct (callback x); try exact IH.
  discriminate Hx.
Qed.

Lemma cleared_no_updates (s : NotebookState) :
  debounce_inv s ->
  Forall (fun x => isUpdate x = false)
    (timers (clearTimeout (debounceTimer s) s)).
Proof.
  unfold debounce_inv. rewrite timers_clearTimeout.
  generalize (debounceTimer s). intros h.
  induction 1 as [|x ts Hx _ IH]; [now destruct h|].
  destruct h as [h0|]; simpl in *.
  - unfold handle_is at 1.
    destruct (Nat.eqb_spec (handle x) h0) as [E|E]; simpl; [exact IH|].
    constructor; [|exact IH].
    destruct (isUpdate x); [|reflexivity]. specialize (Hx eq_refl). congruence.
  - constructor; [|exact IH].
    destruct (isUpdate x); [|reflexivity]. specialize (Hx eq_refl). discriminate.
Qed.

Lemma cleared_handles (s : NotebookState) :
  handles_fresh s ->
  Forall (fun x => handle x <> nextHandle s)
    (timers (clearTimeout (debounceTimer s) s)).
Proof.
  unfold handles_fresh. rewrite timers_clearTimeout. intros H.
  assert (H' : Forall (fun x => handle x <> nextHandle s) (timers s)).
  { eapply Forall_impl; [exact H|]. intros x Hx. simpl in Hx. lia. }
  destruct (debounceTimer s); [now apply Forall_filter_timers | exact H'].
Qed.

Lemma timers_debouncedUpdateCell (index : Z) (text : jsstring)
    (s : NotebookState) :
  timers (debouncedUpdateCell index text s) =
    timers (clearTimeout (debounceTimer s) s) ++
    [{| handle := nextHandle s;
        due := now s + debounceDelay (config s);
        callback := UpdateCellContent index text |}].
Proof.
  destruct (clearTimeout_frame (debounceTimer s) s) as (Hh & Hn & Hc & _).
  unfold debouncedUpdateCell, setTimeout. simpl. now rewrite Hh, Hn, Hc.
Qed.

Section DebounceTiming.

Variables (index : Z) (text : jsstring) (s : NotebookState).

Local Abbreviation U := (debounceTimerOf index text s).
Local Abbreviation pending := (updatePending index text s).
Local Abbreviation applied := (updateApplied index text s).

Lemma debounced_pending :
  debounce_inv s -> handles_fresh s ->
  pending (debouncedUpdateCell index text s).
Proof using Type.
  intros Hinv Hfresh. split.
  - unfold debouncedUpdateCell, setTimeout. simpl.
    now destruct (clearTimeout_frame (debounceTimer s) s) as (_ & _ & _ & ->).
  - eexists. split; [apply timers_debouncedUpdateCell|].
    pose proof (cleared_no_updates s Hinv) as H1.
    pose proof (cleared_handles s Hfresh) as H2.
    revert H1 H2. generalize (timers (clearTimeout (debounceTimer s) s)).
    induction l as [|x l IH]; intros H1 H2; [constructor|].
    inversion H1; inversion H2; subst. constructor; auto.
Qed.

Lemma fire_other_pending (x : NotebookState) (tm : Timer) (ts : list Timer) :
  cells x = cells s -> timers x = ts ++ [U] ->
  Forall (fun y => isUpdate y = false /\ handle y <> handle U) ts ->
  In tm ts -> pending (fire tm x).
Proof using Type.
  intros Hc Ht Hts Hin.
  destruct (proj1 (Forall_forall _ _) Hts tm ltac:(now apply list_elem_of_In))
    as [Hup Hh].
  split; [now rewrite cells_fire_other|].
  exists (List.filter (fun y => negb (handle_is (handle tm) y)) ts). split.
  - rewrite timers_fire, Ht, List.filter_app. f_equal. simpl.
    unfold handle_is. cbn [handle debounceTimerOf].
    destruct (Nat.eqb_spec (nextHandle s) (handle tm)) as [E|E];
      [|reflexivity].
    exfalso. apply Hh. now rewrite <- E.
  - now apply Forall_filter_timers.
Qed.

Lemma fire_U_applied (x : NotebookState) (ts : list Timer) :
  cells x = cells s -> timers x = ts ++ [U] ->
  Forall (fun y => isUpdate y = false /\ handle y <> handle U) ts ->
  applied (fire U x).
Proof using Type.
  intros Hc Ht Hts. split.
  - unfold fire. cbn [callback debounceTimerOf runCallback].
    rewrite !cells_updateCellContent. cbn [cells with_now with_timers].
    now rewrite Hc.
  - rewrite timers_fire, Ht, List.filter_app. simpl.
    unfold handle_is at 2. rewrite Nat.eqb_refl. simpl. rewrite app_nil_r.
    rewrite filter_keep_all.
    + eapply Forall_impl; [exact Hts|]. now intros y [Hy _].
    + eapply Forall_impl; [exact Hts|]. now intros y [_ Hy].
Qed.

Lemma fire_applied (x : NotebookState) (tm : Timer) :
  applied x -> In tm (timers x) -> applied (fire tm x).
Proof using Type.
  intros [Hc Hts] Hin.
  pose proof (proj1 (Forall_forall _ _) Hts tm
                ltac:(now apply list_elem_of_In)) as Hup.
  split; [now rewrite cells_fire_other|].
  rewrite timers_fire. now apply Forall_filter_timers.
Qed.

(** X5. A debounced update waits for the whole delay and is then applied
    once.  In a state whose pending updates all belong to the debounce
    timer, after [debouncedUpdateCell] the cells are untouched and the
    update is pending for as long as the clock is short of the due time;
    once the clock has reached it the cells are those of
    [updateCellContent] and no update is pending. *)
Theorem debounced_update_timing :
  debounce_inv s -> handles_fresh s ->
  forall t,
    let s1 := debouncedUpdateCell index text s in
    ((t < now s + debounceDelay (config s))%nat ->
     cells (elapse t s1) = cells s /\
     pendingUpdates (elapse t s1) = [(index, text)]) /\
    ((now s + debounceDelay (config s) <= t)%nat ->
     cells (elapse t s1) = cells (updateCellContent index text s) /\
     pendingUpdates (elapse t s1) = []).
Proof using Type.
  intros Hinv Hfresh t. cbv zeta.
  pose proof (debounced_pending Hinv Hfresh) as Hstart.
  set (s1 := debouncedUpdateCell index text s) in *.
  destruct (cells_elapse t s1) as (-> & Htimers & _).
  unfold pendingUpdates. rewrite Htimers. clear Htimers.
  split; intros Ht.
  - assert (H : pending (elapse_loop (length (timers s1)) t s1)).
    { apply elapse_loop_invariant; [|exact Hstart].
      intros x tm (Hc & ts & Hts & Hall) Hin Hdue.
      rewrite Hts in Hin. apply in_app_or in Hin as [Hin|[<-|[]]].
      - now apply (fire_other_pending x tm ts).
      - cbn [due debounceTimerOf] in Hdue. lia. }
    destruct H as (Hc & ts & -> & Hall). split; [exact Hc|].
    rewrite omap_app, pendingUpdates_none; [reflexivity|].
    eapply Forall_impl; [exact Hall|]. now intros y [Hy _].
  - assert (H : pending (elapse_loop (length (timers s1)) t s1) \/
                applied (elapse_loop (length (timers s1)) t s1)).
    { apply (elapse_loop_invariant (fun x => pending x \/ applied x));
        [|now left].
      intros x tm [(Hc & ts & Hts & Hall)|Happ] Hin Hdue.
      - rewrite Hts in Hin. apply in_app_or in Hin as [Hin|[<-|[]]].
        + left. now apply (fire_other_pending x tm ts).
        + right. now apply (fire_U_applied x ts).
      - right. now apply fire_applied. }
    pose proof (elapse_loop_settled t _ s1 (Nat.le_refl _)) as Hset.
    apply nextDue_None in Hset.
    destruct H as [(_ & ts & Hts & _)|[Hc Hall]].
    + exfalso. rewrite Hts in Hset. apply Forall_app in Hset as [_ HU].
      inversion HU as [|? ? HdU _]; subst. cbn [due debounceTimerOf] in HdU. lia.
    + split; [exact Hc | now apply pendingUpdates_none].
Qed.

End DebounceTiming.

Lemma debounced_update_timing_witness :
  (cells (elapse 299 (debouncedUpdateCell 1 (lit "select 20") twoCells))
     = cells twoCells) /\
  (cells (elapse 300 (debouncedUpdateCell 1 (lit "select 20") twoCells))
     = cells (updateCellContent 1 (lit "select 20") twoCells)).
Proof.
  assert (Hinv : debounce_inv twoCells) by constructor.
  assert (Hfresh : handles_fresh twoCells) by constructor.
  split.
  - apply (proj1 (debounced_update_timing 1 (lit "select 20") twoCells
                    Hinv Hfresh 299)).
    simpl. lia.
  - apply (proj2 (debounced_update_timing 1 (lit "select 20") twoCells
                    Hinv Hfresh 300)).
    simpl. lia.
Defined.

(** ** Rendering settles *)












(** ** The comment toggle on several lines *)

Lemma toggledContent_lines (ta : Textarea) :
  toggledContent ta =
    join newline
      (imap (fun i line =>
               if selected (startLineOf ta) (endLineOf ta) i
               then toggleLine (allCommentedOf ta) line else line)
         (split newline (value ta))).
Proof. reflexivity. Qed.

Lemma split_join_lines (c : N) (ls : list jsstring) :
  ls <> [] -> Forall (free_of c) ls ->
  split_from [c] [] 0 (join [c] ls) = ls.
Proof.
  intros Hne Hfree. induction Hfree as [|x ls Hx Hls IH]; [congruence|].
  destruct ls as [|y ls].
  - simpl join. now rewrite split_from_free.
  - rewrite join_cons by discriminate.
    change (x ++ [c] ++ join [c] (y :: ls)) with (x ++ c :: join [c] (y :: ls)).
    rewrite split_from_at_sep by exact Hx.
    now rewrite IH by discriminate.
Qed.

Lemma uncommentLine_free (l : jsstring) :
  free_of 10 l -> free_of 10 (uncommentLine l).
Proof.
  intros Hfree. unfold uncommentLine.
  destruct (starts_with _ _); [|exact Hfree].
  intros [H%In_takeWhile|H%In_dropOneSpace%In_drop%In_dropWhile]%in_app_or;
    now apply Hfree.
Qed.

Lemma commentLine_free (l : jsstring) :
  free_of 10 l -> free_of 10 (commentLine l).
Proof.
  intros Hfree. unfold commentLine.
  intros [H%In_takeWhile|H]%in_app_or; [now apply Hfree|].
  change (In 10 (45 :: 45 :: 32
                 :: takeWhile (fun c => negb (is_line_terminator c))
                      (dropWhile is_space l))) in H.
  destruct H as [H|[H|[H|H%In_takeWhile%In_dropWhile]]]; try discriminate H.
  now apply Hfree.
Qed.

Lemma toggleLine_free (b : bool) (l : jsstring) :
  free_of 10 l -> free_of 10 (toggleLine b l).
Proof.
  intros Hfree. unfold toggleLine.
  destruct (is_empty _); [exact Hfree|].
  destruct b; [now apply uncommentLine_free | now apply commentLine_free].
Qed.

Lemma split_lines_free (text : jsstring) :
  Forall (free_of 10) (split newline text) /\ split newline text <> [].
Proof.
  unfold split, newline. split.
  - apply (split_from_spec 10 [] text). intros [].
  - apply split_from_nonnil.
Qed.

(** The new text has, line for line, the lines of the old one, the
    selected ones toggled. *)
Lemma split_toggledContent (ta : Textarea) :
  split newline (toggledContent ta) =
    imap (fun i line =>
            if selected (startLineOf ta) (endLineOf ta) i
            then toggleLine (allCommentedOf ta) line else line)
      (split newline (value ta)).
Proof.
  rewrite toggledContent_lines.
  destruct (split_lines_free (value ta)) as [Hfree Hne].
  set (lines := split newline (value ta)) in *.
  unfold split at 1, newline at 1 2. apply split_join_lines.
  - intros E. apply (f_equal length) in E. rewrite length_imap in E.
    destruct lines; [congruence | discriminate E].
  - apply Forall_forall. intros x Hx.
    apply elem_of_lookup_imap in Hx as (i & l & -> & Hl).
    pose proof (proj1 (Forall_forall _ _) Hfree l
                  ltac:(eapply list_elem_of_lookup_2; exact Hl)) as Hl'.
    destruct (selected _ _ i); [now apply toggleLine_free | exact Hl'].
Qed.

(** X7. The comment toggle works line by line: the new text has as many
    lines as the old one; a line outside the selected range, and a blank
    line anywhere, is kept as it is; a selected line that is not blank
    becomes its commented form, or its uncommented form when every
    selected line was blank or commented. *)
Theorem toggleSQLComment_line_by_line (ta : Textarea) (s : NotebookState)
    (i : nat) (line : jsstring) :
  length (split newline (value (toggled ta s)))
    = length (split newline (value ta)) /\
  (split newline (value ta) !! i = Some line ->
   ((i < startLineOf ta)%nat \/ (endLineOf ta < i)%nat \/ blank line ->
    split newline (value (toggled ta s)) !! i = Some line) /\
   ((startLineOf ta <= i <= endLineOf ta)%nat -> ~ blank line ->
    split newline (value (toggled ta s)) !! i =
      Some (if allCommentedOf ta then uncommentLine line
            else commentLine line))).
Proof.
  change (value (toggled ta s)) with (toggledContent ta).
  rewrite split_toggledContent. split; [apply length_imap|].
  intros Hline. rewrite list_lookup_imap, Hline. cbn [fmap option_fmap option_map].
  unfold selected, toggleLine. split.
  - intros [Hlt|[Hgt|Hblank]].
    + now rewrite (proj2 (Nat.leb_gt _ _) Hlt).
    + now rewrite (proj2 (Nat.leb_gt _ _) Hgt), andb_false_r.
    + unfold blank in Hblank. rewrite Hblank. cbn [is_empty].
      now destruct (_ && _).
  - intros [Hlo Hhi] Hnb.
    rewrite (proj2 (Nat.leb_le _ _) Hlo), (proj2 (Nat.leb_le _ _) Hhi).
    cbn [andb]. unfold blank in Hnb.
    destruct (trim line); [congruence | reflexivity].
Qed.

Lemma toggleSQLComment_line_by_line_witness :
  split newline (value (toggled threeLines twoCells)) !! 0%nat
    = Some (lit "select 1") /\
  split newline (value (toggled threeLines twoCells)) !! 1%nat
    = Some (lit "-- from t").
Proof.
  split.
  - apply (proj2 (toggleSQLComment_line_by_line threeLines twoCells 0
                    (lit "select 1"))); [reflexivity|].
    left. vm_compute. lia.
  - refine (proj2 (proj2 (toggleSQLComment_line_by_line threeLines twoCells 1
                            (lit "from t")) eq_refl) _ _).
    + vm_compute. lia.
    + discriminate.
Defined.

(** ** Which lines a selection touches *)

Lemma take_line_start (n : nat) (l rest : jsstring) :
  (n <= length l)%nat -> take n (l ++ rest) = take n l.
Proof. intros Hn. now apply take_app_le. Qed.

Lemma newlines_none (l : jsstring) :
  free_of 10 l -> List.filter (N.eqb 10) l = [].
Proof.
  induction l as [|a l IH]; intros Hfree; [reflexivity|]. cbn [List.filter].
  destruct (N.eqb_spec 10 a) as [<-|_].
  - exfalso. apply Hfree. now left.
  - apply IH. intros H. apply Hfree. now right.
Qed.

Lemma In_take (x : N) (n : nat) (l : jsstring) : In x (take n l) -> In x l.
Proof.
  revert l. induction n as [|n IH]; intros [|a l]; simpl; try tauto.
  intros [H|H]; auto.
Qed.

Lemma newlinesBefore_in_line (n : nat) (l rest : jsstring) :
  free_of 10 l -> (n <= length l)%nat ->
  newlinesBefore n (l ++ rest) = 0%nat.
Proof.
  intros Hfree Hn. unfold newlinesBefore. rewrite take_line_start by exact Hn.
  rewrite newlines_none; [reflexivity|].
  intros H%In_take. now apply Hfree.
Qed.

Lemma newlinesBefore_next_line (n : nat) (l rest : jsstring) :
  free_of 10 l -> (length l < n)%nat ->
  newlinesBefore n (l ++ 10 :: rest) =
    S (newlinesBefore (n - length l - 1) rest).
Proof.
  intros Hfree Hn. unfold newlinesBefore.
  rewrite take_app_ge by lia.
  destruct (n - length l)%nat as [|k] eqn:E; [lia|].
  cbn [take]. rewrite List.filter_app, newlines_none by exact Hfree.
  cbn [app List.filter]. rewrite N.eqb_refl. cbn [length].
  now rewrite Nat.sub_succ, Nat.sub_0_r.
Qed.

(** The start-line loop finds the line that holds the offset. *)
Lemma findStartLine_spec (ls : list jsstring) (i cc start : nat) :
  Forall (free_of 10) ls -> ls <> [] -> (cc <= start)%nat ->
  (start - cc <= length (join newline ls))%nat ->
  findStartLine ls i cc start =
    Some (i + newlinesBefore (start - cc) (join newline ls))%nat.
Proof.
  intros Hfree. revert i cc.
  induction Hfree as [|l ls Hl Hls IH]; intros i cc Hne Hcc Hlen; [congruence|].
  cbn [findStartLine].
  destruct (start <? cc + (length l + 1))%nat eqn:E.
  - apply Nat.ltb_lt in E. f_equal.
    destruct ls as [|y ls].
    + simpl join. rewrite <- (app_nil_r l) at 1.
      rewrite newlinesBefore_in_line by (exact Hl || lia). lia.
    + rewrite join_cons by discriminate.
      rewrite newlinesBefore_in_line by (exact Hl || lia). lia.
  - apply Nat.ltb_ge in E.
    destruct ls as [|y ls].
    + simpl join in Hlen. lia.
    + rewrite join_cons in Hlen |- * by discriminate.
      change (newline ++ join newline (y :: ls))
        with (10 :: join newline (y :: ls)) in Hlen |- *.
      rewrite length_app in Hlen. cbn [length] in Hlen.
      rewrite IH by (discriminate || lia).
      rewrite newlinesBefore_next_line by (exact Hl || lia).
      f_equal. replace (start - (cc + (length l + 1)))%nat
        with (start - cc - length l - 1)%nat by lia. lia.
Qed.

Lemma findEndLine_findStartLine (ls : list jsstring) (i cc finish : nat) :
  (0 < finish)%nat ->
  findEndLine ls i cc finish = findStartLine ls i cc (finish - 1).
Proof.
  intros Hpos. revert i cc. induction ls as [|l ls IH]; intros i cc;
    [reflexivity|].
  cbn [findEndLine findStartLine]. rewrite IH.
  destruct (finish <=? cc + (length l + 1))%nat eqn:E1;
    destruct (finish - 1 <? cc + (length l + 1))%nat eqn:E2; try reflexivity.
  - apply Nat.leb_le in E1. apply Nat.ltb_ge in E2. lia.
  - apply Nat.leb_gt in E1. apply Nat.ltb_lt in E2. lia.
Qed.

Lemma join_split_lines (text : jsstring) :
  join newline (split newline text) = text.
Proof.
  unfold split, newline.
  now destruct (split_from_spec 10 [] text (fun H => H)) as [-> _].
Qed.

(** X8. The lines a selection touches.  For a selection inside the text,
    the start line is the line the selection start is on, counted by the
    newlines before it; with nothing selected the end line is the same
    line; otherwise the end line is the line of the last selected code
    unit, so a selection that ends right after a newline does not reach
    the line that follows. *)
Theorem toggleSQLComment_line_range (ta : Textarea) :
  (selectionStart ta <= selectionEnd ta <= length (value ta))%nat ->
  startLineOf ta = newlinesBefore (selectionStart ta) (value ta) /\
  (selectionStart ta = selectionEnd ta -> endLineOf ta = startLineOf ta) /\
  ((selectionStart ta < selectionEnd ta)%nat ->
   endLineOf ta = newlinesBefore (selectionEnd ta - 1) (value ta) /\
   (startLineOf ta <= endLineOf ta)%nat).
Proof.
  intros [Hse Hel].
  destruct (split_lines_free (value ta)) as [Hfree Hne].
  assert (Hs : startLineOf ta = newlinesBefore (selectionStart ta) (value ta)).
  { unfold startLineOf.
    rewrite findStartLine_spec;
      rewrite ?join_split_lines, ?Nat.sub_0_r; try assumption; try lia.
    reflexivity. }
  split; [exact Hs|]. split.
  - intros E. unfold endLineOf. now rewrite (proj2 (Nat.eqb_eq _ _) E).
  - intros Hlt.
    assert (He : endLineOf ta
                 = newlinesBefore (selectionEnd ta - 1) (value ta)).
    { unfold endLineOf.
      rewrite (proj2 (Nat.eqb_neq (selectionStart ta) (selectionEnd ta))
                 ltac:(lia)).
      rewrite findEndLine_findStartLine by lia.
      rewrite findStartLine_spec;
        rewrite ?join_split_lines, ?Nat.sub_0_r; try assumption; try lia.
      reflexivity. }
    split; [exact He|]. rewrite Hs, He. unfold newlinesBefore.
    replace (selectionEnd ta - 1)%nat
      with (selectionStart ta + (selectionEnd ta - 1 - selectionStart ta))%nat
      by lia.
    rewrite <- take_take_drop, List.filter_app, length_app. lia.
Qed.

Lemma toggleSQLComment_line_range_witness :
  startLineOf threeLines = 1%nat /\ endLineOf threeLines = 1%nat.
Proof.
  destruct (toggleSQLComment_line_range threeLines
              ltac:(vm_compute; lia)) as (Hs & _ & He).
  destruct (He ltac:(vm_compute; lia)) as [He' _].
  rewrite Hs, He'. split; reflexivity.
Defined.

(** ** Switching modes *)

Lemma sync_text_mode (s : NotebookState) :
  isNotebookMode s = false -> syncCellsToAceEditor s = s.
Proof.
  intros H. unfold syncCellsToAceEditor. rewrite H.
  now destruct (aceEditor s).
Qed.

(** A render pass outside notebook mode leaves the editor handle, the
    sub-widgets and the mode alone. *)
Lemma renderCells_text_mode (fuel : nat) (s : NotebookState) :
  isNotebookMode s = false ->
  exists s',
    renderCells (S (S fuel)) s = Some s' /\
    cells s' <> [] /\
    (cells s <> [] -> cells s' = cells s) /\
    (cells s = [] -> List.map content (cells s') = [[]]) /\
    aceEditor s' = aceEditor s /\
    cellEditors s' = cellEditors s /\
    isNotebookMode s' = false.
Proof.
  intros Hmode.
  destruct (cells s) as [|c cs] eqn:Hcells.
  - pose proof (renderCellElements_preserves s) as (Hc1 & Ha1 & Hm1 & He1 & _).
    set (s1 := renderCellElements s) in *.
    set (s2 := with_cells (cells s1 ++ [blankCell s1]) s1).
    pose proof (renderCellElements_preserves s2) as (Hc3 & Ha3 & Hm3 & He3 & _).
    set (s3 := renderCellElements s2) in *.
    assert (Hm : isNotebookMode s3 = false)
      by (rewrite Hm3; unfold s2; cbn; now rewrite Hm1).
    assert (Hs2 : cells s2 = [blankCell s1])
      by (unfold s2; cbn; now rewrite Hc1, Hcells).
    exists (snd (setTimeout (FocusNewCell None) 100 (syncCellsToAceEditor s3))).
    rewrite (sync_text_mode s3 Hm).
    destruct (setTimeout_frame (FocusNewCell None) 100 s3)
      as (-> & -> & -> & ->).
    split.
    { change (renderCells (S (S fuel)) s)
        with (if Nat.eqb (length (cells s1)) 0
              then addNewCell_with (renderCells (S fuel)) None s1
              else Some s1).
      rewrite Hc1, Hcells. cbn [length Nat.eqb].
      unfold addNewCell_with. fold s2.
      rewrite renderCells_nonempty by (rewrite Hs2; discriminate).
      cbn [mbind option_bind]. fold s3. now rewrite (sync_text_mode s3 Hm). }
    rewrite Hc3, Hs2, Ha3, He3. unfold s2. cbn [aceEditor cellEditors with_cells].
    rewrite Ha1, He1.
    repeat split; try discriminate; try reflexivity; try assumption.
    intros H. now destruct H.
  - exists (renderCellElements s).
    pose proof (renderCellElements_preserves s) as (Hc1 & Ha1 & Hm1 & He1 & _).
    split; [apply renderCells_nonempty; rewrite Hcells; discriminate|].
    rewrite Hc1, Ha1, He1, Hm1, Hcells.
    repeat split; try discriminate; try reflexivity; try assumption.
Qed.

(** What the [try] block of [switchToNotebookMode] does in text mode. *)
Lemma enterNotebook_returns (fuel : nat) (ed : AceEditor) (p : Page) :
  isNotebookMode (notebook p) = false ->
  aceEditor (notebook p) = Some ed ->
  exists p',
    enterNotebook (S (S fuel)) ed p = Some p' /\
    isNotebookMode (notebook p') = true /\
    aceEditor (notebook p') = Some ed /\
    cellEditors (notebook p') = cellEditors (notebook p) /\
    List.map content (cells (notebook p')) =
      match parseQueries (config (notebook p)) (fun _ => now (notebook p))
              (buffer ed) with
      | [] => [[]]
      | parsed => List.map content parsed
      end /\
    originalShown p' = false /\ notebookShown p' = true /\
    containerKnown p' = containerKnown p /\
    alerts p' = alerts p /\
    preference p' =
      if storageThrows p then preference p else Some (lit "true").
Proof.
  intros Hmode Hed. unfold enterNotebook.
  set (parsed := parseQueries _ _ _).
  set (s1 := with_cells parsed (notebook p)).
  destruct (renderCells_text_mode fuel s1 Hmode)
    as (s2 & -> & Hne & Hkeep & Hblank & Ha & He & _).
  cbn [mbind option_bind]. eexists. split; [reflexivity|].
  unfold saveNotebookModePreference.
  cbn [storageThrows with_notebook with_display].
  destruct (storageThrows p); cbn;
    (repeat split; try assumption; try reflexivity;
     [now rewrite Ha | unfold getValue; change (cells s1) with parsed in *;
        destruct parsed; [now apply Hblank | rewrite Hkeep; [reflexivity | discriminate]]]).
Qed.

(** X9. From text mode, with an editor handle stored or found and its
    container stored, found with the handle or looked up from an editor
    element, [switchToNotebookMode] returns in notebook mode.  The cells
    hold the trimmed non-blank fragments of the buffer, or one blank cell
    when there is none; the buffer is not written, the sub-widgets are
    those of before, the host editor is hidden and the notebook shown, no
    alert is raised, and the preference [true] is stored unless the store
    throws. *)
Theorem switchToNotebookMode_enters (fuel : nat) (p : Page) (ed : AceEditor) :
  isNotebookMode (notebook p) = false ->
  handleOf p = Some ed ->
  containerReachable p = true ->
  exists p',
    switchToNotebookMode (S (S fuel)) p = Some p' /\
    isNotebookMode (notebook p') = true /\
    aceEditor (notebook p') = Some ed /\
    cellEditors (notebook p') = cellEditors (notebook p) /\
    List.map content (cells (notebook p')) =
      match parseQueries (config (notebook p)) (fun _ => now (notebook p))
              (buffer ed) with
      | [] => [[]]
      | parsed => List.map content parsed
      end /\
    originalShown p' = false /\ notebookShown p' = true /\
    containerKnown p' = true /\
    alerts p' = alerts p /\
    preference p' =
      if storageThrows p then preference p else Some (lit "true").
Proof.
  intros Hmode Hhandle Hreach.
  unfold handleOf in Hhandle. unfold containerReachable in Hreach.
  unfold switchToNotebookMode.
  destruct (aceEditor (notebook p)) as [e|] eqn:Hed.
  - injection Hhandle as ->. cbn [negb]. rewrite Hed.
    rewrite orb_false_r in Hreach.
    destruct (containerKnown p) eqn:Hck.
    + destruct (enterNotebook_returns fuel ed p Hmode Hed)
        as (p' & Hrun & H1 & H2 & H3 & H4 & H5 & H6 & H7 & H8 & H9).
      exists p'. rewrite H7 in *. now repeat split.
    + cbn [orb] in Hreach. rewrite Hreach.
      destruct (enterNotebook_returns fuel ed (with_containerKnown true p))
        as (p' & Hrun & H1 & H2 & H3 & H4 & H5 & H6 & H7 & H8 & H9);
        [exact Hmode | exact Hed |].
      exists p'. now repeat split.
  - unfold findAceEditor. rewrite Hhandle. cbn [negb].
    cbn [notebook with_containerKnown with_notebook aceEditor with_aceEditor
         containerKnown].
    destruct (enterNotebook_returns fuel ed
                (with_containerKnown true
                   (with_notebook (with_aceEditor (Some ed) (notebook p)) p)))
      as (p' & Hrun & H1 & H2 & H3 & H4 & H5 & H6 & H7 & H8 & H9);
      [exact Hmode | reflexivity |].
    exists p'. now repeat split.
Qed.

Lemma switchToNotebookMode_enters_witness :
  exists p',
    switchToNotebookMode 2 (textPage (lit "select 1; ;select 2;")) = Some p' /\
    isNotebookMode (notebook p') = true /\
    List.map content (cells (notebook p')) = [lit "select 1"; lit "select 2"] /\
    bufferOf (notebook p') = lit "select 1; ;select 2;" /\
    preference p' = Some (lit "true").
Proof.
  destruct (switchToNotebookMode_enters 0
              (textPage (lit "select 1; ;select 2;"))
              {| buffer := lit "select 1; ;select 2;"; setValueCalls := [] |}
              eq_refl eq_refl eq_refl)
    as (p' & Hrun & Hmode & Hed & _ & Hcells & _ & _ & _ & _ & Hpref).
  exists p'. unfold bufferOf. rewrite Hed.
  repeat split; assumption.
Defined.

(** X10. When no editor handle is stored and none is found, or a handle is
    stored but its container is neither stored nor to be looked up,
    [switchToNotebookMode] raises one alert and changes nothing else: the
    notebook state, the mode, what is shown and the stored preference are
    those of before. *)
Theorem switchToNotebookMode_gives_up (fuel : nat) (p : Page) :
  handleOf p = None \/ containerReachable p = false ->
  exists message,
    switchToNotebookMode fuel p = Some (alert message p) /\
    message = (match handleOf p with
               | None => noEditorMessage
               | Some _ => noContainerMessage
               end) /\
    notebook (alert message p) = notebook p /\
    originalShown (alert message p) = originalShown p /\
    notebookShown (alert message p) = notebookShown p /\
    preference (alert message p) = preference p /\
    alerts (alert message p) = alerts p ++ [message].
Proof.
  unfold handleOf, containerReachable, switchToNotebookMode.
  intros [H|H].
  - destruct (aceEditor (notebook p)) eqn:Hed; [discriminate|].
    unfold findAceEditor. rewrite H. cbn [negb].
    exists noEditorMessage. now repeat split.
  - destruct (aceEditor (notebook p)) as [ed|] eqn:Hed.
    + rewrite orb_false_r in H. apply orb_false_elim in H as [Hck Hel].
      cbn [negb]. rewrite Hed, Hck, Hel.
      exists noContainerMessage. now repeat split.
    + now rewrite orb_true_r in H.
Qed.

Lemma switchToNotebookMode_gives_up_witness :
  exists message,
    switchToNotebookMode 0
      (with_notebook (with_aceEditor None (notebook (textPage [])))
         (textPage [])) =
      Some (alert message
              (with_notebook (with_aceEditor None (notebook (textPage [])))
                 (textPage []))) /\
    message = noEditorMessage.
Proof.
  destruct (switchToNotebookMode_gives_up 0
              (with_notebook (with_aceEditor None (notebook (textPage [])))
                 (textPage []))
              (or_introl eq_refl))
    as (message & Hrun & Hmsg & _).
  exists message. split; [exact Hrun | exact Hmsg].
Defined.

Lemma imap_resolved_no_editors (s : NotebookState) :
  cellEditors s = ∅ ->
  imap (resolved s) (cells s) = List.map content (cells s).
Proof.
  intros He. unfold resolved. rewrite He.
  assert (H : forall (g : nat -> nat) (l : list Cell),
             imap (fun (i : nat) (cell : Cell) =>
                     match (∅ : gmap nat CellEditor) !! g i with
                     | Some e => liveValue e
                     | None => content cell
                     end) l = List.map content l).
  { intros g l. revert g. induction l as [|c l IH]; intros g; [reflexivity|].
    cbn [imap List.map]. rewrite lookup_empty. f_equal.
    apply (IH (g ∘ S)). }
  apply (H (fun i => i)).
Qed.

(** Outside notebook mode no timer callback writes the buffer or changes
    the mode. *)
Lemma fire_text_mode (tm : Timer) (s : NotebookState) :
  isNotebookMode s = false ->
  isNotebookMode (fire tm s) = false /\ aceEditor (fire tm s) = aceEditor s.
Proof.
  intros Hmode. unfold fire.
  destruct (callback tm); cbn [runCallback]; try (now split).
  - unfold createCellAceEditor. cbn [windowAce with_now with_timers].
    now destruct (windowAce s).
  - unfold updateCellContent. cbn [cells with_now with_timers].
    destruct (in_bounds _ _); [|now split].
    rewrite sync_text_mode by exact Hmode. now split.
Qed.

Lemma elapse_text_mode (t : nat) (s : NotebookState) :
  isNotebookMode s = false ->
  isNotebookMode (elapse t s) = false /\ aceEditor (elapse t s) = aceEditor s.
Proof.
  intros Hmode. unfold elapse. cbn [isNotebookMode aceEditor with_now].
  apply (elapse_loop_invariant
           (fun x => isNotebookMode x = false /\ aceEditor x = aceEditor s)).
  - intros x tm [Hx Ha] _ _.
    destruct (fire_text_mode tm x Hx) as [H1 H2]. split; congruence.
  - now split.
Qed.

(** X11. Leaving notebook mode flushes the cells: with the container
    stored, an editor handle and readable sub-widgets, [switchToTextMode]
    leaves in the buffer the trimmed non-blank contents, joined, each cell
    counted with the text of its sub-widget when it has one.  The
    sub-widgets are dropped, the cells kept, the host editor shown again,
    the preference [false] stored unless the store throws; and whatever
    timers are still pending, none of them writes the buffer afterwards. *)
Theorem switchToTextMode_flushes (p : Page) (ed : AceEditor) :
  containerKnown p = true ->
  aceEditor (notebook p) = Some ed ->
  isNotebookMode (notebook p) = true ->
  (forall i e, cellEditors (notebook p) !! i = Some e ->
               editorThrows e = false) ->
  let p' := switchToTextMode p in
  isNotebookMode (notebook p') = false /\
  cellEditors (notebook p') = ∅ /\
  cells (notebook p') = cells (notebook p) /\
  bufferOf (notebook p') =
    joinerSpec (imap (resolved (notebook p)) (cells (notebook p))) /\
  originalShown p' = true /\ notebookShown p' = false /\
  preference p' =
    (if storageThrows p then preference p else Some (lit "false")) /\
  forall t, bufferOf (elapse t (notebook p')) = bufferOf (notebook p').
Proof.
  intros Hck Hed Hmode Hok p'.
  assert (Hnb : notebook p' =
            with_isNotebookMode false
              (with_cellEditors ∅ (syncCellsToAceEditor (notebook p)))).
  { unfold p', switchToTextMode, saveNotebookModePreference. rewrite Hck.
    cbn [storageThrows with_display with_notebook].
    now destruct (storageThrows p). }
  assert (Hpage : originalShown p' = true /\ notebookShown p' = false /\
            preference p' =
              (if storageThrows p then preference p else Some (lit "false"))).
  { unfold p', switchToTextMode, saveNotebookModePreference. rewrite Hck.
    cbn [storageThrows with_display with_notebook].
    now destruct (storageThrows p). }
  destruct (sync_preserves (notebook p)) as (Hc & _).
  rewrite Hnb.
  split; [reflexivity|]. split; [reflexivity|]. split; [exact Hc|].
  split; [exact (sync_joinerSpec (notebook p) ed Hed Hmode Hok)|].
  split; [apply Hpage|]. split; [apply Hpage|]. split; [apply Hpage|].
  intros t. unfold bufferOf.
  set (s' := with_isNotebookMode false _).
  now rewrite (proj2 (elapse_text_mode t s' eq_refl)).
Qed.

Lemma switchToTextMode_flushes_witness :
  bufferOf (notebook (switchToTextMode (notebookPage editedNotebook))) =
    joinerSpec (imap (resolved editedNotebook) (cells editedNotebook)) /\
  joinerSpec (imap (resolved editedNotebook) (cells editedNotebook)) =
    lit "select 3" ++ cellJoiner ++ lit "select 2" /\
  preference (switchToTextMode (notebookPage editedNotebook)) =
    Some (lit "false").
Proof.
  assert (Hok : forall i e,
             cellEditors (notebook (notebookPage editedNotebook)) !! i = Some e ->
             editorThrows e = false).
  { intros i e H.
    change (cellEditors (notebook (notebookPage editedNotebook)))
      with ({[ 1%nat := {| liveValue := lit " select 3 ";
                           editorThrows := false |} ]}
              : gmap nat CellEditor) in H.
    apply lookup_singleton_Some in H as [_ <-]. reflexivity. }
  destruct (switchToTextMode_flushes (notebookPage editedNotebook)
              {| buffer := lit "old"; setValueCalls := [] |}
              eq_refl eq_refl eq_refl Hok)
    as (_ & _ & _ & Hbuf & _ & _ & Hpref & _).
  split; [exact Hbuf|]. split; [reflexivity | exact Hpref].
Defined.

Lemma splitBuffer_tidy (clock : nat -> nat) (text : jsstring) :
  Forall tidy (splitBuffer clock text).
Proof.
  unfold splitBuffer.
  rewrite (parseQueries_content DEFAULT_CONFIG clock text 59) by reflexivity.
  apply tidy_survivors. now apply split_from_spec.
Qed.

(** Splitting what [normalised] gives and joining again changes nothing. *)
Lemma normalised_idem (clock clock' : nat -> nat) (text : jsstring) :
  normalised clock' (normalised clock text) = normalised clock text.
Proof.
  unfold normalised.
  pose proof (splitBuffer_tidy clock text) as HT.
  rewrite (joinerSpec_tidy _ HT) at 1.
  now rewrite (split_join_contents clock' _ HT).
Qed.

Lemma switchToNotebookMode_text_to_notebook (fuel : nat) (p : Page)
    (ed : AceEditor) :
  isNotebookMode (notebook p) = false ->
  aceEditor (notebook p) = Some ed ->
  containerKnown p = true ->
  exists p1,
    switchToNotebookMode (S (S fuel)) p = Some p1 /\
    isNotebookMode (notebook p1) = true /\
    aceEditor (notebook p1) = Some ed /\
    cellEditors (notebook p1) = cellEditors (notebook p) /\
    List.map content (cells (notebook p1)) =
      match parseQueries (config (notebook p)) (fun _ => now (notebook p))
              (buffer ed) with
      | [] => [[]]
      | parsed => List.map content parsed
      end /\
    containerKnown p1 = true.
Proof.
  intros Hmode Hed Hck. unfold switchToNotebookMode.
  rewrite Hed. cbn [negb]. rewrite Hed, Hck.
  destruct (enterNotebook_returns fuel ed p Hmode Hed)
    as (p1 & Hrun & H1 & H2 & H3 & H4 & _ & _ & H7 & _).
  exists p1. rewrite H7. now repeat split.
Qed.

Lemma switchToTextMode_state (p : Page) :
  containerKnown p = true ->
  notebook (switchToTextMode p) =
    with_isNotebookMode false
      (with_cellEditors ∅ (syncCellsToAceEditor (notebook p))) /\
  originalShown (switchToTextMode p) = true /\
  notebookShown (switchToTextMode p) = false.
Proof.
  intros Hck. unfold switchToTextMode, saveNotebookModePreference.
  rewrite Hck. cbn [storageThrows with_display with_notebook].
  now destruct (storageThrows p).
Qed.

(** X12. The toggle pressed twice in a row from text mode, with the
    semicolon as the separator and no sub-widget registered: the page goes
    into notebook mode and back, the buffer ends up as its fragments
    trimmed, without the blank ones, joined by a semicolon and a blank
    line, the host editor is shown again, and the buffer was written at
    most once.  The buffer it leaves is its own normal form, and a
    buffer that is its own normal form comes back unwritten. *)
Theorem mode_round_trip (fuel fuel' : nat) (p : Page) (ed : AceEditor) :
  isNotebookMode (notebook p) = false ->
  aceEditor (notebook p) = Some ed ->
  containerKnown p = true ->
  querySeparator (config (notebook p)) = [59] ->
  cellEditors (notebook p) = ∅ ->
  exists p1 p2,
    toggleNotebookMode (S (S fuel)) p = Some p1 /\
    isNotebookMode (notebook p1) = true /\
    toggleNotebookMode fuel' p1 = Some p2 /\
    let clock := fun _ : nat => now (notebook p) in
    isNotebookMode (notebook p2) = false /\
    originalShown p2 = true /\ notebookShown p2 = false /\
    bufferOf (notebook p2) = normalised clock (buffer ed) /\
    (writeCount (notebook p2) <= S (length (setValueCalls ed)))%nat /\
    (buffer ed = normalised clock (buffer ed) ->
     aceEditor (notebook p2) = Some ed) /\
    (forall clock', normalised clock' (bufferOf (notebook p2)) =
                    bufferOf (notebook p2)).
Proof.
  intros Hmode Hed Hck Hsep Hnone.
  destruct (switchToNotebookMode_text_to_notebook fuel p ed Hmode Hed Hck)
    as (p1 & Hrun & Hm1 & He1 & Hce1 & Hcells & Hck1).
  exists p1, (switchToTextMode p1).
  split; [unfold toggleNotebookMode; now rewrite Hmode|].
  split; [exact Hm1|].
  split; [unfold toggleNotebookMode; now rewrite Hm1|]. cbv zeta.
  assert (Hok : forall i e, cellEditors (notebook p1) !! i = Some e ->
                            editorThrows e = false).
  { intros i e H. rewrite Hce1, Hnone, lookup_empty in H. discriminate. }
  destruct (switchToTextMode_state p1 Hck1) as (Hnb & Ho & Hn).
  assert (Hfull : fullContent (cellEditors (notebook p1)) (cells (notebook p1))
                  = normalised (fun _ => now (notebook p)) (buffer ed)).
  { pose proof (sync_joinerSpec (notebook p1) ed He1 Hm1 Hok) as Hj.
    rewrite (sync_buffer (notebook p1) ed He1 Hm1) in Hj. rewrite Hj.
    rewrite imap_resolved_no_editors by (now rewrite Hce1).
    rewrite Hcells. unfold normalised.
    assert (Hpq : List.map content
                    (parseQueries (config (notebook p))
                       (fun _ => now (notebook p)) (buffer ed)) =
                  splitBuffer (fun _ => now (notebook p)) (buffer ed)).
    { unfold splitBuffer.
      rewrite (parseQueries_content DEFAULT_CONFIG
                 (fun _ => now (notebook p)) (buffer ed) 59) by reflexivity.
      exact (parseQueries_content (config (notebook p))
               (fun _ => now (notebook p)) (buffer ed) 59 Hsep). }
    rewrite <- Hpq. now destruct (parseQueries _ _ _). }
  rewrite Hnb. split; [reflexivity|]. split; [exact Ho|]. split; [exact Hn|].
  assert (Hbuf : bufferOf
                   (with_isNotebookMode false
                      (with_cellEditors ∅ (syncCellsToAceEditor (notebook p1))))
                 = normalised (fun _ => now (notebook p)) (buffer ed) /\
                 (writeCount
                    (with_isNotebookMode false
                       (with_cellEditors ∅ (syncCellsToAceEditor (notebook p1))))
                  <= S (length (setValueCalls ed)))%nat /\
                 (buffer ed = normalised (fun _ => now (notebook p)) (buffer ed) ->
                  aceEditor
                    (with_isNotebookMode false
                       (with_cellEditors ∅ (syncCellsToAceEditor (notebook p1))))
                  = Some ed)).
  { unfold bufferOf, writeCount.
    cbn [aceEditor with_isNotebookMode with_cellEditors].
    unfold syncCellsToAceEditor. rewrite He1, Hm1. cbn [negb]. cbv zeta.
    rewrite Hfull. unfold getValue.
    destruct (str_eqb _ _) eqn:E.
    - apply str_eqb_eq in E. rewrite He1. cbn [from_option].
      split; [exact E|]. split; [lia | reflexivity].
    - cbn [aceEditor with_aceEditor from_option setValue buffer setValueCalls
           length].
      split; [reflexivity|]. split; [lia|].
      intros H. apply str_eqb_eq in H. congruence. }
  destruct Hbuf as (Hb & Hw & Hsame).
  split; [exact Hb|]. split; [exact Hw|]. split; [exact Hsame|].
  intros clock'. rewrite Hb. apply normalised_idem.
Qed.

Lemma mode_round_trip_witness :
  exists p1 p2,
    toggleNotebookMode 2 (textPage (lit "select 1; ;select 2;")) = Some p1 /\
    toggleNotebookMode 0 p1 = Some p2 /\
    bufferOf (notebook p2) = lit "select 1" ++ cellJoiner ++ lit "select 2".
Proof.
  destruct (mode_round_trip 0 0 (textPage (lit "select 1; ;select 2;"))
              {| buffer := lit "select 1; ;select 2;"; setValueCalls := [] |}
              eq_refl eq_refl eq_refl eq_refl eq_refl)
    as (p1 & p2 & Hrun & _ & Hback & _ & _ & _ & Hbuf & _).
  exists p1, p2. split; [exact Hrun|]. split; [exact Hback | exact Hbuf].
Defined.

(** ** Deleting a cell and the buffer *)

Lemma sync_keeps_handle (s : NotebookState) :
  is_Some (aceEditor s) -> is_Some (aceEditor (syncCellsToAceEditor s)).
Proof.
  intros [ed Hed]. unfold syncCellsToAceEditor. rewrite Hed.
  destruct (negb _); [rewrite Hed; eauto|]. cbv zeta.
  destruct (str_eqb _ _); [rewrite Hed; eauto | cbn; eauto].
Qed.

(** What a render pass leaves alone, in either mode. *)
Lemma renderCells_frame (fuel : nat) (s : NotebookState) :
  exists s',
    renderCells (S (S fuel)) s = Some s' /\
    (cells s <> [] -> cells s' = cells s) /\
    (cells s = [] -> List.map content (cells s') = [[]]) /\
    cellEditors s' = cellEditors s /\
    isNotebookMode s' = isNotebookMode s /\
    (is_Some (aceEditor s) -> is_Some (aceEditor s')).
Proof.
  destruct (cells s) as [|c cs] eqn:Hcells.
  - pose proof (renderCellElements_preserves s) as (Hc1 & Ha1 & Hm1 & He1 & _).
    set (s1 := renderCellElements s) in *.
    set (s2 := with_cells (cells s1 ++ [blankCell s1]) s1).
    pose proof (renderCellElements_preserves s2) as (Hc3 & Ha3 & Hm3 & He3 & _).
    set (s3 := renderCellElements s2) in *.
    destruct (sync_preserves s3) as (Hc4 & Hm4 & He4 & _).
    assert (Hs2 : cells s2 = [blankCell s1])
      by (unfold s2; cbn; now rewrite Hc1, Hcells).
    exists (snd (setTimeout (FocusNewCell None) 100 (syncCellsToAceEditor s3))).
    destruct (setTimeout_frame (FocusNewCell None) 100 (syncCellsToAceEditor s3))
      as (-> & -> & -> & ->).
    split.
    { change (renderCells (S (S fuel)) s)
        with (if Nat.eqb (length (cells s1)) 0
              then addNewCell_with (renderCells (S fuel)) None s1
              else Some s1).
      rewrite Hc1, Hcells. cbn [length Nat.eqb].
      unfold addNewCell_with. fold s2.
      rewrite renderCells_nonempty by (rewrite Hs2; discriminate).
      reflexivity. }
    rewrite Hc4, Hc3, Hs2, He4, He3, Hm4, Hm3.
    unfold s2. cbn [cellEditors isNotebookMode with_cells].
    rewrite He1, Hm1.
    split; [intros H; now destruct H|].
    split; [reflexivity|]. split; [reflexivity|]. split; [reflexivity|].
    intros Hsome. apply sync_keeps_handle. rewrite Ha3.
    unfold s2. cbn [aceEditor with_cells]. now rewrite Ha1.
  - exists (renderCellElements s).
    pose proof (renderCellElements_preserves s) as (Hc1 & Ha1 & Hm1 & He1 & _).
    split; [apply renderCells_nonempty; rewrite Hcells; discriminate|].
    rewrite Hc1, Ha1, He1, Hm1, Hcells.
    repeat split; try discriminate; try reflexivity; try assumption.
    all: now intros.
Qed.

(** [deleteCell] on a cell of the sequence returns, and the buffer it
    leaves is the text the joiner computes from the cells and sub-widgets
    it leaves. *)
Lemma deleteCell_synced (fuel : nat) (index : Z) (s : NotebookState) :
  is_Some (aceEditor s) ->
  isNotebookMode s = true ->
  in_bounds index (cells s) = true ->
  exists s',
    deleteCell (S (S fuel)) index s = Some s' /\
    cellEditors s' = cellEditors (releaseCellEditor (Z.to_nat index) s) /\
    (delete (Z.to_nat index) (cells s) <> [] ->
     cells s' = delete (Z.to_nat index) (cells s)) /\
    (delete (Z.to_nat index) (cells s) = [] ->
     List.map content (cells s') = [[]]) /\
    bufferOf s' = fullContent (cellEditors s') (cells s').
Proof.
  intros Hsome Hmode Hin. unfold deleteCell. rewrite Hin. cbv zeta.
  set (i := Z.to_nat index).
  set (s1 := releaseCellEditor i s).
  assert (H1 : cells s1 = cells s /\ aceEditor s1 = aceEditor s /\
               isNotebookMode s1 = isNotebookMode s).
  { unfold s1, releaseCellEditor.
    destruct (cellEditors s !! i) as [e|]; [|now repeat split].
    now destruct (editorThrows e). }
  destruct H1 as (Hc1 & Ha1 & Hm1).
  set (s2 := with_cells (delete i (cells s1)) s1).
  destruct (renderCells_frame fuel s2)
    as (s3 & -> & Hkeep & Hblank & He3 & Hm3 & Ha3).
  cbn [mbind option_bind].
  assert (Hsome3 : is_Some (aceEditor s3)).
  { apply Ha3. unfold s2. cbn [aceEditor with_cells]. now rewrite Ha1. }
  assert (Hmode3 : isNotebookMode s3 = true).
  { rewrite Hm3. unfold s2. cbn [isNotebookMode with_cells]. congruence. }
  destruct Hsome3 as [ed3 Hed3].
  pose proof (sync_buffer s3 ed3 Hed3 Hmode3) as Hbuf.
  destruct (sync_preserves s3) as (Hc4 & _ & He4 & _).
  set (s4 := syncCellsToAceEditor s3) in *.
  assert (Hfacts :
    cellEditors s4 = cellEditors s1 /\
    (delete i (cells s) <> [] -> cells s4 = delete i (cells s)) /\
    (delete i (cells s) = [] -> List.map content (cells s4) = [[]]) /\
    bufferOf s4 = fullContent (cellEditors s4) (cells s4)).
  { rewrite Hc4, He4, He3. unfold s2 in *. cbn [cells cellEditors with_cells] in *.
    rewrite Hc1 in *. repeat split; try assumption.
    now rewrite Hbuf, He3. }
  destruct ((0 <=? _)%Z && _).
  - eexists. split; [reflexivity|].
    destruct (setTimeout_frame (FocusCell (focusIndexAfterDelete
                (length (cells s1)) index)) 100 s4) as (Hx & Hy & Hz & _).
    unfold bufferOf. rewrite Hx, Hy, Hz. exact Hfacts.
  - eexists. split; [reflexivity | exact Hfacts].
Qed.

Lemma fullContent_joinerSpec (s : NotebookState) :
  (forall i e, cellEditors s !! i = Some e -> editorThrows e = false) ->
  fullContent (cellEditors s) (cells s) = joinerSpec (imap (resolved s) (cells s)).
Proof.
  intros Hok. unfold fullContent, joinerSpec.
  rewrite imap_cellContent by exact Hok.
  now rewrite filter_nonempty_map_trim.
Qed.

Lemma in_bounds_nat (i : nat) (cs : list Cell) :
  (i < length cs)%nat -> in_bounds (Z.of_nat i) cs = true.
Proof.
  intros H. unfold in_bounds. apply andb_true_intro. split.
  - apply Z.leb_le. lia.
  - apply Z.ltb_lt. lia.
Qed.

(** X13. In notebook mode with no sub-widget registered (the notebook
    shown in plain text areas), deleting a cell leaves in the buffer the
    joined text of the remaining stored contents.  The remaining cells are
    kept as they are; when the deleted cell was the only one, a blank cell
    takes its place and the buffer is empty. *)
Theorem deleteCell_removes_from_buffer (fuel : nat) (i : nat)
    (s : NotebookState) (ed : AceEditor) :
  aceEditor s = Some ed ->
  isNotebookMode s = true ->
  cellEditors s = ∅ ->
  (i < length (cells s))%nat ->
  exists s',
    deleteCell (S (S fuel)) (Z.of_nat i) s = Some s' /\
    bufferOf s' = joinerSpec (delete i (List.map content (cells s))) /\
    (2 <= length (cells s) -> cells s' = delete i (cells s))%nat /\
    (length (cells s) = 1%nat ->
     List.map content (cells s') = [[]] /\ bufferOf s' = []).
Proof.
  intros Hed Hmode Hnone Hi.
  destruct (deleteCell_synced fuel (Z.of_nat i) s)
    as (s' & Hrun & He & Hkeep & Hblank & Hbuf);
    [rewrite Hed; eauto | exact Hmode | now apply in_bounds_nat |].
  rewrite Nat2Z.id in *.
  assert (He' : cellEditors s' = ∅).
  { rewrite He. unfold releaseCellEditor. now rewrite Hnone, lookup_empty. }
  assert (Hj : bufferOf s' = joinerSpec (List.map content (cells s'))).
  { rewrite Hbuf, fullContent_joinerSpec.
    - now rewrite imap_resolved_no_editors.
    - intros j e H. rewrite He', lookup_empty in H. discriminate. }
  assert (Hb : bufferOf s' = joinerSpec (delete i (List.map content (cells s)))).
  { rewrite Hj.
    change (List.map content (cells s)) with (content <$> cells s).
    rewrite <- list_fmap_delete.
    destruct (delete i (cells s)) as [|c l] eqn:E.
    - now rewrite Hblank.
    - rewrite Hkeep; [reflexivity | discriminate]. }
  exists s'. split; [exact Hrun|]. split; [exact Hb|]. split.
  - intros H2. apply Hkeep. intros E.
    apply (f_equal length) in E. rewrite length_delete in E
      by (now apply lookup_lt_is_Some). simpl in E. lia.
  - intros H1.
    assert (E : delete i (cells s) = []).
    { apply length_zero_iff_nil. rewrite length_delete
        by (now apply lookup_lt_is_Some). lia. }
    split; [now apply Hblank|].
    rewrite Hb. change (List.map content (cells s)) with (content <$> cells s).
    now rewrite <- list_fmap_delete, E.
Qed.

Lemma deleteCell_removes_from_buffer_witness :
  exists s',
    deleteCell 2 1 threeCells = Some s' /\
    bufferOf s' = lit "select 1" ++ cellJoiner ++ lit "select 3".
Proof.
  destruct (deleteCell_removes_from_buffer 0 1 threeCells
              {| buffer := []; setValueCalls := [] |}
              eq_refl eq_refl eq_refl)
    as (s' & Hrun & Hbuf & _); [simpl; lia|].
  exists s'. split; [exact Hrun | exact Hbuf].
Defined.

(** X14. In notebook mode with a readable sub-widget in step for every
    cell, deleting a cell that is not the last releases the sub-widget of
    that cell only: those of the later cells stay under their old indices,
    one past the cells they belong to.  The joiner pass that [deleteCell]
    then runs reads them by index, so the buffer it leaves holds the old
    contents with the successor's content in the deleted cell's place and
    the last content left out, whereas the cells are the old ones without
    the deleted one. *)
Theorem deleteCell_reads_widgets_by_old_index (fuel : nat) (i : nat)
    (s : NotebookState) (ed : AceEditor) (next : Cell) :
  aceEditor s = Some ed ->
  isNotebookMode s = true ->
  inStep s ->
  (forall j e, cellEditors s !! j = Some e -> editorThrows e = false) ->
  cells s !! S i = Some next ->
  exists s',
    deleteCell (S (S fuel)) (Z.of_nat i) s = Some s' /\
    cells s' = delete i (cells s) /\
    cellEditors s' = delete i (cellEditors s) /\
    bufferOf s' =
      joinerSpec (take (length (cells s) - 1)
                    (<[i := content next]> (List.map content (cells s)))).
Proof.
  intros Hed Hmode Hstep Hok Hnext.
  pose proof (lookup_lt_Some _ _ _ Hnext) as Hlen.
  destruct (deleteCell_synced fuel (Z.of_nat i) s)
    as (s' & Hrun & He & Hkeep & _ & Hbuf);
    [rewrite Hed; eauto | exact Hmode | apply in_bounds_nat; lia |].
  rewrite Nat2Z.id in *.
  destruct (lookup_lt_is_Some_2 (cells s) i) as [ci Hci]; [lia|].
  assert (He' : cellEditors s' = delete i (cellEditors s)).
  { rewrite He. unfold releaseCellEditor. now rewrite (Hstep i ci Hci). }
  assert (Hcells : cells s' = delete i (cells s)).
  { apply Hkeep. intros E. apply (f_equal length) in E.
    rewrite length_delete in E by eauto. simpl in E. lia. }
  exists s'. split; [exact Hrun|]. split; [exact Hcells|]. split; [exact He'|].
  rewrite Hbuf, fullContent_joinerSpec.
  2:{ intros j e H. rewrite He' in H.
      apply lookup_delete_Some in H as [_ H]. now apply (Hok j). }
  f_equal. apply list_eq. intros j.
  rewrite list_lookup_imap, Hcells, list_lookup_delete, lookup_take.
  change (List.map content (cells s)) with (content <$> cells s).
  unfold resolved. rewrite He'.
  destruct (decide (j < i)%nat) as [Hlt|Hge].
  - destruct (lookup_lt_is_Some_2 (cells s) j) as [cj Hcj]; [lia|].
    rewrite Hcj. cbn [fmap option_fmap option_map].
    rewrite lookup_delete_ne by lia. rewrite (Hstep j cj Hcj).
    rewrite decide_True by lia.
    rewrite list_lookup_insert_ne by lia.
    now rewrite list_lookup_fmap, Hcj.
  - destruct (decide (j < length (cells s) - 1)%nat) as [Hin|Hout].
    + destruct (lookup_lt_is_Some_2 (cells s) (S j)) as [c' Hc']; [lia|].
      rewrite Hc'. cbn [fmap option_fmap option_map].
      destruct (decide (j = i)) as [->|Hne].
      * rewrite lookup_delete_eq.
        rewrite list_lookup_insert_eq by (rewrite length_fmap; lia).
        congruence.
      * destruct (lookup_lt_is_Some_2 (cells s) j) as [cj Hcj]; [lia|].
        rewrite lookup_delete_ne by lia. rewrite (Hstep j cj Hcj).
        rewrite list_lookup_insert_ne by lia.
        now rewrite list_lookup_fmap, Hcj.
    + rewrite (proj2 (lookup_ge_None (cells s) (S j))) by lia. reflexivity.
Qed.

Lemma threeCellsInStep_inStep : inStep threeCellsInStep.
Proof.
  intros j c H. destruct j as [|[|[|j]]]; simpl in H;
    inversion H; subst; reflexivity.
Qed.

Lemma threeCellsInStep_readable (j : nat) (e : CellEditor) :
  cellEditors threeCellsInStep !! j = Some e -> editorThrows e = false.
Proof.
  intros H. unfold threeCellsInStep in H.
  cbn [cellEditors with_cellEditors] in H.
  apply elem_of_list_to_map_2 in H.
  apply list_elem_of_In in H. simpl in H.
  destruct H as [H|[H|[H|[]]]]; injection H as _ <-; reflexivity.
Qed.

Lemma deleteCell_reads_widgets_by_old_index_witness :
  exists s',
    deleteCell 2 0 threeCellsInStep = Some s' /\
    List.map content (cells s') = [lit "select 2"; lit "select 3"] /\
    bufferOf s' = lit "select 2" ++ cellJoiner ++ lit "select 2".
Proof.
  destruct (deleteCell_reads_widgets_by_old_index 0 0 threeCellsInStep
              {| buffer := []; setValueCalls := [] |}
              {| id := of_nat 1; content := lit "select 2" |}
              eq_refl eq_refl threeCellsInStep_inStep
              threeCellsInStep_readable eq_refl)
    as (s' & Hrun & Hcells & _ & Hbuf).
  exists s'. split; [exact Hrun|]. split; [now rewrite Hcells | exact Hbuf].
Defined.

(** ** Inserting a cell and the buffer *)

Lemma splice_in_after (k j : nat) (c : Cell) (cs : list Cell) :
  (k <= j)%nat -> (k <= length cs)%nat ->
  splice_in k c cs !! S j = cs !! j.
Proof.
  intros Hj Hk. unfold splice_in.
  rewrite lookup_app_r by (rewrite length_take_le; lia).
  rewrite length_take_le by lia.
  replace (S j - k)%nat with (S (j - k)) by lia.
  change ((c :: drop k cs) !! S (j - k)%nat) with (drop k cs !! (j - k)%nat).
  rewrite lookup_drop. f_equal. lia.
Qed.

(** [copyCell] on a cell of the sequence returns; the buffer is the one a
    joiner pass over the new sequence leaves. *)
Lemma copyCell_returns (fuel : nat) (index : Z) (s : NotebookState) :
  in_bounds index (cells s) = true ->
  exists s',
    copyCell (S fuel) index s = Some s' /\
    cells s' =
      splice_in (S (Z.to_nat index))
        {| id := cell_prefix ++ of_nat (now s);
           content := liveContent s (Z.to_nat index) |}
        (cells s) /\
    aceEditor s' =
      aceEditor (syncCellsToAceEditor
                   (with_cells
                      (splice_in (S (Z.to_nat index))
                         {| id := cell_prefix ++ of_nat (now s);
                            content := liveContent s (Z.to_nat index) |}
                         (cells s)) s)).
Proof.
  intros Hb. pose proof Hb as Hb'. apply in_bounds_spec in Hb' as [Hlo Hhi].
  unfold copyCell.
  assert (Hout : (index <? 0)%Z || (Z.of_nat (length (cells s)) <=? index)%Z
                 = false).
  { apply orb_false_iff. split; [apply Z.ltb_ge | apply Z.leb_gt]; lia. }
  rewrite Hout. rewrite Nat.add_1_r.
  set (new := splice_in _ _ _).
  assert (Hne : cells (with_cells new s) <> []).
  { intros E. apply (f_equal length) in E. simpl in E. unfold new in E.
    rewrite length_splice_in in E. discriminate E. }
  rewrite (renderCells_nonempty fuel _ Hne). cbn [mbind option_bind].
  eexists. split; [reflexivity|].
  destruct (setTimeout_frame (FocusCopiedCell (S (Z.to_nat index))) 200
              (syncCellsToAceEditor (renderCellElements (with_cells new s))))
    as (-> & _ & -> & _).
  destruct (renderCellElements_preserves (with_cells new s))
    as (Hc & Ha & Hm & He & _).
  split.
  - destruct (sync_preserves (renderCellElements (with_cells new s)))
      as (-> & _). exact Hc.
  - now apply sync_aceEditor_ext.
Qed.

(** The joiner over a sequence one longer than the one the sub-widgets
    are in step with: every index but the last reads the widget of the
    old cell at that index. *)
Lemma fullContent_in_step (s : NotebookState) (new : list Cell) (x : Cell) :
  inStep s ->
  (forall j e, cellEditors s !! j = Some e -> editorThrows e = false) ->
  cellEditors s !! length (cells s) = None ->
  length new = S (length (cells s)) ->
  new !! length (cells s) = Some x ->
  fullContent (cellEditors s) new =
    joinerSpec (List.map content (cells s) ++ [content x]).
Proof.
  intros Hstep Hok Hfree Hlen Hx.
  change (fullContent (cellEditors s) new)
    with (fullContent (cellEditors (with_cells new s)) (cells (with_cells new s))).
  rewrite fullContent_joinerSpec by exact Hok.
  f_equal. apply list_eq. intros j.
  rewrite list_lookup_imap. unfold resolved.
  cbn [cells cellEditors with_cells].
  change (List.map content (cells s)) with (content <$> cells s).
  destruct (Nat.lt_trichotomy j (length (cells s))) as [Hlt|[->|Hgt]].
  - destruct (lookup_lt_is_Some_2 (cells s) j) as [cj Hcj]; [lia|].
    destruct (lookup_lt_is_Some_2 new j) as [y Hy]; [lia|].
    rewrite Hy, (Hstep j cj Hcj). cbn [fmap option_fmap option_map].
    rewrite lookup_app_l by (rewrite length_fmap; lia).
    now rewrite list_lookup_fmap, Hcj.
  - rewrite Hx, Hfree. cbn [fmap option_fmap option_map].
    rewrite lookup_app_r by (rewrite length_fmap; lia).
    rewrite length_fmap, Nat.sub_diag. reflexivity.
  - rewrite (proj2 (lookup_ge_None new j)) by lia.
    rewrite (proj2 (lookup_ge_None _ j)); [reflexivity|].
    rewrite length_app, length_fmap. simpl. lia.
Qed.

(** X15. In notebook mode with a readable sub-widget in step for every
    cell and none beyond, a cell put in by [addNewCell] at an index of the
    sequence, or by [copyCell] after a cell of it, shifts the later cells
    but not their sub-widgets.  The joiner pass that follows reads the
    widgets by index and the stored content for the one index that has no
    widget yet, the last: the buffer holds the old contents followed once
    more by the content of the old last cell, wherever the new cell went
    and whatever it holds. *)
Theorem insert_reads_widgets_by_old_index (fuel : nat) (s : NotebookState)
    (ed : AceEditor) (lastCell : Cell) :
  aceEditor s = Some ed ->
  isNotebookMode s = true ->
  inStep s ->
  (forall j e, cellEditors s !! j = Some e -> editorThrows e = false) ->
  cellEditors s !! length (cells s) = None ->
  last (cells s) = Some lastCell ->
  forall index : Z,
    in_bounds index (cells s) = true ->
    (exists s',
       addNewCell (S fuel) (Some index) s = Some s' /\
       cells s' = splice_in (Z.to_nat index) (blankCell s) (cells s) /\
       bufferOf s' =
         joinerSpec (List.map content (cells s) ++ [content lastCell])) /\
    (exists s',
       copyCell (S fuel) index s = Some s' /\
       cells s' =
         splice_in (S (Z.to_nat index))
           {| id := cell_prefix ++ of_nat (now s);
              content := liveContent s (Z.to_nat index) |} (cells s) /\
       bufferOf s' =
         joinerSpec (List.map content (cells s) ++ [content lastCell])).
Proof.
  intros Hed Hmode Hstep Hok Hfree Hlast index Hb.
  pose proof Hb as Hb'. apply in_bounds_spec in Hb' as [Hlo Hhi].
  rewrite last_lookup in Hlast.
  set (n := length (cells s)) in *.
  assert (Hbuf : forall new s',
            aceEditor s' = aceEditor (syncCellsToAceEditor (with_cells new s)) ->
            bufferOf s' = fullContent (cellEditors s) new).
  { intros new s' Ha. rewrite (bufferOf_aceEditor _ _ Ha).
    now apply (sync_buffer (with_cells new s) ed). }
  split.
  - destruct (addNewCell_returns fuel (Some index) s)
      as (s' & Hrun & Hcells & _ & _ & Ha).
    unfold landing in Hcells, Ha. rewrite Hb in Hcells, Ha.
    exists s'. split; [exact Hrun|]. split; [exact Hcells|].
    rewrite (Hbuf _ _ Ha).
    apply fullContent_in_step; try assumption.
    + apply length_splice_in.
    + fold n. replace n with (S (pred n)) at 1 by lia.
      rewrite splice_in_after by (fold n; lia). exact Hlast.
  - destruct (copyCell_returns fuel index s Hb) as (s' & Hrun & Hcells & Ha).
    exists s'. split; [exact Hrun|]. split; [exact Hcells|].
    rewrite (Hbuf _ _ Ha).
    destruct (decide (S (Z.to_nat index) = n)) as [E|E].
    + rewrite E. unfold n. rewrite splice_in_end.
      assert (Hi : Z.to_nat index = pred n) by lia.
      assert (Hlive : liveContent s (Z.to_nat index) = content lastCell).
      { unfold liveContent. rewrite Hi, (Hstep _ _ Hlast). reflexivity. }
      rewrite Hlive.
      apply (fullContent_in_step s _
               {| id := cell_prefix ++ of_nat (now s);
                  content := content lastCell |}); try assumption.
      * rewrite length_app. simpl. lia.
      * rewrite lookup_app_r by lia. now rewrite Nat.sub_diag.
    + apply fullContent_in_step; try assumption.
      * apply length_splice_in.
      * fold n. replace n with (S (pred n)) at 1 by lia.
        rewrite splice_in_after by (fold n; lia). exact Hlast.
Qed.

Lemma insert_reads_widgets_by_old_index_witness :
  exists s',
    addNewCell 1 (Some 0%Z) threeCellsInStep = Some s' /\
    List.map content (cells s') =
      [[]; lit "select 1"; lit "select 2"; lit "select 3"] /\
    bufferOf s' =
      lit "select 1" ++ cellJoiner ++ lit "select 2" ++ cellJoiner
        ++ lit "select 3" ++ cellJoiner ++ lit "select 3".
Proof.
  destruct (insert_reads_widgets_by_old_index 0 threeCellsInStep
              {| buffer := []; setValueCalls := [] |}
              {| id := of_nat 2; content := lit "select 3" |}
              eq_refl eq_refl threeCellsInStep_inStep
              threeCellsInStep_readable eq_refl eq_refl 0%Z eq_refl)
    as ((s' & Hrun & Hcells & Hbuf) & _).
  exists s'. split; [exact Hrun|]. split; [now rewrite Hcells | exact Hbuf].
Defined.

(** ** Start-up *)







